(** * domain-scanner: candidate generator, regex guard, signal classification

    A shallow embedding of the Go packages [generator], [domain], [worker]
    and of the result collector of [main], followed by the properties of
    these functions.

    Conventions.
    - Go [int] is the 64-bit two's-complement integer: values are [Z] and
      every multiplication that can leave the range is followed by [wrap64].
    - Go strings are byte strings: [string] of 8-bit [ascii].
    - A channel that a single producer fills and then closes is the list of
      the values sent, in sending order.
    - The network (resolver, TLS dialer, WHOIS client) is an oracle indexed
      by a clock that advances by one at every call, so that two calls for
      the same name may answer differently.
    - [time.Sleep] and the [dc1.de] debug prints have no effect on any value
      computed and are left out. *)

From Stdlib Require Import ZArith List Bool Ascii String Lia Arith Permutation.
Import ListNotations.

Local Open Scope string_scope.

(* ================================================================== *)
(** ** Go's [strings] package, on byte strings *)

Module GoStrings.

(** [strings.Contains s substr]. *)
Fixpoint Contains (s substr : string) : bool :=
  prefix substr s ||
  match s with
  | EmptyString => false
  | String _ tl => Contains tl substr
  end.

(** [strings.Count s substr] for a non-empty [substr]: the number of
    non-overlapping occurrences, scanning from the left.  [skip] is the
    number of bytes still covered by the occurrence just counted. *)
Fixpoint CountFrom (skip : nat) (s substr : string) : nat :=
  match s with
  | EmptyString => 0
  | String _ tl =>
      match skip with
      | S k => CountFrom k tl substr
      | O => if prefix substr s
             then S (CountFrom (String.length substr - 1) tl substr)
             else CountFrom 0 tl substr
      end
  end.

Definition Count (s substr : string) : nat := CountFrom 0 s substr.

Definition mapBytes (f : ascii -> ascii) : string -> string :=
  fix go (s : string) : string :=
    match s with
    | EmptyString => EmptyString
    | String c tl => String (f c) (go tl)
    end.

Definition lowerByte (c : ascii) : ascii :=
  let n := nat_of_ascii c in
  if (65 <=? n)%nat && (n <=? 90)%nat then ascii_of_nat (n + 32) else c.

Definition upperByte (c : ascii) : ascii :=
  let n := nat_of_ascii c in
  if (97 <=? n)%nat && (n <=? 122)%nat then ascii_of_nat (n - 32) else c.

(** [strings.ToLower] and [strings.ToUpper] on ASCII text: the letters
    A-Z (a-z) are folded, every other byte is kept.  (On text that holds
    non-ASCII runes Go also folds those; WHOIS indicators are ASCII.) *)
Definition ToLower : string -> string := mapBytes lowerByte.
Definition ToUpper : string -> string := mapBytes upperByte.

(** [strings.HasPrefix] and [strings.TrimPrefix]. *)
Definition HasPrefix (s pre : string) : bool := prefix pre s.

Definition TrimPrefix (s pre : string) : string :=
  if HasPrefix s pre
  then substring (String.length pre) (String.length s - String.length pre) s
  else s.

End GoStrings.

(* ================================================================== *)
(** ** Machine integers *)

Module GoInt.

Definition maxInt : Z := 2 ^ 63 - 1.

(** Two's-complement wrap-around of a 64-bit signed result. *)
Definition wrap64 (z : Z) : Z := (z + 2 ^ 63) mod 2 ^ 64 - 2 ^ 63.

Definition mul (a b : Z) : Z := wrap64 (a * b).

(** [len(s)] of a string, as an [int]. *)
Definition len (s : string) : Z := Z.of_nat (String.length s).

End GoInt.

(* ================================================================== *)
(** ** package types *)

Module Types.

(** [type RegexMode int] with its two constants. *)
Inductive RegexMode : Type :=
| RegexModeFull
| RegexModePrefix.

(** [Config.Scanner.Methods]. *)
Record Methods : Type := {
  DNSCheck : bool;
  WHOISCheck : bool;
  SSLCheck : bool;
  HTTPCheck : bool
}.

(** The part of [Config] the checker reads. *)
Record Config : Type := {
  ScannerMethods : Methods;
  ShowRegistered : bool
}.

(** Go's [error]: [None] is [nil]. *)
Definition error : Type := option string.

Record DomainResult : Type := {
  Domain : string;
  Available : bool;
  Error : error;
  Signatures : list string;
  SpecialStatus : string
}.

Record SpecialStatusDomain : Type := {
  ssDomain : string;
  ssStatus : string;
  ssReason : string
}.

End Types.

(* ================================================================== *)
(** ** package generator *)

Module Generator.
Import GoStrings GoInt Types.

(** A compiled [*regexp2.Regexp], seen through [MatchString]: [Some b] is
    the match result, [None] an error of the engine (a match that ran
    into [MatchTimeout] included). *)
Definition Regexp : Type := string -> option bool.

Definition letters : string := "abcdefghijklmnopqrstuvwxyz".
Definition numbers : string := "0123456789".

Inductive RegexError : Type :=
| PatternTooLong
| DangerousPattern (dangerous : string)
| TooManyQuantifiers.

Definition dangerousPatterns : list string :=
  [ "(.*)*"; "(.+)+"; "(a+)+"; "(a*)*"; "(.{0,})*"; "(\w+)*\w*" ].

(** [validateRegexComplexity]: [None] is the [nil] error. *)
Definition validateRegexComplexity (pattern : string) : option RegexError :=
  if (200 <? len pattern)%Z then Some PatternTooLong
  else
    match find (fun dangerous => Contains pattern dangerous) dangerousPatterns with
    | Some dangerous => Some (DangerousPattern dangerous)
    | None =>
        let nestedCount := (Count pattern "+" + Count pattern "*")%nat in
        if (5 <? nestedCount)%nat then Some TooManyQuantifiers else None
    end.

(** [safeRegexMatch]: the pair (match, err) with [err] reduced to
    whether it is [nil]. *)
Definition safeRegexMatch (regex : option Regexp) (input : string) : bool * bool :=
  match regex with
  | None => (true, false)
  | Some re =>
      match re input with
      | Some m => (m, false)
      | None => (false, true)
      end
  end.

(** [string(charset[i])] for an index the loop keeps in range; the three
    charsets are ASCII, where the conversion yields that one byte. *)
Definition byteAt (charset : string) (i : Z) : ascii :=
  match String.get (Z.to_nat i) charset with
  | Some c => c
  | None => zero
  end.

(** [total := 1; for i := 0; i < length; i++ { total *= charsetSize }],
    [n] iterations left. *)
Fixpoint totalLoop (n : nat) (charsetSize total : Z) : Z :=
  match n with
  | O => total
  | S n' => totalLoop n' charsetSize (mul total charsetSize)
  end.

(** The inner loop that turns the counter into [current]: each round puts
    the symbol of [temp % charsetSize] in front and divides [temp]. *)
Fixpoint currentLoop (n : nat) (charset : string) (charsetSize temp : Z)
         (current : string) : string :=
  match n with
  | O => current
  | S n' =>
      currentLoop n' charset charsetSize (Z.quot temp charsetSize)
                  (String (byteAt charset (Z.rem temp charsetSize)) current)
  end.

Definition currentOf (charset : string) (length counter : Z) : string :=
  currentLoop (Z.to_nat length) charset (len charset) counter "".

(** The [switch regexMode] of the loop body. *)
Definition matchOf (regex : option Regexp) (regexMode : RegexMode)
           (current domain : string) : bool :=
  match regexMode with
  | RegexModeFull =>
      match regex with
      | None => true
      | Some _ =>
          let '(m, err) := safeRegexMatch regex domain in
          if err then false else m
      end
  | RegexModePrefix =>
      match regex with
      | None => true
      | Some _ =>
          let '(m, err) := safeRegexMatch regex current in
          if err then false else m
      end
  end.

(** [for counter := ...; counter < total; counter++] with [n] rounds
    left; the result is what is sent on [domainChan], in order. *)
Fixpoint counterLoop (n : nat) (counter : Z) (charset : string) (length : Z)
         (suffix : string) (regex : option Regexp) (regexMode : RegexMode)
  : list string :=
  match n with
  | O => []
  | S n' =>
      let current := currentOf charset length counter in
      let domain := current ++ suffix in
      let rest := counterLoop n' (counter + 1) charset length suffix regex regexMode in
      if matchOf regex regexMode current domain then domain :: rest else rest
  end.

Definition generateCombinationsIterative (charset : string) (length : Z)
           (suffix : string) (regex : option Regexp) (regexMode : RegexMode)
  : list string :=
  let charsetSize := len charset in
  if (charsetSize =? 0)%Z || (length <=? 0)%Z then []
  else
    let total := totalLoop (Z.to_nat length) charsetSize 1 in
    counterLoop (Z.to_nat total) 0 charset length suffix regex regexMode.

(** Outcome of [GenerateDomains]: the run is aborted by [os.Exit(1)], or
    the channel carries the listed candidates and is closed. *)
Inductive Generated : Type :=
| Exit (reason : string)
| Stream (domains : list string).

(** [GenerateDomains]; [compile] stands for [regexp2.Compile _ regexp2.None]
    ([None] when the engine refuses the pattern). *)
Definition GenerateDomains (compile : string -> option Regexp)
           (length : Z) (suffix pattern regexFilter : string)
           (regexMode : RegexMode) : Generated :=
  let run (regex : option Regexp) : Generated :=
    if pattern =? "d" then
      Stream (generateCombinationsIterative numbers length suffix regex regexMode)
    else if pattern =? "D" then
      Stream (generateCombinationsIterative letters length suffix regex regexMode)
    else if pattern =? "a" then
      Stream (generateCombinationsIterative (letters ++ numbers) length suffix regex regexMode)
    else Exit "Invalid pattern" in
  if regexFilter =? "" then run None
  else
    match validateRegexComplexity regexFilter with
    | Some _ => Exit "Regex pattern rejected"
    | None =>
        match compile regexFilter with
        | None => Exit "Invalid regex pattern"
        | Some re => run (Some re)
        end
    end.

(** [CalculateDomainsCount]. *)
Definition CalculateDomainsCount (length : Z) (pattern : string) : Z :=
  let count (charsetSize : Z) := totalLoop (Z.to_nat length) charsetSize 1 in
  if pattern =? "d" then count 10%Z
  else if pattern =? "D" then count 26%Z
  else if pattern =? "a" then count 36%Z
  else 0%Z.

(** What [regexp2] computes for the pattern [^a] without options: the
    input starts with the byte [a]. *)
Definition regexp2_caret_a : Regexp := fun input => Some (prefix "a" input).

End Generator.

(* ================================================================== *)
(** ** package domain *)

Module Domain.
Import GoStrings GoInt Types.

(** Answer of [whois.Whois]: the text, or the error's message. *)
Inductive WhoisReply : Type :=
| WhoisOk (result : string)
| WhoisErr (err : string).

(** The network as seen at clock [t]: [None] is a failed lookup or dial.
    [DialTLS] answers with the number of peer certificates. *)
Record Network : Type := {
  LookupNS : nat -> string -> option (list string);
  LookupIP : nat -> string -> option (list string);
  LookupMX : nat -> string -> option (list string);
  LookupTXT : nat -> string -> option (list string);
  LookupCNAME : nat -> string -> option string;
  DialTLS : nat -> string -> option nat;
  Whois : nat -> string -> WhoisReply
}.

(** The mutable state: the clock of the network and the package variable
    [specialStatusDomains] (the mutex only serialises the appends). *)
Record World : Type := {
  clock : nat;
  specialStatusDomains : list SpecialStatusDomain
}.

Definition M (A : Type) : Type := World -> A * World.

Definition ret {A : Type} (a : A) : M A := fun w => (a, w).

Definition bind {A B : Type} (m : M A) (k : A -> M B) : M B :=
  fun w => let '(a, w') := m w in k a w'.

Declare Scope go_scope.
Delimit Scope go_scope with go.
Notation "x <- c ;; k" := (bind c (fun x => k))
  (at level 61, c at next level, right associativity) : go_scope.
Notation "' pat <- c ;; k" := (bind c (fun x => match x with pat => k end))
  (at level 61, pat pattern, c at next level, right associativity) : go_scope.
Local Open Scope go_scope.

(** One call to the network: read the oracle at the current clock, then
    advance the clock. *)
Definition call {A : Type} (oracle : nat -> A) : M A :=
  fun w => (oracle (clock w),
            {| clock := S (clock w);
               specialStatusDomains := specialStatusDomains w |}).

Definition registeredIndicators : list string :=
  [ "registrar:"; "registrant:"; "creation date:"; "created:";
    "updated date:"; "updated:"; "expiration date:"; "expires:";
    "name server:"; "nserver:"; "nameserver:"; "status: active";
    "status: client"; "status: ok"; "status: locked"; "status: connect";
    "status:connect"; "domain name:"; "domain:"; "nsentry:"; "changed:" ].

Definition reservedIndicators : list string :=
  [ "status: reserved"; "status: restricted"; "status: blocked";
    "status: prohibited"; "status: reserved for registry";
    "status: reserved for registrar";
    "status: reserved for registry operator";
    "status: reserved for future use";
    "status: not available for registration";
    "status: not available for general registration";
    "status: reserved for special purposes";
    "status: reserved for government use";
    "status: reserved for educational institutions";
    "status: reserved for non-profit organizations";
    "domain reserved"; "this domain is reserved"; "reserved domain" ].

Definition availableIndicators : list string :=
  [ "no match for"; "not found"; "no data found"; "no entries found";
    "domain not found"; "no object found"; "no matching record";
    "status: free"; "status: available"; "available for registration";
    "this domain is available"; "domain is available"; "domain available" ].

(** The local slice of [CheckDomainAvailability]. *)
Definition enhancedRegisteredIndicators : list string :=
  [ "registrar:"; "registrant:"; "creation date:"; "created:";
    "updated date:"; "updated:"; "expiration date:"; "expires:";
    "name server:"; "nserver:"; "nameserver:"; "status: active";
    "status: client"; "status: ok"; "status: locked"; "status: connect";
    "status:connect"; "domain name:"; "domain:"; "Status: connect";
    "nsentry:"; "changed:" ].

(** The local slice of [CheckDomainAvailability]. *)
Definition specialStatusIndicators : list string :=
  [ "status: redemptionperiod"; "status: redemption period";
    "status: redemption"; "redemptionperiod"; "redemption period";
    "status: pendingdelete"; "status: pending delete"; "status: hold";
    "status: inactive"; "status: suspended"; "status: reserved";
    "status: quarantined"; "status: pending"; "status: transfer";
    "status: grace"; "status: autorenewperiod";
    "status: auto renew period"; "status: expire"; "status: expired";
    "status: clienthold"; "status: client hold"; "status: serverhold";
    "status: server hold" ].

(** A [for _, indicator := range l] that stops at the first indicator
    contained in [result]. *)
Definition firstIndicator (result : string) (l : list string) : option string :=
  find (fun indicator => Contains result indicator) l.

Definition anyIndicator (result : string) (l : list string) : bool :=
  existsb (fun indicator => Contains result indicator) l.

(** The five-phrase test applied to the lowercased response and to the
    lowercased error text in [CheckDomainAvailability]. *)
Definition isRateLimit (text : string) : bool :=
  Contains text "connection refused" ||
  Contains text "access control" ||
  Contains text "limit exceeded" ||
  Contains text "rate limit" ||
  Contains text "too many requests".

(** [addToSpecialStatus]. *)
Definition addToSpecialStatus (domain reason : string) : M unit :=
  fun w => (tt,
            {| clock := clock w;
               specialStatusDomains :=
                 (specialStatusDomains w ++
                  [ {| ssDomain := domain;
                       ssStatus := reason;
                       ssReason := "WHOIS status: " ++ reason |} ])%list |}).

(** [GetSpecialStatusDomains] and [ClearSpecialStatusDomains]. *)
Definition GetSpecialStatusDomains : M (list SpecialStatusDomain) :=
  fun w => (specialStatusDomains w, w).

Definition ClearSpecialStatusDomains : M unit :=
  fun w => (tt, {| clock := clock w; specialStatusDomains := [] |}).

Section Checker.
(** The package variable [globalConfig] ([None] is [nil]: no
    configuration file was loaded) and the network. *)
Variable globalConfig : option Config.
Variable net : Network.

Definition methodEnabled (m : Methods -> bool) : bool :=
  match globalConfig with
  | None => true
  | Some c => m (ScannerMethods c)
  end.

Definition nonEmpty (r : option (list string)) : bool :=
  match r with
  | Some (_ :: _) => true
  | _ => false
  end.

(** [checkDNSRecords]; its error is always [nil]. *)
Definition checkDNSRecords (domain : string) : M (list string * error) :=
  nsRecords <- call (fun t => LookupNS net t domain) ;;
  ipRecords <- call (fun t => LookupIP net t domain) ;;
  mxRecords <- call (fun t => LookupMX net t domain) ;;
  txtRecords <- call (fun t => LookupTXT net t domain) ;;
  cnameRecord <- call (fun t => LookupCNAME net t domain) ;;
  ret (((if nonEmpty nsRecords then ["DNS_NS"] else []) ++
        (if nonEmpty ipRecords then ["DNS_A"] else []) ++
        (if nonEmpty mxRecords then ["DNS_MX"] else []) ++
        (if nonEmpty txtRecords then ["DNS_TXT"] else []) ++
        (match cnameRecord with
         | Some cname =>
             if negb (cname =? "") && negb (cname =? (domain ++ ".")%string)
             then ["DNS_CNAME"] else []
         | None => []
         end))%list,
       None).

(** The retry loop of [CheckDomainSignatures], [n] attempts left: the
    first answer without error is kept ([break]); the result is
    [whoisResult], empty when every attempt failed. *)
Fixpoint signaturesWhoisLoop (n : nat) (domain : string) : M string :=
  match n with
  | O => ret ""
  | S n' =>
      r <- call (fun t => Whois net t domain) ;;
      match r with
      | WhoisOk result => ret result
      | WhoisErr _ => signaturesWhoisLoop n' domain
      end
  end.

(** Signatures read off [whoisResult] in [CheckDomainSignatures]. *)
Definition whoisSignatures (whoisResult : string) : list string :=
  if whoisResult =? "" then []
  else
    let result := ToLower whoisResult in
    let isAvailable := anyIndicator result availableIndicators in
    if isAvailable then []
    else
      ((if anyIndicator result registeredIndicators then ["WHOIS"] else []) ++
       (if anyIndicator result reservedIndicators then ["RESERVED"] else []))%list.

(** [CheckDomainSignatures]. *)
Definition CheckDomainSignatures (domain : string) : M (list string * error) :=
  fromDNS <-
    (if methodEnabled DNSCheck then
       '(dnsSignatures, err) <- checkDNSRecords domain ;;
       ret (match err with None => dnsSignatures | Some _ => [] end)
     else ret []) ;;
  fromWHOIS <-
    (if methodEnabled WHOISCheck then
       whoisResult <- signaturesWhoisLoop 3 domain ;;
       ret (whoisSignatures whoisResult)
     else ret []) ;;
  fromSSL <-
    (if methodEnabled SSLCheck then
       conn <- call (fun t => DialTLS net t (domain ++ ":443")) ;;
       ret (match conn with
            | Some peerCertificates =>
                if (0 <? peerCertificates)%nat then ["SSL"] else []
            | None => []
            end)
     else ret []) ;;
  ret ((fromDNS ++ fromWHOIS ++ fromSSL)%list, None).

(** [handleRateLimitedDomain]. *)
Definition handleRateLimitedDomain (domain : string) (hasDNSSignatures : bool)
  : M (bool * error) :=
  if hasDNSSignatures then ret (false, None)
  else
    match globalConfig with
    | Some _ =>
        _ <- addToSpecialStatus domain "WHOIS_RATE_LIMITED" ;;
        ret (true, None)
    | None => ret (true, None)
    end.

Definition maxRetries : nat := 5.

(** The retry loop of [CheckDomainAvailability] at attempt [i] with [n]
    attempts left, followed by the final [return true, nil] that a
    [break] or the end of the loop reaches. *)
Fixpoint availabilityWhoisLoop (n i : nat) (domain : string)
         (hasDNSSignatures : bool) : M (bool * error) :=
  match n with
  | O => ret (true, None)
  | S n' =>
      r <- call (fun t => Whois net t domain) ;;
      match r with
      | WhoisOk result0 =>
          let result := ToLower result0 in
          if isRateLimit result then
            if (i <? maxRetries - 1)%nat
            then availabilityWhoisLoop n' (S i) domain hasDNSSignatures
            else handleRateLimitedDomain domain hasDNSSignatures
          else
            match firstIndicator result availableIndicators with
            | Some _ => ret (true, None)
            | None =>
                match firstIndicator result enhancedRegisteredIndicators with
                | Some _ => ret (false, None)
                | None =>
                    match firstIndicator result specialStatusIndicators with
                    | Some indicator =>
                        let statusType := TrimPrefix indicator "status: " in
                        _ <- addToSpecialStatus domain (ToUpper statusType) ;;
                        ret (false, None)
                    | None => ret (true, None)
                    end
                end
            end
      | WhoisErr err =>
          let errorStr := ToLower err in
          if isRateLimit errorStr then
            if (i =? maxRetries - 1)%nat
            then handleRateLimitedDomain domain hasDNSSignatures
            else availabilityWhoisLoop n' (S i) domain hasDNSSignatures
          else availabilityWhoisLoop n' (S i) domain hasDNSSignatures
      end
  end.

Definition isDNSSignature (sig : string) : bool :=
  (sig =? "DNS_NS") || (sig =? "DNS_A") || (sig =? "DNS_MX") ||
  (sig =? "DNS_TXT") || (sig =? "DNS_CNAME").

(** The second [for _, sig := range signatures]: the three flags
    (hasRegistrationSignatures, hasDNSSignatures, hasWHOISSignature). *)
Fixpoint signatureFlags (signatures : list string) (flags : bool * bool * bool)
  : bool * bool * bool :=
  match signatures with
  | [] => flags
  | sig :: rest =>
      let '(hasRegistration, hasDNS, hasWHOIS) := flags in
      signatureFlags rest
        (if isDNSSignature sig then (true, true, hasWHOIS)
         else if sig =? "WHOIS" then (true, hasDNS, true)
         else if sig =? "SSL" then (true, hasDNS, hasWHOIS)
         else flags)
  end.

(** [CheckDomainAvailability] from the point where [signatures] has
    been gathered without error. *)
Definition availabilityFromSignatures (domain : string) (signatures : list string)
  : M (bool * error) :=
  if existsb (fun sig => sig =? "RESERVED") signatures then ret (false, None)
  else
    let '(hasRegistrationSignatures, hasDNSSignatures, _) :=
      signatureFlags signatures (false, false, false) in
    if hasRegistrationSignatures then ret (false, None)
    else availabilityWhoisLoop maxRetries 0 domain hasDNSSignatures.

(** [CheckDomainAvailability]. *)
Definition CheckDomainAvailability (domain : string) : M (bool * error) :=
  '(signatures, err) <- CheckDomainSignatures domain ;;
  match err with
  | Some e => ret (false, Some e)
  | None => availabilityFromSignatures domain signatures
  end.

End Checker.

End Domain.

(* ================================================================== *)
(** ** package worker *)

Module Worker.
Import Types Domain.
Local Open Scope go_scope.

(** [Worker] on the candidates it receives from [jobs], in order; the
    result is what it sends on [results]. *)
Fixpoint Worker (globalConfig : option Config) (net : Network)
         (jobs : list string) : M (list DomainResult) :=
  match jobs with
  | [] => ret []
  | domainName :: rest =>
      '(available, err) <- CheckDomainAvailability globalConfig net domainName ;;
      '(signatures, _) <- CheckDomainSignatures globalConfig net domainName ;;
      let specialStatus := "" in
      let result := {| Domain := domainName;
                       Available := available;
                       Error := err;
                       Signatures := signatures;
                       SpecialStatus := specialStatus |} in
      sent <- Worker globalConfig net rest ;;
      ret (result :: sent)
  end.

End Worker.

(* ================================================================== *)
(** ** package main: the collector of results *)

Module Main.
Import Types.

Inductive StatusMsg : Type :=
| ErrorChecking (progress : nat) (domain err : string)
| IsAvailable (progress : nat) (domain : string)
| IsRegistered (progress : nat) (domain sigStr : string).

Record Collector : Type := {
  processedCount : nat;
  statusChan : list StatusMsg;
  availableDomains : list string;
  registeredDomains : list string
}.

Definition start : Collector :=
  {| processedCount := 0; statusChan := [];
     availableDomains := []; registeredDomains := [] |}.

(** One round of [for result := range results]. *)
Definition collect (showRegistered : bool) (c : Collector) (result : DomainResult)
  : Collector :=
  let processed := S (processedCount c) in
  match Error result with
  | Some e =>
      {| processedCount := processed;
         statusChan := (statusChan c ++ [ErrorChecking processed (Domain result) e])%list;
         availableDomains := availableDomains c;
         registeredDomains := registeredDomains c |}
  | None =>
      if Available result then
        {| processedCount := processed;
           statusChan := (statusChan c ++ [IsAvailable processed (Domain result)])%list;
           availableDomains := (availableDomains c ++ [Domain result])%list;
           registeredDomains := registeredDomains c |}
      else if showRegistered then
        {| processedCount := processed;
           statusChan := (statusChan c ++
             [IsRegistered processed (Domain result)
                           (String.concat ", " (Signatures result))])%list;
           availableDomains := availableDomains c;
           registeredDomains := (registeredDomains c ++ [Domain result])%list |}
      else
        {| processedCount := processed;
           statusChan := statusChan c;
           availableDomains := availableDomains c;
           registeredDomains := registeredDomains c |}
  end.

Definition collectResults (showRegistered : bool) (results : list DomainResult)
  : Collector :=
  fold_left (collect showRegistered) results start.

Definition isErrorMsg (m : StatusMsg) : bool :=
  match m with
  | ErrorChecking _ _ _ => true
  | _ => false
  end.

End Main.
(* ================================================================== *)
(** ** Notions used in the statements *)

Import GoStrings GoInt Types Generator Domain.

(** The counters [c, c+1, ..., c+n-1] of the generator's outer loop. *)
Fixpoint countersFrom (n : nat) (c : Z) : list Z :=
  match n with
  | O => []
  | S n' => c :: countersFrom n' (c + 1)
  end.

(** A filter lets an input through when the engine answers [true]. *)
Definition accepts (re : Regexp) (input : string) : bool :=
  match re input with
  | Some true => true
  | _ => false
  end.

(** The candidate bodies (the strings before the suffix) of one call of
    [generateCombinationsIterative], one per counter, in counter order. *)
Definition bodies (charset : string) (length : Z) : list string :=
  if (len charset =? 0)%Z || (length <=? 0)%Z then []
  else map (currentOf charset length)
           (countersFrom (Z.to_nat (totalLoop (Z.to_nat length) (len charset) 1)) 0).

(** Alphabet selected by a pattern letter, as in the [switch] of
    [GenerateDomains]. *)
Definition charsetOf (pattern : string) : option string :=
  if pattern =? "d" then Some numbers
  else if pattern =? "D" then Some letters
  else if pattern =? "a" then Some (letters ++ numbers)
  else None.

Definition validPattern (pattern : string) : Prop :=
  pattern = "d" \/ pattern = "D" \/ pattern = "a".

(** Size of the alphabet of a pattern: 10 digits, 26 letters, 36 of both. *)
Definition alphabetSize (pattern : string) : Z :=
  if pattern =? "d" then 10%Z
  else if pattern =? "D" then 26%Z
  else if pattern =? "a" then 36%Z
  else 0%Z.

(** Number of bytes of [s] equal to [c]. *)
Definition occurrences (c : ascii) (s : string) : nat :=
  count_occ ascii_dec (list_ascii_of_string s) c.

(** The statement "the unfiltered generator emits alphabetSize^length
    pairwise distinct candidates of length length + |suffix|, as many as
    [CalculateDomainsCount] reports", at one input. *)
Definition generatorCountClaim (length : Z) (suffix pattern : string)
           (regexMode : RegexMode) : Prop :=
  exists domains,
    GenerateDomains (fun _ => None) length suffix pattern "" regexMode = Stream domains /\
    Z.of_nat (List.length domains) = (alphabetSize pattern ^ length)%Z /\
    Forall (fun d => len d = (length + len suffix)%Z) domains /\
    NoDup domains /\
    Z.of_nat (List.length domains) = CalculateDomainsCount length pattern.

(** The world after one network call. *)
Definition tick (w : World) : World :=
  {| clock := S (clock w); specialStatusDomains := specialStatusDomains w |}.

(** The record [addToSpecialStatus domain reason] appends. *)
Definition specialRecord (domain reason : string) : SpecialStatusDomain :=
  {| ssDomain := domain; ssStatus := reason; ssReason := "WHOIS status: " ++ reason |}.

(** A computation that leaves [specialStatusDomains] as it found it. *)
Definition keepsSpecial {A : Type} (m : M A) : Prop :=
  forall w, specialStatusDomains (snd (m w)) = specialStatusDomains w.

(** A WHOIS answer that [CheckDomainAvailability] treats as rate-limited:
    one of the five phrases occurs in the lowercased response or error. *)
Definition rateLimited (r : WhoisReply) : bool :=
  match r with
  | WhoisOk result => isRateLimit (ToLower result)
  | WhoisErr err => isRateLimit (ToLower err)
  end.

(** The signatures other than RESERVED. *)
Definition registrationTags : list string :=
  [ "DNS_NS"; "DNS_A"; "DNS_MX"; "DNS_TXT"; "DNS_CNAME"; "WHOIS"; "SSL" ].

Definition isRegistrationTag (sig : string) : bool :=
  isDNSSignature sig || (sig =? "WHOIS") || (sig =? "SSL").

(** The WHOIS-derived signatures as the specification words them: the
    indicator sets are tried in the order Available, Reserved, Registered
    and the first set that matches decides alone. *)
Definition specWhoisSignatures (whoisResult : string) : list string :=
  let result := ToLower whoisResult in
  if anyIndicator result availableIndicators then []
  else if anyIndicator result reservedIndicators then ["RESERVED"]
  else if anyIndicator result registeredIndicators then ["WHOIS"]
  else [].

(** The signatures [CheckDomainAvailability] gathers first, and the world
    in which it goes on. *)
Definition signaturesOf (globalConfig : option Config) (net : Network)
           (domain : string) (w : World) : list string :=
  fst (fst (CheckDomainSignatures globalConfig net domain w)).

Definition afterSignatures (globalConfig : option Config) (net : Network)
           (domain : string) (w : World) : World :=
  snd (CheckDomainSignatures globalConfig net domain w).

(** The statement "WHOIS rate-limited on every attempt: a DNS signature
    gives Registered, otherwise Available with exactly one
    WHOIS_RATE_LIMITED record appended", at one input. *)
Definition rateLimitClaim (globalConfig : option Config) (net : Network)
           (domain : string) (w : World) : Prop :=
  (forall t, rateLimited (Whois net t domain) = true) ->
  (existsb isDNSSignature (signaturesOf globalConfig net domain w) = true ->
   fst (CheckDomainAvailability globalConfig net domain w) = (false, None)) /\
  (existsb isDNSSignature (signaturesOf globalConfig net domain w) = false ->
   fst (CheckDomainAvailability globalConfig net domain w) = (true, None) /\
   specialStatusDomains (snd (CheckDomainAvailability globalConfig net domain w))
   = (specialStatusDomains w ++ [specialRecord domain "WHOIS_RATE_LIMITED"])%list).

(** The statement "a WHOIS response that contains Status: REDEMPTIONPERIOD
    and no Available, Reserved or Registered indicator gives Available =
    false and a REDEMPTIONPERIOD record", at one input. *)
Definition redemptionClaim (globalConfig : option Config) (net : Network)
           (domain : string) (w : World) (whoisResult : string) : Prop :=
  (forall t, Whois net t domain = WhoisOk whoisResult) ->
  Contains whoisResult "Status: REDEMPTIONPERIOD" = true ->
  anyIndicator (ToLower whoisResult) availableIndicators = false ->
  anyIndicator (ToLower whoisResult) reservedIndicators = false ->
  anyIndicator (ToLower whoisResult) registeredIndicators = false ->
  fst (CheckDomainAvailability globalConfig net domain w) = (false, None) /\
  In (specialRecord domain "REDEMPTIONPERIOD")
     (specialStatusDomains (snd (CheckDomainAvailability globalConfig net domain w))).

(** Example networks.  [silentNet reply]: no resolver answer, no TLS
    endpoint, WHOIS always answers [reply].  [resolvingNet reply]: the same
    with one address record. *)
Definition silentNet (reply : WhoisReply) : Network :=
  {| LookupNS := fun _ _ => None;
     LookupIP := fun _ _ => None;
     LookupMX := fun _ _ => None;
     LookupTXT := fun _ _ => None;
     LookupCNAME := fun _ _ => None;
     DialTLS := fun _ _ => None;
     Whois := fun _ _ => reply |}.

Definition resolvingNet (reply : WhoisReply) : Network :=
  {| LookupNS := fun _ _ => None;
     LookupIP := fun _ _ => Some ["192.0.2.7"];
     LookupMX := fun _ _ => None;
     LookupTXT := fun _ _ => None;
     LookupCNAME := fun _ _ => None;
     DialTLS := fun _ _ => None;
     Whois := fun _ _ => reply |}.

Definition freshWorld : World := {| clock := 0; specialStatusDomains := [] |}.

Definition allChecks : Config :=
  {| ScannerMethods := {| DNSCheck := true; WHOISCheck := true;
                          SSLCheck := true; HTTPCheck := false |};
     ShowRegistered := false |}.



(* ================================================================== *)
(** ** package config *)

Module ConfigPkg.

(** [Config.Domain]. *)
Record DomainSection : Type := {
  Length : Z;
  Suffix : string;
  Pattern : string;
  RegexFilter : string
}.

(** [Config.Scanner]. *)
Record ScannerSection : Type := {
  Delay : Z;
  Workers : Z;
  ShowRegistered : bool;
  Methods : Types.Methods
}.

(** [Config.Output]. *)
Record OutputSection : Type := {
  AvailableFile : string;
  RegisteredFile : string;
  SpecialStatusFile : string;
  OutputDir : string;
  Verbose : bool
}.

(** The whole [types.Config]. *)
Record Config : Type := {
  Domain : DomainSection;
  Scanner : ScannerSection;
  Output : OutputSection
}.

(** The defaults [LoadConfig] writes over the decoded value: a field that
    holds its zero value is given its default; the four method switches
    are replaced together, and only when all four are off. *)
Definition applyDefaults (config : Config) : Config :=
  let d := Domain config in
  let s := Scanner config in
  let o := Output config in
  let m := Methods s in
  {| Domain :=
       {| Length := if (Length d =? 0)%Z then 3%Z else Length d;
          Suffix := if Suffix d =? "" then ".li" else Suffix d;
          Pattern := if Pattern d =? "" then "D" else Pattern d;
          RegexFilter := RegexFilter d |};
     Scanner :=
       {| Delay := if (Delay s =? 0)%Z then 1000%Z else Delay s;
          Workers := if (Workers s =? 0)%Z then 10%Z else Workers s;
          ShowRegistered := ShowRegistered s;
          Methods :=
            if negb (Types.DNSCheck m) && negb (Types.WHOISCheck m) &&
               negb (Types.SSLCheck m) && negb (Types.HTTPCheck m)
            then {| Types.DNSCheck := true; Types.WHOISCheck := true;
                    Types.SSLCheck := true; Types.HTTPCheck := false |}
            else m |};
     Output :=
       {| AvailableFile :=
            if AvailableFile o =? ""
            then "available_domains_{pattern}_{length}_{suffix}.txt"
            else AvailableFile o;
          RegisteredFile :=
            if RegisteredFile o =? ""
            then "registered_domains_{pattern}_{length}_{suffix}.txt"
            else RegisteredFile o;
          SpecialStatusFile :=
            if SpecialStatusFile o =? ""
            then "special_status_domains_{pattern}_{length}_{suffix}.txt"
            else SpecialStatusFile o;
          OutputDir := if OutputDir o =? "" then "." else OutputDir o;
          Verbose := Verbose o |} |}.

(** [LoadConfig]; [decodeFile] stands for [toml.DecodeFile] into a zero
    [Config]: the decoded value (absent keys keep their zero value) or the
    decoder's error.  The result is (config, nil) or (nil, err). *)
Definition LoadConfig (decodeFile : string -> Config + string) (configPath : string)
  : Config + string :=
  match decodeFile configPath with
  | inr err => inr err
  | inl config => inl (applyDefaults config)
  end.

(** What the checker reads of a configuration ([SetConfig]). *)
Definition checkerView (config : Config) : Types.Config :=
  {| Types.ScannerMethods := Methods (Scanner config);
     Types.ShowRegistered := ShowRegistered (Scanner config) |}.

End ConfigPkg.

(* ================================================================== *)
(** ** package main: flags, configuration and suffix *)

Module MainSetup.

(** The values of the command-line flags l, s, p, r, delay, workers and
    show-registered. *)
Record Flags : Type := {
  flag_l : Z;
  flag_s : string;
  flag_p : string;
  flag_r : string;
  flag_delay : Z;
  flag_workers : Z;
  flag_show_registered : bool
}.

Definition defaultFlags : Flags :=
  {| flag_l := 3; flag_s := ".li"; flag_p := "D"; flag_r := "";
     flag_delay := 1000; flag_workers := 10; flag_show_registered := false |}.

(** The block of [main] that runs once a configuration is loaded: a flag
    whose value prints as its default takes the configuration's value. *)
Definition overrideFromConfig (flags : Flags) (appConfig : ConfigPkg.Config) : Flags :=
  let d := ConfigPkg.Domain appConfig in
  let s := ConfigPkg.Scanner appConfig in
  {| flag_l := if (flag_l flags =? 3)%Z then ConfigPkg.Length d else flag_l flags;
     flag_s := if flag_s flags =? ".li" then ConfigPkg.Suffix d else flag_s flags;
     flag_p := if flag_p flags =? "D" then ConfigPkg.Pattern d else flag_p flags;
     flag_r := if (flag_r flags =? "") && negb (ConfigPkg.RegexFilter d =? "")
               then ConfigPkg.RegexFilter d else flag_r flags;
     flag_delay := if (flag_delay flags =? 1000)%Z then ConfigPkg.Delay s
                   else flag_delay flags;
     flag_workers := if (flag_workers flags =? 10)%Z then ConfigPkg.Workers s
                     else flag_workers flags;
     flag_show_registered :=
       if negb (flag_show_registered flags) then ConfigPkg.ShowRegistered s
       else flag_show_registered flags |}.

(** "Ensure suffix starts with a dot". *)
Definition ensureDot (suffix : string) : string :=
  if negb (HasPrefix suffix ".") then "." ++ suffix else suffix.

(** "Determine regex mode": [None] is the exit on an unknown mode. *)
Definition parseRegexMode (regexMode : string) : option RegexMode :=
  if regexMode =? "full" then Some RegexModeFull
  else if regexMode =? "prefix" then Some RegexModePrefix
  else None.

(** The count printed as "Registered domains" when the registered names
    are not saved. *)
Definition registeredCount (totalProcessed : nat) (availableDomains : list string) : Z :=
  (Z.of_nat totalProcessed - Z.of_nat (List.length availableDomains))%Z.

End MainSetup.

(* ================================================================== *)
(** ** utils/generate_batch_configs.go *)

Module BatchConfigs.

Record Settings : Type := {
  batchStart : Z;
  batchSize : Z;
  baseDomain : string;
  domainLength : Z;
  pattern : string;
  outputDir : string;
  configDir : string
}.

Definition initial : Settings :=
  {| batchStart := 0; batchSize := 26; baseDomain := ".de"; domainLength := 4;
     pattern := "D"; outputDir := "./results"; configDir := "./config" |}.

(** The [switch args[i]] on one flag and its value; [atoi] stands for
    [strconv.Atoi] ([None] when it returns an error). *)
Definition setFlag (atoi : string -> option Z) (flag value : string) (s : Settings)
  : Settings :=
  if flag =? "-batch-start" then
    match atoi value with
    | Some val => {| batchStart := val; batchSize := batchSize s;
                     baseDomain := baseDomain s; domainLength := domainLength s;
                     pattern := pattern s; outputDir := outputDir s;
                     configDir := configDir s |}
    | None => s
    end
  else if flag =? "-batch-size" then
    match atoi value with
    | Some val => {| batchStart := batchStart s; batchSize := val;
                     baseDomain := baseDomain s; domainLength := domainLength s;
                     pattern := pattern s; outputDir := outputDir s;
                     configDir := configDir s |}
    | None => s
    end
  else if flag =? "-base-domain" then
    {| batchStart := batchStart s; batchSize := batchSize s;
       baseDomain := value; domainLength := domainLength s;
       pattern := pattern s; outputDir := outputDir s; configDir := configDir s |}
  else if flag =? "-domain-length" then
    match atoi value with
    | Some val => {| batchStart := batchStart s; batchSize := batchSize s;
                     baseDomain := baseDomain s; domainLength := val;
                     pattern := pattern s; outputDir := outputDir s;
                     configDir := configDir s |}
    | None => s
    end
  else if flag =? "-pattern" then
    {| batchStart := batchStart s; batchSize := batchSize s;
       baseDomain := baseDomain s; domainLength := domainLength s;
       pattern := value; outputDir := outputDir s; configDir := configDir s |}
  else if flag =? "-output-dir" then
    {| batchStart := batchStart s; batchSize := batchSize s;
       baseDomain := baseDomain s; domainLength := domainLength s;
       pattern := pattern s; outputDir := value; configDir := configDir s |}
  else if flag =? "-config-dir" then
    {| batchStart := batchStart s; batchSize := batchSize s;
       baseDomain := baseDomain s; domainLength := domainLength s;
       pattern := pattern s; outputDir := outputDir s; configDir := value |}
  else s.

(** [for i := 0; i < len(args); i += 2] with its [break] on a last flag
    that has no value. *)
Fixpoint parseArgs (atoi : string -> option Z) (args : list string) (s : Settings)
  : Settings :=
  match args with
  | flag :: value :: rest => parseArgs atoi rest (setFlag atoi flag value s)
  | _ => s
  end.

(** [endIdx := batchStart + batchSize], cut down to [len(letters)]. *)
Definition endIdx (start size : Z) : Z :=
  let e := wrap64 (start + size) in
  if (len letters <? e)%Z then len letters else e.

(** [for i := startIdx; i < endIdx; i++ { letter := string(letters[i]) ... }]
    with [n] rounds left: the letters of the batches, or [None] when
    [letters[i]] is out of range (a run-time panic). *)
Fixpoint letterLoop (n : nat) (i : Z) : option (list string) :=
  match n with
  | O => Some []
  | S n' =>
      if (i <? 0)%Z || (len letters <=? i)%Z then None
      else
        match letterLoop n' (i + 1) with
        | Some rest => Some (String (byteAt letters i) "" :: rest)
        | None => None
        end
  end.

Definition batchLetters (start size : Z) : option (list string) :=
  letterLoop (Z.to_nat (endIdx start size - start)) start.

(** The regex written into the configuration of one batch; [itoa] stands
    for the [%d] verb of [fmt.Sprintf]. *)
Definition batchRegex (itoa : Z -> string) (pattern letter : string) (domainLength : Z)
  : string :=
  if pattern =? "D" then "^" ++ letter ++ ".*"
  else if pattern =? "d" then "^[0-9]{" ++ itoa domainLength ++ "}"
  else if pattern =? "a" then "^" ++ letter ++ "[a-z0-9].*"
  else "".

End BatchConfigs.

(* ================================================================== *)
(** ** special_status_domains.go *)

Module SpecialStatusDraft.

(** The [map[string]string] literal of [checkSpecialStatus], as its
    key/value pairs. *)
Definition specialStatusIndicators : list (string * string) :=
  [ ("status: redemptionperiod", "Redemption Period");
    ("status: pendingdelete", "Pending Delete");
    ("status: hold", "Hold");
    ("status: inactive", "Inactive");
    ("status: suspended", "Suspended");
    ("status: reserved", "Reserved");
    ("status: quarantined", "Quarantined");
    ("status: pending", "Pending Registration");
    ("status: transfer", "Transfer Pending");
    ("status: grace", "Grace Period");
    ("status: autorenewperiod", "Auto-Renew Period");
    ("status: redemption", "Redemption Period");
    ("status: expire", "Expired") ].

(** [checkSpecialStatus]: the loop ranges over a Go map, whose iteration
    order is not fixed, and returns at the first key found in the text; so
    every key that occurs can be the one that answers. *)
Inductive checkSpecialStatus (whoisResult : string) : bool * string -> Prop :=
| SpecialFound (indicator status : string) :
    In (indicator, status) specialStatusIndicators ->
    Contains (ToLower whoisResult) indicator = true ->
    checkSpecialStatus whoisResult (true, status)
| SpecialAbsent :
    (forall indicator status,
        In (indicator, status) specialStatusIndicators ->
        Contains (ToLower whoisResult) indicator = false) ->
    checkSpecialStatus whoisResult (false, "").

End SpecialStatusDraft.

(* ================================================================== *)
(** ** internal/domain/checker.go: the earlier availability check *)

Module CheckerDraft.

(** The local slice of the earlier [CheckDomainAvailability]. *)
Definition specialStatusIndicators : list string :=
  [ "status: redemptionperiod"; "status: pendingdelete"; "status: hold";
    "status: inactive"; "status: suspended"; "status: reserved";
    "status: quarantined"; "status: pending"; "status: transfer";
    "status: grace"; "status: autorenewperiod"; "status: redemption";
    "status: expire" ].

(** The three-phrase test of the earlier check, applied to the lowercased
    response and to the error text as it is. *)
Definition isAccessDenied (text : string) : bool :=
  Contains text "connection refused" ||
  Contains text "access control" ||
  Contains text "limit exceeded".

Section Draft.
Variable globalConfig : option Config.
Variable net : Network.

(** The retry loop of the earlier check with [n] attempts left, followed
    by the final [return true, nil]. *)
Fixpoint availabilityWhoisLoop (n : nat) (domain : string) (hasDNSSignatures : bool)
  : M (bool * error) :=
  match n with
  | O => ret (true, None)
  | S n' =>
      bind (call (fun t => Whois net t domain)) (fun r =>
      match r with
      | WhoisOk result0 =>
          let result := ToLower result0 in
          if isAccessDenied result then
            if hasDNSSignatures then ret (false, None) else ret (true, None)
          else
            match firstIndicator result availableIndicators with
            | Some _ => ret (true, None)
            | None =>
                match firstIndicator result enhancedRegisteredIndicators with
                | Some _ => ret (false, None)
                | None =>
                    match firstIndicator result specialStatusIndicators with
                    | Some _ => ret (false, None)
                    | None => ret (true, None)
                    end
                end
            end
      | WhoisErr err =>
          if isAccessDenied err then
            if hasDNSSignatures then ret (false, None) else ret (true, None)
          else availabilityWhoisLoop n' domain hasDNSSignatures
      end)
  end.

(** The earlier [CheckDomainAvailability] from the point where
    [signatures] has been gathered; up to the loop it reads as the later
    one. *)
Definition availabilityFromSignatures (domain : string) (signatures : list string)
  : M (bool * error) :=
  if existsb (fun sig => sig =? "RESERVED") signatures then ret (false, None)
  else
    let '(hasRegistrationSignatures, hasDNSSignatures, _) :=
      signatureFlags signatures (false, false, false) in
    if hasRegistrationSignatures then ret (false, None)
    else availabilityWhoisLoop 3 domain hasDNSSignatures.

(** The earlier [CheckDomainAvailability]; its [CheckDomainSignatures]
    differs from the later one in the waiting times only. *)
Definition CheckDomainAvailability (domain : string) : M (bool * error) :=
  bind (CheckDomainSignatures globalConfig net domain) (fun x =>
  let '(signatures, err) := x in
  match err with
  | Some e => ret (false, Some e)
  | None => availabilityFromSignatures domain signatures
  end).

End Draft.

End CheckerDraft.

(* ================================================================== *)
(** ** Further notions used in the statements *)

(** The eight signatures in the order [CheckDomainSignatures] appends them. *)
Definition allTags : list string :=
  [ "DNS_NS"; "DNS_A"; "DNS_MX"; "DNS_TXT"; "DNS_CNAME"; "WHOIS"; "RESERVED"; "SSL" ].

(** [tag] when [b] holds, nothing otherwise. *)
Definition tagIf (b : bool) (tag : string) : list string :=
  if b then [tag] else [].

(** A network whose answers do not change over time. *)
Definition stationary (net : Network) : Prop :=
  forall t t' name,
    LookupNS net t name = LookupNS net t' name /\
    LookupIP net t name = LookupIP net t' name /\
    LookupMX net t name = LookupMX net t' name /\
    LookupTXT net t name = LookupTXT net t' name /\
    LookupCNAME net t name = LookupCNAME net t' name /\
    DialTLS net t name = DialTLS net t' name /\
    Whois net t name = Whois net t' name.

(** A WHOIS answer after which [CheckDomainAvailability] tries again: any
    error, or a response with a rate-limit phrase. *)
Definition retried (r : WhoisReply) : bool :=
  match r with
  | WhoisErr _ => true
  | WhoisOk result => isRateLimit (ToLower result)
  end.

(** A result the collector files as available, as registered. *)
Definition filedAvailable (r : DomainResult) : bool :=
  match Error r with
  | None => Available r
  | Some _ => false
  end.

Definition filedRegistered (r : DomainResult) : bool :=
  match Error r with
  | None => negb (Available r)
  | Some _ => false
  end.

(** A run of [addToSpecialStatus] calls, one per (domain, reason) pair. *)
Fixpoint addAll (pairs : list (string * string)) : M unit :=
  match pairs with
  | [] => ret tt
  | (domain, reason) :: rest =>
      bind (addToSpecialStatus domain reason) (fun _ => addAll rest)
  end.

(** What [regexp2] computes for the pattern ^c.* without options, c being a
    letter: the input starts with c. *)
Definition regexp2_starts_with (c : string) : Regexp :=
  fun input => Some (prefix c input).

(** The world after [k] network calls. *)
Definition advance (k : nat) (w : World) : World :=
  {| clock := clock w + k; specialStatusDomains := specialStatusDomains w |}.

(** A record [CheckDomainAvailability] can append for [domain] together
    with the verdict [available]: the rate-limit mark with an available
    verdict, the capitalised reason of a special-status indicator with a
    not-available one. *)
Definition recordFor (domain : string) (available : bool) (r : SpecialStatusDomain)
  : Prop :=
  if available then r = specialRecord domain "WHOIS_RATE_LIMITED"
  else exists indicator,
      In indicator specialStatusIndicators /\
      r = specialRecord domain (ToUpper (TrimPrefix indicator "status: ")).

(** What one round of the retry loop of [CheckDomainAvailability] returns
    in world [w] on a response [text] without rate-limit phrase. *)
Definition answerOutcome (domain text : string) (w : World) : (bool * error) * World :=
  match firstIndicator (ToLower text) availableIndicators with
  | Some _ => ((true, None), tick w)
  | None =>
      match firstIndicator (ToLower text) enhancedRegisteredIndicators with
      | Some _ => ((false, None), tick w)
      | None =>
          match firstIndicator (ToLower text) specialStatusIndicators with
          | Some indicator =>
              ((false, None),
               {| clock := S (clock w);
                  specialStatusDomains :=
                    (specialStatusDomains w ++
                     [specialRecord domain
                        (ToUpper (TrimPrefix indicator "status: "))])%list |})
          | None => ((true, None), tick w)
          end
      end
  end.

(** A computation whose value does not depend on the world it starts in. *)
Definition valueStable {A : Type} (m : M A) : Prop :=
  forall w w', fst (m w) = fst (m w').

(** A network without resolver or TLS answers whose WHOIS service fails
    with "connection refused" before time [k] and answers [reply] from
    then on. *)
Definition recoveringNet (k : nat) (reply : WhoisReply) : Network :=
  {| LookupNS := fun _ _ => None;
     LookupIP := fun _ _ => None;
     LookupMX := fun _ _ => None;
     LookupTXT := fun _ _ => None;
     LookupCNAME := fun _ _ => None;
     DialTLS := fun _ _ => None;
     Whois := fun t _ => if (t <? k)%nat then WhoisErr "connection refused" else reply |}.

(** A configuration in which nothing is left for [LoadConfig] to fill in. *)
Definition wellSet (c : ConfigPkg.Config) : Prop :=
  ConfigPkg.Length (ConfigPkg.Domain c) <> 0%Z /\
  ConfigPkg.Suffix (ConfigPkg.Domain c) <> "" /\
  ConfigPkg.Pattern (ConfigPkg.Domain c) <> "" /\
  ConfigPkg.Delay (ConfigPkg.Scanner c) <> 0%Z /\
  ConfigPkg.Workers (ConfigPkg.Scanner c) <> 0%Z /\
  (DNSCheck (ConfigPkg.Methods (ConfigPkg.Scanner c)) ||
   WHOISCheck (ConfigPkg.Methods (ConfigPkg.Scanner c)) ||
   SSLCheck (ConfigPkg.Methods (ConfigPkg.Scanner c)) ||
   HTTPCheck (ConfigPkg.Methods (ConfigPkg.Scanner c))) = true /\
  ConfigPkg.AvailableFile (ConfigPkg.Output c) <> "" /\
  ConfigPkg.RegisteredFile (ConfigPkg.Output c) <> "" /\
  ConfigPkg.SpecialStatusFile (ConfigPkg.Output c) <> "" /\
  ConfigPkg.OutputDir (ConfigPkg.Output c) <> "".

(** An empty configuration file, decoded. *)
Definition emptyConfig : ConfigPkg.Config :=
  {| ConfigPkg.Domain :=
       {| ConfigPkg.Length := 0; ConfigPkg.Suffix := ""; ConfigPkg.Pattern := "";
          ConfigPkg.RegexFilter := "" |};
     ConfigPkg.Scanner :=
       {| ConfigPkg.Delay := 0; ConfigPkg.Workers := 0; ConfigPkg.ShowRegistered := false;
          ConfigPkg.Methods := {| DNSCheck := false; WHOISCheck := false;
                                  SSLCheck := false; HTTPCheck := false |} |};
     ConfigPkg.Output :=
       {| ConfigPkg.AvailableFile := ""; ConfigPkg.RegisteredFile := "";
          ConfigPkg.SpecialStatusFile := ""; ConfigPkg.OutputDir := "";
          ConfigPkg.Verbose := false |} |}.

(** A record the retry loop can append for [domain]: the rate-limit
    mark, or the reason of the first special-status indicator of a
    response that matched no Registered indicator. *)
Definition liveRecord (domain : string) (r : SpecialStatusDomain) : Prop :=
  r = specialRecord domain "WHOIS_RATE_LIMITED" \/
  exists text indicator,
    firstIndicator (ToLower text) enhancedRegisteredIndicators = None /\
    firstIndicator (ToLower text) specialStatusIndicators = Some indicator /\
    r = specialRecord domain (ToUpper (TrimPrefix indicator "status: ")).

(** The 26 one-letter strings a ... z. *)
Definition letterStrings : list string :=
  map (fun c => String c "") (list_ascii_of_string letters).

(* ================================================================== *)
(** ** Byte strings *)

Section StringFacts.

Lemma length_append_string (s t : string) :
  String.length (s ++ t) = (String.length s + String.length t)%nat.
Proof. induction s as [|c s IH]; simpl; [reflexivity | now rewrite IH]. Qed.

Lemma append_inv_tail (s1 s2 t : string) : (s1 ++ t = s2 ++ t -> s1 = s2)%string.
Proof.
  intros H.
  assert (E : forall a b, list_ascii_of_string (a ++ b)
                          = (list_ascii_of_string a ++ list_ascii_of_string b)%list).
  { intros a b; induction a as [|c a IH]; simpl; [reflexivity | now rewrite IH]. }
  apply (f_equal list_ascii_of_string) in H.
  rewrite !E in H. apply app_inv_tail in H.
  rewrite <- (string_of_list_ascii_of_string s1), <- (string_of_list_ascii_of_string s2).
  now rewrite H.
Qed.

Lemma get_nth_error (s : string) (i : nat) :
  String.get i s = nth_error (list_ascii_of_string s) i.
Proof.
  revert i; induction s as [|c s IH]; intros [|i]; simpl; auto.
Qed.

Lemma length_list_ascii (s : string) :
  List.length (list_ascii_of_string s) = String.length s.
Proof. induction s; simpl; congruence. Qed.

Lemma prefix_single (c a : ascii) (tl : string) :
  prefix (String c "") (String a tl) = if ascii_dec c a then true else false.
Proof. simpl. destruct (ascii_dec c a); [now destruct tl | reflexivity]. Qed.

(** Counting a one-byte substring counts the bytes equal to it. *)
Lemma Count_single (c : ascii) (s : string) :
  Count s (String c "") = occurrences c s.
Proof.
  unfold Count, occurrences.
  induction s as [|a tl IH]; [reflexivity|].
  cbn [CountFrom list_ascii_of_string count_occ].
  rewrite prefix_single. cbn [String.length Nat.sub].
  destruct (ascii_dec c a) as [->|n].
  - destruct (ascii_dec a a); [now rewrite IH | congruence].
  - destruct (ascii_dec a c); [congruence | exact IH].
Qed.

End StringFacts.

(* ================================================================== *)
(** ** The generator *)

Section GeneratorFacts.

Lemma wrap64_small (z : Z) : (0 <= z <= maxInt)%Z -> wrap64 z = z.
Proof.
  unfold wrap64, maxInt. intros H.
  rewrite Z.mod_small; lia.
Qed.

(** Without overflow the first loop computes the power. *)
Lemma totalLoop_pow (n : nat) (size total : Z) :
  (0 < size)%Z -> (0 <= total)%Z ->
  (total * size ^ Z.of_nat n <= maxInt)%Z ->
  totalLoop n size total = (total * size ^ Z.of_nat n)%Z.
Proof.
  intros Hs. revert total.
  induction n as [|n IH]; intros total Ht Hb.
  - simpl. lia.
  - rewrite Nat2Z.inj_succ, Z.pow_succ_r in * by lia.
    simpl. unfold mul.
    assert (Hp : (1 <= size ^ Z.of_nat n)%Z) by (apply Z.lt_pred_le, Z.pow_pos_nonneg; lia).
    rewrite wrap64_small by nia.
    rewrite IH by nia. ring.
Qed.

Lemma length_currentLoop (n : nat) (charset : string) (size temp : Z) (current : string) :
  String.length (currentLoop n charset size temp current)
  = (n + String.length current)%nat.
Proof.
  revert temp current; induction n as [|n IH]; intros temp current; simpl.
  - reflexivity.
  - rewrite IH. simpl. lia.
Qed.

Lemma byteAt_inj (charset : string) (i j : Z) :
  NoDup (list_ascii_of_string charset) ->
  (0 <= i < len charset)%Z -> (0 <= j < len charset)%Z ->
  byteAt charset i = byteAt charset j -> i = j.
Proof.
  unfold byteAt, len. intros ND Hi Hj.
  rewrite !get_nth_error.
  assert (Li : (Z.to_nat i < List.length (list_ascii_of_string charset))%nat)
    by (rewrite length_list_ascii; lia).
  assert (Lj : (Z.to_nat j < List.length (list_ascii_of_string charset))%nat)
    by (rewrite length_list_ascii; lia).
  destruct (nth_error (list_ascii_of_string charset) (Z.to_nat i)) as [a|] eqn:Ei;
    [|apply nth_error_None in Ei; lia].
  destruct (nth_error (list_ascii_of_string charset) (Z.to_nat j)) as [b|] eqn:Ej;
    [|apply nth_error_None in Ej; lia].
  intros ->.
  assert (Z.to_nat i = Z.to_nat j).
  { apply (proj1 (NoDup_nth_error _) ND); [exact Li | congruence]. }
  lia.
Qed.

(** Two counters below size^n that yield the same string are equal. *)
Lemma currentLoop_inj (charset : string) (n : nat) :
  NoDup (list_ascii_of_string charset) ->
  forall t1 t2 acc1 acc2,
    (0 <= t1 < len charset ^ Z.of_nat n)%Z ->
    (0 <= t2 < len charset ^ Z.of_nat n)%Z ->
    String.length acc1 = String.length acc2 ->
    currentLoop n charset (len charset) t1 acc1
    = currentLoop n charset (len charset) t2 acc2 ->
    t1 = t2 /\ acc1 = acc2.
Proof.
  intros ND. induction n as [|n IH]; intros t1 t2 acc1 acc2 H1 H2 HL E.
  - simpl in *. split; [lia | exact E].
  - rewrite Nat2Z.inj_succ, Z.pow_succ_r in H1, H2 by lia.
    assert (Hs : (0 < len charset)%Z).
    { assert (0 <= len charset)%Z by (unfold len; lia).
      destruct (Z.eq_dec (len charset) 0) as [e|]; [rewrite e in H1; lia | lia]. }
    simpl in E.
    rewrite !Z.quot_div_nonneg, !Z.rem_mod_nonneg in E by lia.
    apply IH in E.
    + destruct E as [Eq Ea]. injection Ea as Eb Ea.
      apply byteAt_inj in Eb; try (apply Z.mod_pos_bound; lia); [|exact ND].
      split; [|exact Ea].
      rewrite (Z.div_mod t1 (len charset)), (Z.div_mod t2 (len charset)) by lia.
      congruence.
    + split; [apply Z.div_pos; lia | apply Z.div_lt_upper_bound; lia].
    + split; [apply Z.div_pos; lia | apply Z.div_lt_upper_bound; lia].
    + simpl. congruence.
Qed.

(** Position [i] of the string holds the digit of weight size^(n-1-i):
    the most significant symbol comes first. *)
Lemma get_currentLoop (charset : string) (n : nat) :
  (0 < len charset)%Z ->
  forall (t : Z) (acc : string) (i : nat),
    (0 <= t)%Z ->
    String.get i (currentLoop n charset (len charset) t acc)
    = if (i <? n)%nat
      then Some (byteAt charset ((t / len charset ^ Z.of_nat (n - 1 - i)) mod len charset))
      else String.get (i - n) acc.
Proof.
  intros Hs. induction n as [|n IH]; intros t acc i Ht.
  - simpl. now rewrite Nat.sub_0_r.
  - simpl currentLoop.
    rewrite Z.quot_div_nonneg, Z.rem_mod_nonneg by lia.
    rewrite IH by (apply Z.div_pos; lia).
    destruct (Nat.ltb_spec i n) as [Hlt|Hge].
    + replace (i <? S n)%nat with true by (symmetry; apply Nat.ltb_lt; lia).
      assert (Hp : (0 < len charset ^ Z.of_nat (n - 1 - i))%Z)
        by (apply Z.pow_pos_nonneg; lia).
      rewrite Z.div_div by lia.
      rewrite <- Z.pow_succ_r by lia.
      replace (Z.succ (Z.of_nat (n - 1 - i))) with (Z.of_nat (S n - 1 - i)) by lia.
      reflexivity.
    + destruct (Nat.eq_dec i n) as [->|Hne].
      * replace (n <? S n)%nat with true by (symmetry; apply Nat.ltb_lt; lia).
        replace (n - n)%nat with 0%nat by lia.
        replace (S n - 1 - n)%nat with 0%nat by lia.
        simpl. now rewrite Z.div_1_r.
      * replace (i <? S n)%nat with false by (symmetry; apply Nat.ltb_ge; lia).
        replace (i - n)%nat with (S (i - S n)) by lia.
        reflexivity.
Qed.

Lemma countersFrom_length (n : nat) (c : Z) : List.length (countersFrom n c) = n.
Proof. revert c; induction n; intros c; simpl; auto. Qed.

Lemma countersFrom_In (n : nat) (c k : Z) :
  In k (countersFrom n c) <-> (c <= k < c + Z.of_nat n)%Z.
Proof.
  revert c; induction n as [|n IH]; intros c.
  - simpl. lia.
  - cbn [countersFrom In]. rewrite IH. lia.
Qed.

Lemma countersFrom_NoDup (n : nat) (c : Z) : NoDup (countersFrom n c).
Proof.
  revert c; induction n as [|n IH]; intros c; simpl; constructor.
  - rewrite countersFrom_In. lia.
  - apply IH.
Qed.

(** The outer loop sends, in counter order, the candidates that pass the
    test of the loop body. *)
Lemma counterLoop_filter (n : nat) (c : Z) (charset : string) (length : Z)
      (suffix : string) (regex : option Regexp) (regexMode : RegexMode) :
  counterLoop n c charset length suffix regex regexMode
  = map (fun k => currentOf charset length k ++ suffix)
        (filter (fun k => matchOf regex regexMode (currentOf charset length k)
                                  (currentOf charset length k ++ suffix))
                (countersFrom n c)).
Proof.
  revert c; induction n as [|n IH]; intros c; [reflexivity|].
  cbn [counterLoop countersFrom filter].
  rewrite IH.
  destruct (matchOf regex regexMode _ _); reflexivity.
Qed.

Lemma counterLoop_unfiltered (n : nat) (c : Z) (charset : string) (length : Z)
      (suffix : string) (regexMode : RegexMode) :
  counterLoop n c charset length suffix None regexMode
  = map (fun k => currentOf charset length k ++ suffix) (countersFrom n c).
Proof.
  rewrite counterLoop_filter.
  replace (fun k => matchOf None regexMode (currentOf charset length k)
                            (currentOf charset length k ++ suffix))
    with (fun _ : Z => true).
  - now rewrite filter_true.
  - destruct regexMode; reflexivity.
Qed.

Lemma generate_bodies (charset : string) (length : Z) (suffix : string)
      (regexMode : RegexMode) :
  generateCombinationsIterative charset length suffix None regexMode
  = map (fun body => body ++ suffix) (bodies charset length).
Proof.
  unfold generateCombinationsIterative, bodies.
  destruct ((len charset =? 0)%Z || (length <=? 0)%Z); [reflexivity|].
  now rewrite counterLoop_unfiltered, map_map.
Qed.

Lemma matchOf_full (re : Regexp) (current domain : string) :
  matchOf (Some re) RegexModeFull current domain = accepts re domain.
Proof. unfold matchOf, safeRegexMatch, accepts. now destruct (re domain) as [[|]|]. Qed.

Lemma matchOf_prefix (re : Regexp) (current domain : string) :
  matchOf (Some re) RegexModePrefix current domain = accepts re current.
Proof. unfold matchOf, safeRegexMatch, accepts. now destruct (re current) as [[|]|]. Qed.

(** The unfiltered stream of one alphabet, when the count fits an [int]. *)
Lemma generate_unfiltered (charset : string) (length : Z) (suffix : string)
      (regexMode : RegexMode) :
  NoDup (list_ascii_of_string charset) ->
  (0 < len charset)%Z -> (1 <= length)%Z ->
  (len charset ^ length <= maxInt)%Z ->
  let domains := generateCombinationsIterative charset length suffix None regexMode in
  domains = map (fun k => currentOf charset length k ++ suffix)
                (countersFrom (Z.to_nat (len charset ^ length)) 0) /\
  Z.of_nat (List.length domains) = (len charset ^ length)%Z /\
  Forall (fun d => len d = (length + len suffix)%Z) domains /\
  NoDup domains.
Proof.
  intros ND Hs Hl Hb domains.
  assert (Hp : (0 < len charset ^ length)%Z) by (apply Z.pow_pos_nonneg; lia).
  assert (E : domains = map (fun k => currentOf charset length k ++ suffix)
                            (countersFrom (Z.to_nat (len charset ^ length)) 0)).
  { unfold domains, generateCombinationsIterative.
    replace ((len charset =? 0)%Z || (length <=? 0)%Z) with false
      by (symmetry; apply orb_false_iff; split; [apply Z.eqb_neq | apply Z.leb_gt]; lia).
    rewrite counterLoop_unfiltered, totalLoop_pow; rewrite ?Z2Nat.id; try lia.
    now rewrite Z.mul_1_l. }
  split; [exact E|]. rewrite E. clear E domains.
  split; [|split].
  - rewrite length_map, countersFrom_length. lia.
  - apply Forall_forall. intros d Hd. apply in_map_iff in Hd.
    destruct Hd as [k [<- _]].
    unfold len, currentOf.
    rewrite length_append_string, length_currentLoop. simpl. lia.
  - apply NoDup_map_NoDup_ForallPairs; [|apply countersFrom_NoDup].
    intros a b Ha Hb' Hab.
    apply countersFrom_In in Ha, Hb'.
    apply append_inv_tail in Hab. unfold currentOf in Hab.
    apply currentLoop_inj in Hab; rewrite ?Z2Nat.id;
      solve [exact ND | lia | reflexivity].
Qed.

Lemma NoDup_checked (l : list ascii) : nodup ascii_dec l = l -> NoDup l.
Proof. intros <-. apply NoDup_nodup. Qed.

Lemma charsetOf_facts (pattern charset : string) :
  charsetOf pattern = Some charset ->
  validPattern pattern /\
  len charset = alphabetSize pattern /\
  (0 < len charset)%Z /\
  NoDup (list_ascii_of_string charset).
Proof.
  unfold charsetOf, alphabetSize, validPattern.
  destruct (String.eqb_spec pattern "d") as [->|_].
  { intros [= <-]. repeat split; auto. now apply NoDup_checked. }
  destruct (String.eqb_spec pattern "D") as [->|_].
  { intros [= <-]. repeat split; auto. now apply NoDup_checked. }
  destruct (String.eqb_spec pattern "a") as [->|_]; [|discriminate].
  intros [= <-]. repeat split; auto. now apply NoDup_checked.
Qed.

End GeneratorFacts.

(* ================================================================== *)
(** ** Properties of the generator and of the regex guard *)

Section GeneratorClaims.

Lemma GenerateDomains_unfiltered (compile : string -> option Regexp)
      (length : Z) (suffix pattern charset : string) (regexMode : RegexMode) :
  charsetOf pattern = Some charset ->
  GenerateDomains compile length suffix pattern "" regexMode
  = Stream (generateCombinationsIterative charset length suffix None regexMode).
Proof.
  unfold charsetOf, GenerateDomains. cbn [String.eqb].
  destruct (pattern =? "d"); [now intros [= <-]|].
  destruct (pattern =? "D"); [now intros [= <-]|].
  destruct (pattern =? "a"); [now intros [= <-]|discriminate].
Qed.

Lemma CalculateDomainsCount_valid (length : Z) (pattern charset : string) :
  charsetOf pattern = Some charset ->
  CalculateDomainsCount length pattern
  = totalLoop (Z.to_nat length) (alphabetSize pattern) 1.
Proof.
  unfold charsetOf, CalculateDomainsCount, alphabetSize.
  destruct (pattern =? "d"); [reflexivity|].
  destruct (pattern =? "D"); [reflexivity|].
  destruct (pattern =? "a"); [reflexivity|discriminate].
Qed.

(** C4, amended: for a pattern among d, D, a, a length of at least 1 and
    a count alphabetSize^length that fits a 64-bit [int], the generator
    without regex filter emits exactly alphabetSize^length candidates,
    each of length length + |suffix|, pairwise distinct; candidate number
    k (from 0) is the fixed-length numeral of k in base alphabetSize,
    most significant symbol first, followed by the suffix; and the count
    is the value of [CalculateDomainsCount]. *)
Theorem generator_enumerates_all (compile : string -> option Regexp)
        (length : Z) (suffix pattern charset : string) (regexMode : RegexMode) :
  charsetOf pattern = Some charset ->
  (1 <= length)%Z ->
  (alphabetSize pattern ^ length <= maxInt)%Z ->
  exists domains,
    GenerateDomains compile length suffix pattern "" regexMode = Stream domains /\
    domains = map (fun k => currentOf charset length k ++ suffix)
                  (countersFrom (Z.to_nat (alphabetSize pattern ^ length)) 0) /\
    (forall (k : Z) (i : nat),
        (0 <= k < alphabetSize pattern ^ length)%Z ->
        (i < Z.to_nat length)%nat ->
        String.get i (currentOf charset length k)
        = Some (byteAt charset
                  ((k / alphabetSize pattern ^ Z.of_nat (Z.to_nat length - 1 - i))
                     mod alphabetSize pattern))) /\
    Z.of_nat (List.length domains) = (alphabetSize pattern ^ length)%Z /\
    Forall (fun d => len d = (length + len suffix)%Z) domains /\
    NoDup domains /\
    Z.of_nat (List.length domains) = CalculateDomainsCount length pattern.
Proof.
  intros Hc Hl Hb.
  destruct (charsetOf_facts _ _ Hc) as [_ [Hsize [Hpos ND]]].
  rewrite <- Hsize in *.
  destruct (generate_unfiltered charset length suffix regexMode ND Hpos Hl Hb)
    as [E [Hn [Hlen Hnd]]].
  exists (generateCombinationsIterative charset length suffix None regexMode).
  split; [now apply GenerateDomains_unfiltered|].
  split; [exact E|].
  split; [|split; [exact Hn|split; [exact Hlen|split; [exact Hnd|]]]].
  - intros k i Hk Hi. unfold currentOf.
    rewrite get_currentLoop by lia.
    now replace (i <? Z.to_nat length)%nat with true by (symmetry; apply Nat.ltb_lt; lia).
  - rewrite Hn, (CalculateDomainsCount_valid _ _ _ Hc), <- Hsize.
    rewrite totalLoop_pow; rewrite ?Z2Nat.id; lia.
Qed.

Lemma generator_enumerates_all_witness :
  exists domains,
    GenerateDomains (fun _ => None) 2 ".li" "d" "" RegexModeFull = Stream domains /\
    domains = map (fun k => currentOf numbers 2 k ++ ".li")
                  (countersFrom (Z.to_nat (alphabetSize "d" ^ 2)) 0) /\
    (forall (k : Z) (i : nat),
        (0 <= k < alphabetSize "d" ^ 2)%Z ->
        (i < Z.to_nat 2)%nat ->
        String.get i (currentOf numbers 2 k)
        = Some (byteAt numbers
                  ((k / alphabetSize "d" ^ Z.of_nat (Z.to_nat 2 - 1 - i))
                     mod alphabetSize "d"))) /\
    Z.of_nat (List.length domains) = (alphabetSize "d" ^ 2)%Z /\
    Forall (fun d => len d = (2 + len ".li")%Z) domains /\
    NoDup domains /\
    Z.of_nat (List.length domains) = CalculateDomainsCount 2 "d".
Proof.
  apply (generator_enumerates_all (fun _ => None) 2 ".li" "d" numbers RegexModeFull).
  - reflexivity.
  - lia.
  - vm_compute. discriminate.
Defined.

(** C4 as stated fails where the count leaves the [int] range: at length
    32 over the 36-symbol alphabet the product wraps to 0 and nothing is
    emitted, while 36^32 candidates are claimed. *)
Lemma generator_count_overflow :
  GenerateDomains (fun _ => None) 32 ".li" "a" "" RegexModeFull = Stream [] /\
  CalculateDomainsCount 32 "a" = 0%Z /\
  ~ generatorCountClaim 32 ".li" "a" RegexModeFull.
Proof.
  split; [vm_compute; reflexivity|].
  split; [vm_compute; reflexivity|].
  intros [domains [H1 [H2 _]]].
  vm_compute in H1. injection H1 as <-.
  vm_compute in H2. discriminate.
Qed.

(** C5: with a compiled filter, full mode emits exactly the candidates
    whose body+suffix the filter accepts and prefix mode exactly those
    whose body it accepts, in generation order; nothing else is emitted.
    For length 2, suffix .ai, letters and the filter ^a in full mode the
    stream is the 26 names aa.ai ... az.ai, each starting with a. *)
Theorem regex_modes_select :
  (forall charset length suffix re,
      generateCombinationsIterative charset length suffix (Some re) RegexModeFull
      = filter (accepts re) (map (fun body => body ++ suffix) (bodies charset length))) /\
  (forall charset length suffix re,
      generateCombinationsIterative charset length suffix (Some re) RegexModePrefix
      = map (fun body => body ++ suffix) (filter (accepts re) (bodies charset length))) /\
  (forall charset length suffix regexMode,
      generateCombinationsIterative charset length suffix None regexMode
      = map (fun body => body ++ suffix) (bodies charset length)) /\
  validateRegexComplexity "^a" = None /\
  generateCombinationsIterative letters 2 ".ai" (Some regexp2_caret_a) RegexModeFull
  = [ "aa.ai"; "ab.ai"; "ac.ai"; "ad.ai"; "ae.ai"; "af.ai"; "ag.ai"; "ah.ai";
      "ai.ai"; "aj.ai"; "ak.ai"; "al.ai"; "am.ai"; "an.ai"; "ao.ai"; "ap.ai";
      "aq.ai"; "ar.ai"; "as.ai"; "at.ai"; "au.ai"; "av.ai"; "aw.ai"; "ax.ai";
      "ay.ai"; "az.ai" ] /\
  List.length
    (generateCombinationsIterative letters 2 ".ai" (Some regexp2_caret_a) RegexModeFull)
  = 26%nat /\
  forallb (fun domain => prefix "a" domain && (len domain =? 2 + len ".ai")%Z)
          (generateCombinationsIterative letters 2 ".ai" (Some regexp2_caret_a)
                                         RegexModeFull) = true /\
  GenerateDomains (fun _ => Some regexp2_caret_a) 2 ".ai" "D" "^a" RegexModeFull
  = Stream (generateCombinationsIterative letters 2 ".ai" (Some regexp2_caret_a)
                                          RegexModeFull).
Proof.
  split; [|split; [|split; [|split; [|split; [|split; [|split]]]]]].
  - intros charset length suffix re.
    unfold generateCombinationsIterative, bodies.
    destruct ((len charset =? 0)%Z || (length <=? 0)%Z); [reflexivity|].
    rewrite counterLoop_filter, map_map, filter_map_swap.
    f_equal. apply filter_ext. intros k. apply matchOf_full.
  - intros charset length suffix re.
    unfold generateCombinationsIterative, bodies.
    destruct ((len charset =? 0)%Z || (length <=? 0)%Z); [reflexivity|].
    rewrite counterLoop_filter, filter_map_swap, map_map.
    f_equal. apply filter_ext. intros k. apply matchOf_prefix.
  - intros. apply generate_bodies.
  - vm_compute. reflexivity.
  - vm_compute. reflexivity.
  - vm_compute. reflexivity.
  - vm_compute. reflexivity.
  - vm_compute. reflexivity.
Qed.

(** C6: the guard rejects every pattern of more than 200 bytes (so every
    pattern of more than 200 characters), every pattern that contains a
    deny-listed shape ((a+)+ is one), and every
    pattern with more than five + and * bytes altogether; it accepts
    ^[a-z]{2}[0-9]$. *)
Theorem regex_guard_rejects :
  (forall pattern, (200 < String.length pattern)%nat ->
                   validateRegexComplexity pattern = Some PatternTooLong) /\
  (forall pattern dangerous,
      In dangerous dangerousPatterns -> Contains pattern dangerous = true ->
      validateRegexComplexity pattern <> None) /\
  In "(a+)+" dangerousPatterns /\
  (forall pattern,
      (5 < occurrences "+" pattern + occurrences "*" pattern)%nat ->
      validateRegexComplexity pattern <> None) /\
  validateRegexComplexity "(a+)+" = Some (DangerousPattern "(a+)+") /\
  validateRegexComplexity "^[a-z]{2}[0-9]$" = None.
Proof.
  split; [|split; [|split; [|split; [|split]]]].
  - intros pattern H. unfold validateRegexComplexity, len.
    now replace (200 <? Z.of_nat (String.length pattern))%Z with true
      by (symmetry; apply Z.ltb_lt; lia).
  - intros pattern dangerous Hin Hc. unfold validateRegexComplexity.
    destruct (200 <? len pattern)%Z; [discriminate|].
    destruct (find (fun d => Contains pattern d) dangerousPatterns) eqn:Hf;
      [discriminate|].
    apply (find_none _ _ Hf) in Hin. congruence.
  - simpl. tauto.
  - intros pattern H. unfold validateRegexComplexity.
    destruct (200 <? len pattern)%Z; [discriminate|].
    destruct (find _ dangerousPatterns); [discriminate|].
    rewrite !Count_single.
    now replace (5 <? occurrences "+" pattern + occurrences "*" pattern)%nat with true
      by (symmetry; apply Nat.ltb_lt; lia).
  - vm_compute. reflexivity.
  - vm_compute. reflexivity.
Qed.

Lemma regex_guard_rejects_witness :
  validateRegexComplexity
    ("aaaaaaaaaaaaaaaaaaaaaaaaaaaaaaaaaaaaaaaaaaaaaaaaaaaaaaaaaaaaaaaaaaaaaaaaaaaaaaaaaaaaaaaaaaaaaaaaaaaa" ++
     "aaaaaaaaaaaaaaaaaaaaaaaaaaaaaaaaaaaaaaaaaaaaaaaaaaaaaaaaaaaaaaaaaaaaaaaaaaaaaaaaaaaaaaaaaaaaaaaaaaaa" ++
     "a") = Some PatternTooLong /\
  validateRegexComplexity "^x(.*)*$" <> None /\
  validateRegexComplexity "a+b+c+d*e*f*" <> None.
Proof.
  destruct regex_guard_rejects as [Hlong [Hdeny [_ [Hcount _]]]].
  split; [|split].
  - apply Hlong. vm_compute. lia.
  - apply (Hdeny "^x(.*)*$" "(.*)*"); [simpl; tauto | reflexivity].
  - apply Hcount. vm_compute. lia.
Defined.

(** C10: with length <= 0 the generator emits nothing, whatever the
    alphabet, filter and mode, while [CalculateDomainsCount] reports 1
    for each of the three patterns: at length 0 the two disagree. *)
Theorem zero_length_mismatch :
  (forall charset length suffix regex regexMode,
      (length <= 0)%Z ->
      generateCombinationsIterative charset length suffix regex regexMode = []) /\
  (forall compile length suffix pattern charset regexMode,
      (length <= 0)%Z -> charsetOf pattern = Some charset ->
      GenerateDomains compile length suffix pattern "" regexMode = Stream []) /\
  (forall compile length suffix pattern regexFilter regexMode domains,
      (length <= 0)%Z ->
      GenerateDomains compile length suffix pattern regexFilter regexMode
      = Stream domains ->
      domains = []) /\
  (forall length pattern charset,
      (length <= 0)%Z -> charsetOf pattern = Some charset ->
      CalculateDomainsCount length pattern = 1%Z) /\
  (forall compile suffix pattern charset regexMode,
      charsetOf pattern = Some charset ->
      exists domains,
        GenerateDomains compile 0 suffix pattern "" regexMode = Stream domains /\
        Z.of_nat (List.length domains) <> CalculateDomainsCount 0 pattern).
Proof.
  assert (G : forall charset length suffix regex regexMode,
             (length <= 0)%Z ->
             generateCombinationsIterative charset length suffix regex regexMode = []).
  { intros charset length suffix regex regexMode H.
    unfold generateCombinationsIterative.
    replace (length <=? 0)%Z with true by (symmetry; apply Z.leb_le; lia).
    now rewrite orb_true_r. }
  assert (C : forall length pattern charset,
             (length <= 0)%Z -> charsetOf pattern = Some charset ->
             CalculateDomainsCount length pattern = 1%Z).
  { intros length pattern charset H Hc.
    rewrite (CalculateDomainsCount_valid _ _ _ Hc).
    replace (Z.to_nat length) with 0%nat by lia. reflexivity. }
  split; [exact G|]. split; [|split; [|split; [exact C|]]].
  - intros compile length suffix pattern charset regexMode H Hc.
    rewrite (GenerateDomains_unfiltered _ _ _ _ _ _ Hc). now rewrite G.
  - intros compile length suffix pattern regexFilter regexMode domains H.
    unfold GenerateDomains.
    destruct (regexFilter =? "");
      [|destruct (validateRegexComplexity regexFilter); [discriminate|];
        destruct (compile regexFilter); [|discriminate]];
      (destruct (pattern =? "d"); [|destruct (pattern =? "D");
                                    [|destruct (pattern =? "a"); [|discriminate]]]);
      rewrite G by exact H; now intros [= <-].
  - intros compile suffix pattern charset regexMode Hc.
    exists []. split.
    + rewrite (GenerateDomains_unfiltered _ _ _ _ _ _ Hc). now rewrite G.
    + rewrite (C 0%Z pattern charset) by (lia || assumption). discriminate.
Qed.

Lemma zero_length_mismatch_witness :
  generateCombinationsIterative letters 0 ".li" None RegexModeFull = [] /\
  GenerateDomains (fun _ => None) (-1) ".li" "a" "" RegexModePrefix = Stream [] /\
  (forall domains,
      GenerateDomains (fun _ => Some regexp2_caret_a) 0 ".li" "D" "^a" RegexModeFull
      = Stream domains -> domains = []) /\
  CalculateDomainsCount 0 "d" = 1%Z /\
  exists domains,
    GenerateDomains (fun _ => None) 0 ".li" "D" "" RegexModeFull = Stream domains /\
    Z.of_nat (List.length domains) <> CalculateDomainsCount 0 "D".
Proof.
  destruct zero_length_mismatch as [H1 [H2 [H5 [H3 H4]]]].
  split; [|split; [|split; [|split]]].
  - apply H1. lia.
  - apply (H2 _ _ _ _ (letters ++ numbers)); [lia | reflexivity].
  - intros domains. apply H5. lia.
  - apply (H3 _ _ numbers); [lia | reflexivity].
  - apply (H4 _ _ _ letters). reflexivity.
Defined.

End GeneratorClaims.

(* ================================================================== *)
(** ** The state monad and the checker *)

Section CheckerFacts.
Import Worker Main.

Variable globalConfig : option Config.
Variable net : Network.

Lemma bind_run {A B : Type} (m : M A) (k : A -> M B) (w : World) :
  bind m k w = k (fst (m w)) (snd (m w)).
Proof. unfold bind. now destruct (m w). Qed.

Lemma keeps_ret {A : Type} (a : A) : keepsSpecial (ret a).
Proof. intros w. reflexivity. Qed.

Lemma keeps_call {A : Type} (oracle : nat -> A) : keepsSpecial (call oracle).
Proof. intros w. reflexivity. Qed.

Lemma keeps_bind {A B : Type} (m : M A) (k : A -> M B) :
  keepsSpecial m -> (forall a, keepsSpecial (k a)) -> keepsSpecial (bind m k).
Proof.
  intros Hm Hk w. rewrite bind_run. now rewrite Hk, Hm.
Qed.

Lemma keeps_signaturesWhoisLoop (n : nat) (domain : string) :
  keepsSpecial (signaturesWhoisLoop net n domain).
Proof.
  induction n as [|n IH]; simpl.
  - apply keeps_ret.
  - apply keeps_bind; [apply keeps_call|].
    intros [result|err]; [apply keeps_ret | exact IH].
Qed.

Lemma keeps_checkDNSRecords (domain : string) :
  keepsSpecial (checkDNSRecords net domain).
Proof.
  unfold checkDNSRecords.
  repeat (apply keeps_bind; [apply keeps_call | intros ?]).
  apply keeps_ret.
Qed.

(** Gathering signatures never touches the special-status list. *)
Lemma keeps_CheckDomainSignatures (domain : string) :
  keepsSpecial (CheckDomainSignatures globalConfig net domain).
Proof.
  unfold CheckDomainSignatures.
  apply keeps_bind.
  { destruct (methodEnabled globalConfig DNSCheck); [|apply keeps_ret].
    apply keeps_bind; [apply keeps_checkDNSRecords|].
    intros [sigs err]. apply keeps_ret. }
  intros fromDNS. apply keeps_bind.
  { destruct (methodEnabled globalConfig WHOISCheck); [|apply keeps_ret].
    apply keeps_bind; [apply keeps_signaturesWhoisLoop|].
    intros r. apply keeps_ret. }
  intros fromWHOIS. apply keeps_bind.
  { destruct (methodEnabled globalConfig SSLCheck); [|apply keeps_ret].
    apply keeps_bind; [apply keeps_call|].
    intros r. apply keeps_ret. }
  intros fromSSL. apply keeps_ret.
Qed.

(** [CheckDomainSignatures] always returns a nil error. *)
Lemma CheckDomainSignatures_nil (domain : string) (w : World) :
  snd (fst (CheckDomainSignatures globalConfig net domain w)) = None.
Proof.
  unfold CheckDomainSignatures.
  rewrite !bind_run. reflexivity.
Qed.

Lemma handleRateLimitedDomain_nil (domain : string) (hasDNS : bool) (w : World) :
  snd (fst (handleRateLimitedDomain globalConfig domain hasDNS w)) = None.
Proof.
  unfold handleRateLimitedDomain.
  destruct hasDNS; [reflexivity|]. now destruct globalConfig.
Qed.

Lemma availabilityWhoisLoop_nil (n i : nat) (domain : string) (hasDNS : bool) (w : World) :
  snd (fst (availabilityWhoisLoop globalConfig net n i domain hasDNS w)) = None.
Proof.
  revert i w. induction n as [|n IH]; intros i w; [reflexivity|].
  cbn [availabilityWhoisLoop]. rewrite bind_run.
  destruct (fst (call (fun t => Whois net t domain) w)) as [result|err].
  - destruct (isRateLimit (ToLower result)).
    + destruct (i <? maxRetries - 1)%nat; [apply IH | apply handleRateLimitedDomain_nil].
    + destruct (firstIndicator _ availableIndicators); [reflexivity|].
      destruct (firstIndicator _ enhancedRegisteredIndicators); [reflexivity|].
      destruct (firstIndicator _ specialStatusIndicators); reflexivity.
  - destruct (isRateLimit (ToLower err)); [|apply IH].
    destruct (i =? maxRetries - 1)%nat; [apply handleRateLimitedDomain_nil | apply IH].
Qed.

Lemma availabilityFromSignatures_nil (domain : string) (signatures : list string)
      (w : World) :
  snd (fst (availabilityFromSignatures globalConfig net domain signatures w)) = None.
Proof.
  unfold availabilityFromSignatures.
  destruct (existsb _ signatures); [reflexivity|].
  destruct (signatureFlags signatures (false, false, false)) as [[r dn] wh].
  destruct r; [reflexivity | apply availabilityWhoisLoop_nil].
Qed.

(** [CheckDomainAvailability] is [availabilityFromSignatures] run on the
    gathered signatures. *)
Lemma CheckDomainAvailability_run (domain : string) (w : World) :
  CheckDomainAvailability globalConfig net domain w
  = availabilityFromSignatures globalConfig net domain
      (fst (fst (CheckDomainSignatures globalConfig net domain w)))
      (snd (CheckDomainSignatures globalConfig net domain w)).
Proof.
  unfold CheckDomainAvailability. rewrite bind_run.
  pose proof (CheckDomainSignatures_nil domain w) as H.
  destruct (CheckDomainSignatures globalConfig net domain w) as [[sigs err] w1].
  simpl in *. now subst err.
Qed.

Lemma CheckDomainAvailability_nil (domain : string) (w : World) :
  snd (fst (CheckDomainAvailability globalConfig net domain w)) = None.
Proof. rewrite CheckDomainAvailability_run. apply availabilityFromSignatures_nil. Qed.

Lemma signatureFlags_spec (signatures : list string) (r dn wh : bool) :
  fst (fst (signatureFlags signatures (r, dn, wh)))
  = r || existsb isRegistrationTag signatures /\
  snd (fst (signatureFlags signatures (r, dn, wh)))
  = dn || existsb isDNSSignature signatures.
Proof.
  revert r dn wh. induction signatures as [|sig rest IH]; intros r dn wh.
  - simpl. now rewrite !orb_false_r.
  - cbn [signatureFlags existsb]. unfold isRegistrationTag at 1.
    destruct (isDNSSignature sig) eqn:Ed.
    + destruct (IH true true wh) as [-> ->]. simpl. now rewrite !orb_true_r.
    + destruct (sig =? "WHOIS") eqn:Ew.
      * destruct (IH true dn true) as [-> ->]. simpl. now rewrite !orb_true_r.
      * destruct (sig =? "SSL") eqn:Es.
        -- destruct (IH true dn wh) as [-> ->]. simpl. now rewrite !orb_true_r.
        -- destruct (IH r dn wh) as [-> ->]. now simpl.
Qed.

Lemma firstIndicator_none (result : string) (l : list string) :
  anyIndicator result l = false -> firstIndicator result l = None.
Proof.
  unfold anyIndicator, firstIndicator.
  induction l as [|x l IH]; simpl; [reflexivity|].
  destruct (Contains result x); [discriminate | exact IH].
Qed.

Lemma firstIndicator_some (result : string) (l : list string) :
  anyIndicator result l = true -> exists indicator, firstIndicator result l = Some indicator.
Proof.
  unfold anyIndicator, firstIndicator.
  induction l as [|x l IH]; simpl; [discriminate|].
  destruct (Contains result x); [eauto | exact IH].
Qed.

(** One round of the retry loop on an answer without rate-limit phrase:
    the indicator sets are tried in the order Available, Registered,
    Special-status and the first match returns. *)
Lemma availabilityWhoisLoop_answer (n i : nat) (domain : string) (hasDNS : bool)
      (w : World) (text : string) :
  Whois net (clock w) domain = WhoisOk text ->
  isRateLimit (ToLower text) = false ->
  availabilityWhoisLoop globalConfig net (S n) i domain hasDNS w
  = match firstIndicator (ToLower text) availableIndicators with
    | Some _ => ((true, None), tick w)
    | None =>
        match firstIndicator (ToLower text) enhancedRegisteredIndicators with
        | Some _ => ((false, None), tick w)
        | None =>
            match firstIndicator (ToLower text) specialStatusIndicators with
            | Some indicator =>
                ((false, None),
                 {| clock := S (clock w);
                    specialStatusDomains :=
                      (specialStatusDomains w ++
                       [specialRecord domain
                          (ToUpper (TrimPrefix indicator "status: "))])%list |})
            | None => ((true, None), tick w)
            end
        end
    end.
Proof.
  intros Hr Hl. cbn [availabilityWhoisLoop]. rewrite bind_run.
  cbn [call fst snd]. rewrite Hr, Hl.
  destruct (firstIndicator _ availableIndicators); [reflexivity|].
  destruct (firstIndicator _ enhancedRegisteredIndicators); [reflexivity|].
  destruct (firstIndicator _ specialStatusIndicators); reflexivity.
Qed.


End CheckerFacts.

(* ================================================================== *)
(** ** Case folding and indicator lists *)

Section IndicatorFacts.

Lemma prefix_mapBytes (f : ascii -> ascii) (sub s : string) :
  prefix sub s = true -> prefix (mapBytes f sub) (mapBytes f s) = true.
Proof.
  revert s. induction sub as [|a sub IH]; intros s H; [now destruct s|].
  destruct s as [|b s]; [discriminate|].
  simpl in *.
  destruct (ascii_dec a b) as [->|]; [|discriminate].
  destruct (ascii_dec (f b) (f b)); [now apply IH | congruence].
Qed.

(** Folding the case of a text keeps its occurrences. *)
Lemma Contains_mapBytes (f : ascii -> ascii) (s sub : string) :
  Contains s sub = true -> Contains (mapBytes f s) (mapBytes f sub) = true.
Proof.
  induction s as [|c s IH]; intros H.
  - simpl in *. rewrite orb_false_r in *. now apply (prefix_mapBytes f sub "").
  - cbn [Contains] in H. apply orb_true_iff in H.
    change (mapBytes f (String c s)) with (String (f c) (mapBytes f s)).
    cbn [Contains]. apply orb_true_iff.
    destruct H as [H|H].
    + left. now apply (prefix_mapBytes f sub (String c s)).
    + right. now apply IH.
Qed.

Lemma lowerByte_not_S (c : ascii) : lowerByte c <> "S"%char.
Proof.
  destruct c as [[] [] [] [] [] [] [] []]; vm_compute; discriminate.
Qed.

(** A lowercased text holds no indicator that starts with a capital S. *)
Lemma Contains_lower_capital (text rest : string) :
  Contains (ToLower text) (String "S" rest) = false.
Proof.
  induction text as [|c text IH]; [reflexivity|].
  change (ToLower (String c text)) with (String (lowerByte c) (ToLower text)).
  cbn [Contains prefix].
  destruct (ascii_dec "S" (lowerByte c)) as [e|_].
  - symmetry in e. now apply lowerByte_not_S in e.
  - exact IH.
Qed.

Lemma anyIndicator_insert (result x : string) (l1 l2 : list string) :
  anyIndicator result (l1 ++ x :: l2)
  = Contains result x || anyIndicator result (l1 ++ l2).
Proof.
  unfold anyIndicator. rewrite !existsb_app. simpl.
  destruct (existsb _ l1), (Contains result x); reflexivity.
Qed.

(** On lowercased text the local list of [CheckDomainAvailability]
    matches exactly when [registeredIndicators] does: its one extra
    entry is capitalised. *)
Lemma enhanced_as_registered (text : string) :
  anyIndicator (ToLower text) enhancedRegisteredIndicators
  = anyIndicator (ToLower text) registeredIndicators.
Proof.
  change enhancedRegisteredIndicators
    with (firstn 19 registeredIndicators ++ "Status: connect" :: skipn 19 registeredIndicators)%list.
  rewrite anyIndicator_insert, Contains_lower_capital, firstn_skipn.
  reflexivity.
Qed.

Lemma isRegistrationTag_In (sig : string) :
  isRegistrationTag sig = true <-> In sig registrationTags.
Proof.
  unfold isRegistrationTag, isDNSSignature, registrationTags.
  rewrite !orb_true_iff, !String.eqb_eq. simpl. intuition congruence.
Qed.

Lemma reserved_In (signatures : list string) :
  existsb (fun sig => sig =? "RESERVED") signatures = true <-> In "RESERVED" signatures.
Proof.
  rewrite existsb_exists. split.
  - intros [x [Hin Hx]]. apply String.eqb_eq in Hx. now subst.
  - intros H. exists "RESERVED". now split.
Qed.

End IndicatorFacts.

(* ================================================================== *)
(** ** Properties of the availability check *)

Section CheckerClaims.
Import Worker Main.

(** C1: the availability check decides from the gathered signatures.
    RESERVED present: not available.  Otherwise any of DNS_NS, DNS_A,
    DNS_MX, DNS_TXT, DNS_CNAME, WHOIS, SSL present: not available.
    Otherwise, when the WHOIS query answers without error, without
    rate-limit phrase and without any Available, Registered or
    Special-status indicator: available.  No error is returned and the
    special-status list is not touched in any of the three cases. *)
Theorem availability_from_signature_set
        (globalConfig : option Config) (net : Network) (domain : string) (w : World) :
  (In "RESERVED" (signaturesOf globalConfig net domain w) ->
   CheckDomainAvailability globalConfig net domain w
   = ((false, None), afterSignatures globalConfig net domain w)) /\
  (~ In "RESERVED" (signaturesOf globalConfig net domain w) ->
   (exists sig, In sig (signaturesOf globalConfig net domain w) /\
                In sig registrationTags) ->
   CheckDomainAvailability globalConfig net domain w
   = ((false, None), afterSignatures globalConfig net domain w)) /\
  (~ In "RESERVED" (signaturesOf globalConfig net domain w) ->
   (forall sig, In sig registrationTags ->
                ~ In sig (signaturesOf globalConfig net domain w)) ->
   forall text,
     Whois net (clock (afterSignatures globalConfig net domain w)) domain = WhoisOk text ->
     isRateLimit (ToLower text) = false ->
     anyIndicator (ToLower text) availableIndicators = false ->
     anyIndicator (ToLower text) enhancedRegisteredIndicators = false ->
     anyIndicator (ToLower text) specialStatusIndicators = false ->
     CheckDomainAvailability globalConfig net domain w
     = ((true, None), tick (afterSignatures globalConfig net domain w))).
Proof.
  rewrite CheckDomainAvailability_run.
  fold (signaturesOf globalConfig net domain w).
  fold (afterSignatures globalConfig net domain w).
  generalize (signaturesOf globalConfig net domain w) as signatures.
  generalize (afterSignatures globalConfig net domain w) as w1.
  intros w1 signatures. unfold availabilityFromSignatures.
  split; [|split].
  - intros H. apply reserved_In in H. now rewrite H.
  - intros Hres [sig [Hin Htag]].
    destruct (existsb (fun s => s =? "RESERVED") signatures); [reflexivity|].
    pose proof (signatureFlags_spec signatures false false false) as [Hr _].
    destruct (signatureFlags signatures (false, false, false)) as [[r dn] wh].
    simpl in Hr. subst r.
    replace (existsb isRegistrationTag signatures) with true; [reflexivity|].
    symmetry. apply existsb_exists. exists sig.
    split; [exact Hin | now apply isRegistrationTag_In].
  - intros Hres Hnone text Hw Hl Ha Hg Hs.
    destruct (existsb (fun s => s =? "RESERVED") signatures) eqn:E;
      [now apply reserved_In in E|].
    pose proof (signatureFlags_spec signatures false false false) as [Hr _].
    destruct (signatureFlags signatures (false, false, false)) as [[r dn] wh].
    simpl in Hr. subst r.
    replace (existsb isRegistrationTag signatures) with false.
    + unfold maxRetries.
      rewrite (availabilityWhoisLoop_answer _ _ _ _ _ _ _ _ Hw Hl).
      now rewrite !firstIndicator_none.
    + symmetry. apply not_true_is_false. intros H.
      apply existsb_exists in H. destruct H as [sig [Hin Htag]].
      apply isRegistrationTag_In in Htag. now apply (Hnone sig).
Qed.

Lemma availability_from_signature_set_witness :
  CheckDomainAvailability None (silentNet (WhoisOk "Status: Reserved")) "ab.li" freshWorld
  = ((false, None),
     afterSignatures None (silentNet (WhoisOk "Status: Reserved")) "ab.li" freshWorld) /\
  CheckDomainAvailability None (resolvingNet (WhoisErr "timeout")) "ab.li" freshWorld
  = ((false, None),
     afterSignatures None (resolvingNet (WhoisErr "timeout")) "ab.li" freshWorld) /\
  CheckDomainAvailability None (silentNet (WhoisOk "nothing on file")) "ab.li" freshWorld
  = ((true, None),
     tick (afterSignatures None (silentNet (WhoisOk "nothing on file")) "ab.li" freshWorld)).
Proof.
  split; [|split].
  - destruct (availability_from_signature_set
                None (silentNet (WhoisOk "Status: Reserved")) "ab.li" freshWorld)
      as [H _].
    apply H. vm_compute. left. reflexivity.
  - destruct (availability_from_signature_set
                None (resolvingNet (WhoisErr "timeout")) "ab.li" freshWorld)
      as [_ [H _]].
    apply H.
    + vm_compute. intuition discriminate.
    + exists "DNS_A". split; vm_compute; intuition reflexivity.
  - destruct (availability_from_signature_set
                None (silentNet (WhoisOk "nothing on file")) "ab.li" freshWorld)
      as [_ [_ H]].
    apply H with (text := "nothing on file").
    + vm_compute. tauto.
    + intros sig _. vm_compute. tauto.
    + reflexivity.
    + reflexivity.
    + reflexivity.
    + reflexivity.
    + reflexivity.
Defined.




(** The comments of [handleRateLimitedDomain] promise that a candidate
    reported available after rate limiting is added to the special
    status list, and the other call of [addToSpecialStatus] is not
    guarded; without a loaded configuration ([globalConfig] nil, the
    program started without a configuration file) the guard skips the
    record: every WHOIS attempt is rate-limited, there is no signature,
    the candidate is reported available and nothing is appended. *)
Lemma rate_limit_unrecorded_without_config :
  fst (CheckDomainAvailability None (silentNet (WhoisErr "Rate limit exceeded"))
                               "ab.li" freshWorld) = (true, None) /\
  specialStatusDomains
    (snd (CheckDomainAvailability None (silentNet (WhoisErr "Rate limit exceeded"))
                                  "ab.li" freshWorld)) = [] /\
  ~ rateLimitClaim None (silentNet (WhoisErr "Rate limit exceeded")) "ab.li" freshWorld.
Proof.
  split; [reflexivity|]. split; [reflexivity|].
  unfold rateLimitClaim. intros H.
  destruct H as [_ H]; [intros t; reflexivity|].
  destruct H as [_ H]; [reflexivity|].
  vm_compute in H. discriminate.
Qed.

(** C3, amended: the lowercased text of a WHOIS response is matched
    first against the Available indicators, and a match there decides
    alone: no WHOIS or RESERVED signature is produced and the
    availability check's own query (once its rate-limit test has passed)
    returns available at once, whatever else the response contains.
    Without an Available match the Registered and the Reserved
    indicators are tested independently of each other, WHOIS being
    appended before RESERVED and both when both match; the availability
    check's own query returns not available on a Registered match; the
    Special-status indicators are consulted only after the Available and
    Registered ones have failed, and a match there appends one record
    with the matched reason and returns not available; with no match at
    all the answer is available. *)
Theorem whois_indicator_precedence
        (globalConfig : option Config) (net : Network) (domain text : string) :
  whoisSignatures text
  = (if anyIndicator (ToLower text) availableIndicators then []
     else (if anyIndicator (ToLower text) registeredIndicators then ["WHOIS"] else []) ++
          (if anyIndicator (ToLower text) reservedIndicators then ["RESERVED"] else []))%list /\
  (forall (n i : nat) (hasDNS : bool) (w : World),
      Whois net (clock w) domain = WhoisOk text ->
      isRateLimit (ToLower text) = false ->
      (anyIndicator (ToLower text) availableIndicators = true ->
       availabilityWhoisLoop globalConfig net (S n) i domain hasDNS w
       = ((true, None), tick w)) /\
      (anyIndicator (ToLower text) availableIndicators = false ->
       anyIndicator (ToLower text) registeredIndicators = true ->
       availabilityWhoisLoop globalConfig net (S n) i domain hasDNS w
       = ((false, None), tick w)) /\
      (anyIndicator (ToLower text) availableIndicators = false ->
       anyIndicator (ToLower text) registeredIndicators = false ->
       forall indicator,
         firstIndicator (ToLower text) specialStatusIndicators = Some indicator ->
         availabilityWhoisLoop globalConfig net (S n) i domain hasDNS w
         = ((false, None),
            {| clock := S (clock w);
               specialStatusDomains :=
                 (specialStatusDomains w ++
                  [specialRecord domain (ToUpper (TrimPrefix indicator "status: "))])%list |})) /\
      (anyIndicator (ToLower text) availableIndicators = false ->
       anyIndicator (ToLower text) registeredIndicators = false ->
       anyIndicator (ToLower text) specialStatusIndicators = false ->
       availabilityWhoisLoop globalConfig net (S n) i domain hasDNS w
       = ((true, None), tick w))) /\
  (forall w : World,
      signaturesOf globalConfig net domain w = [] ->
      Whois net (clock (afterSignatures globalConfig net domain w)) domain = WhoisOk text ->
      isRateLimit (ToLower text) = false ->
      anyIndicator (ToLower text) availableIndicators = true ->
      CheckDomainAvailability globalConfig net domain w
      = ((true, None), tick (afterSignatures globalConfig net domain w))).
Proof.
  assert (Loop : forall (n i : nat) (hasDNS : bool) (w : World),
             Whois net (clock w) domain = WhoisOk text ->
             isRateLimit (ToLower text) = false ->
             anyIndicator (ToLower text) availableIndicators = true ->
             availabilityWhoisLoop globalConfig net (S n) i domain hasDNS w
             = ((true, None), tick w)).
  { intros n i hasDNS w Hw Hl Ha.
    rewrite (availabilityWhoisLoop_answer _ _ _ _ _ _ _ _ Hw Hl).
    destruct (firstIndicator_some _ _ Ha) as [x ->]. reflexivity. }
  split; [|split].
  - unfold whoisSignatures.
    destruct (String.eqb_spec text "") as [->|_]; reflexivity.
  - intros n i hasDNS w Hw Hl.
    split; [now apply Loop|].
    rewrite (availabilityWhoisLoop_answer _ _ _ _ _ _ _ _ Hw Hl).
    split; [|split].
    + intros Ha Hr. rewrite (firstIndicator_none _ _ Ha).
      rewrite <- enhanced_as_registered in Hr.
      destruct (firstIndicator_some _ _ Hr) as [x ->]. reflexivity.
    + intros Ha Hr indicator Hs. rewrite (firstIndicator_none _ _ Ha).
      rewrite <- enhanced_as_registered in Hr.
      now rewrite (firstIndicator_none _ _ Hr), Hs.
    + intros Ha Hr Hs. rewrite (firstIndicator_none _ _ Ha).
      rewrite <- enhanced_as_registered in Hr.
      now rewrite (firstIndicator_none _ _ Hr), (firstIndicator_none _ _ Hs).
  - intros w Hsig Hw Hl Ha.
    rewrite CheckDomainAvailability_run.
    fold (signaturesOf globalConfig net domain w).
    fold (afterSignatures globalConfig net domain w).
    rewrite Hsig. unfold availabilityFromSignatures. cbn [existsb signatureFlags].
    now apply Loop.
Qed.

Lemma whois_indicator_precedence_witness :
  availabilityWhoisLoop None (silentNet (WhoisOk "No match for AB.LI (Registrar: none)"))
                        5 0 "ab.li" false freshWorld
  = ((true, None), tick freshWorld) /\
  availabilityWhoisLoop None (silentNet (WhoisOk "Registrar: Example; Status: pendingDelete"))
                        5 0 "ab.li" false freshWorld
  = ((false, None), tick freshWorld) /\
  availabilityWhoisLoop None (silentNet (WhoisOk "Status: pendingDelete"))
                        5 0 "ab.li" false freshWorld
  = ((false, None),
     {| clock := 1; specialStatusDomains := [specialRecord "ab.li" "PENDINGDELETE"] |}) /\
  availabilityWhoisLoop None (silentNet (WhoisOk "nothing on file"))
                        5 0 "ab.li" false freshWorld
  = ((true, None), tick freshWorld) /\
  CheckDomainAvailability None (silentNet (WhoisOk "No match for AB.LI (Registrar: none)"))
                          "ab.li" freshWorld
  = ((true, None),
     tick (afterSignatures None
             (silentNet (WhoisOk "No match for AB.LI (Registrar: none)")) "ab.li" freshWorld)).
Proof.
  split; [|split; [|split; [|split]]].
  - destruct (whois_indicator_precedence
                None (silentNet (WhoisOk "No match for AB.LI (Registrar: none)"))
                "ab.li" "No match for AB.LI (Registrar: none)") as [_ [H _]].
    destruct (H 4%nat 0%nat false freshWorld) as [H1 _]; [reflexivity | reflexivity |].
    apply H1. reflexivity.
  - destruct (whois_indicator_precedence
                None (silentNet (WhoisOk "Registrar: Example; Status: pendingDelete"))
                "ab.li" "Registrar: Example; Status: pendingDelete") as [_ [H _]].
    destruct (H 4%nat 0%nat false freshWorld) as [_ [H2 _]]; [reflexivity | reflexivity |].
    apply H2; reflexivity.
  - destruct (whois_indicator_precedence
                None (silentNet (WhoisOk "Status: pendingDelete"))
                "ab.li" "Status: pendingDelete") as [_ [H _]].
    destruct (H 4%nat 0%nat false freshWorld) as [_ [_ [H3 _]]]; [reflexivity | reflexivity |].
    apply (H3 eq_refl eq_refl "status: pendingdelete"). reflexivity.
  - destruct (whois_indicator_precedence
                None (silentNet (WhoisOk "nothing on file"))
                "ab.li" "nothing on file") as [_ [H _]].
    destruct (H 4%nat 0%nat false freshWorld) as [_ [_ [_ H4]]]; [reflexivity | reflexivity |].
    apply H4; reflexivity.
  - destruct (whois_indicator_precedence
                None (silentNet (WhoisOk "No match for AB.LI (Registrar: none)"))
                "ab.li" "No match for AB.LI (Registrar: none)") as [_ [_ H]].
    apply H; reflexivity.
Defined.

(** C3 as stated fails between the Reserved and the Registered set: a
    response without rate-limit phrase that matches both yields both
    signatures, WHOIS first, where a first-match reading in the order
    Available, Reserved, Registered yields RESERVED alone. *)
Lemma reserved_and_registered_both_reported :
  isRateLimit (ToLower "Registrar: Example Registry; Status: Reserved") = false /\
  whoisSignatures "Registrar: Example Registry; Status: Reserved" = ["WHOIS"; "RESERVED"] /\
  specWhoisSignatures "Registrar: Example Registry; Status: Reserved" = ["RESERVED"] /\
  fst (CheckDomainSignatures None
         (silentNet (WhoisOk "Registrar: Example Registry; Status: Reserved"))
         "ab.li" freshWorld) = (["WHOIS"; "RESERVED"], None) /\
  ~ (forall text, isRateLimit (ToLower text) = false ->
                  whoisSignatures text = specWhoisSignatures text).
Proof.
  split; [reflexivity|]. split; [reflexivity|]. split; [reflexivity|].
  split; [reflexivity|].
  intros H.
  specialize (H "Registrar: Example Registry; Status: Reserved" eq_refl).
  vm_compute in H. discriminate.
Qed.

Lemma Worker_single (globalConfig : option Config) (net : Network)
      (domain : string) (w : World) :
  Worker globalConfig net [domain] w
  = ([ {| Domain := domain;
          Available := fst (fst (CheckDomainAvailability globalConfig net domain w));
          Error := snd (fst (CheckDomainAvailability globalConfig net domain w));
          Signatures :=
            signaturesOf globalConfig net domain
                         (snd (CheckDomainAvailability globalConfig net domain w));
          SpecialStatus := "" |} ],
     afterSignatures globalConfig net domain
                     (snd (CheckDomainAvailability globalConfig net domain w))).
Proof.
  cbn [Worker]. rewrite bind_run.
  destruct (CheckDomainAvailability globalConfig net domain w) as [[available err] w1].
  cbn [fst snd]. rewrite bind_run.
  unfold signaturesOf, afterSignatures.
  destruct (CheckDomainSignatures globalConfig net domain w1) as [[signatures e] w2].
  reflexivity.
Qed.

(** C7, amended: when no signature was gathered for the candidate and
    the WHOIS answer to the availability check contains
    Status: REDEMPTIONPERIOD, no rate-limit phrase and no Available or
    Registered indicator, the check returns Available = false without
    error and appends exactly one record with status REDEMPTIONPERIOD to
    the special-status list; the worker's result carries Available =
    false and an empty SpecialStatus field, the reason being kept in the
    special-status list only. *)
Theorem redemption_period_recorded
        (globalConfig : option Config) (net : Network) (domain : string) (w : World)
        (text : string) :
  signaturesOf globalConfig net domain w = [] ->
  Whois net (clock (afterSignatures globalConfig net domain w)) domain = WhoisOk text ->
  Contains text "Status: REDEMPTIONPERIOD" = true ->
  isRateLimit (ToLower text) = false ->
  anyIndicator (ToLower text) availableIndicators = false ->
  anyIndicator (ToLower text) registeredIndicators = false ->
  fst (CheckDomainAvailability globalConfig net domain w) = (false, None) /\
  specialStatusDomains (snd (CheckDomainAvailability globalConfig net domain w))
  = (specialStatusDomains w ++ [specialRecord domain "REDEMPTIONPERIOD"])%list /\
  exists signatures w',
    Worker globalConfig net [domain] w
    = ([ {| Domain := domain; Available := false; Error := None;
            Signatures := signatures; SpecialStatus := "" |} ], w') /\
    specialStatusDomains w'
    = (specialStatusDomains w ++ [specialRecord domain "REDEMPTIONPERIOD"])%list.
Proof.
  intros Hsig Hw Hc Hl Ha Hr.
  assert (E : CheckDomainAvailability globalConfig net domain w
              = ((false, None),
                 {| clock := S (clock (afterSignatures globalConfig net domain w));
                    specialStatusDomains :=
                      (specialStatusDomains w ++
                       [specialRecord domain "REDEMPTIONPERIOD"])%list |})).
  { rewrite CheckDomainAvailability_run.
    pose proof (keeps_CheckDomainSignatures globalConfig net domain w) as Hk.
    fold (signaturesOf globalConfig net domain w).
    fold (afterSignatures globalConfig net domain w) in Hk |- *.
    rewrite Hsig. unfold availabilityFromSignatures. cbn [existsb signatureFlags].
    unfold maxRetries.
    rewrite (availabilityWhoisLoop_answer _ _ _ _ _ _ _ _ Hw Hl).
    rewrite (firstIndicator_none _ _ Ha).
    rewrite <- enhanced_as_registered in Hr.
    rewrite (firstIndicator_none _ _ Hr).
    apply (Contains_mapBytes lowerByte) in Hc.
    change (mapBytes lowerByte text) with (ToLower text) in Hc.
    change (mapBytes lowerByte "Status: REDEMPTIONPERIOD")
      with "status: redemptionperiod" in Hc.
    unfold firstIndicator, specialStatusIndicators. cbn [find].
    rewrite Hc, Hk. reflexivity. }
  rewrite E. split; [reflexivity|]. split; [reflexivity|].
  eexists. eexists. rewrite Worker_single, E. cbn [fst snd].
  split; [reflexivity|].
  apply (keeps_CheckDomainSignatures globalConfig net domain).
Qed.

Lemma redemption_period_recorded_witness :
  fst (CheckDomainAvailability None (silentNet (WhoisOk "Status: REDEMPTIONPERIOD"))
                               "ab.li" freshWorld) = (false, None) /\
  specialStatusDomains
    (snd (CheckDomainAvailability None (silentNet (WhoisOk "Status: REDEMPTIONPERIOD"))
                                  "ab.li" freshWorld))
  = [specialRecord "ab.li" "REDEMPTIONPERIOD"] /\
  exists signatures w',
    Worker None (silentNet (WhoisOk "Status: REDEMPTIONPERIOD")) ["ab.li"] freshWorld
    = ([ {| Domain := "ab.li"; Available := false; Error := None;
            Signatures := signatures; SpecialStatus := "" |} ], w') /\
    specialStatusDomains w' = [specialRecord "ab.li" "REDEMPTIONPERIOD"].
Proof.
  apply (redemption_period_recorded
           None (silentNet (WhoisOk "Status: REDEMPTIONPERIOD")) "ab.li" freshWorld
           "Status: REDEMPTIONPERIOD"); reflexivity.
Defined.

(** C7 as stated fails in two ways.  A response that also carries a
    rate-limit phrase is retried and ends in the rate-limit fallback:
    the candidate is reported available and no REDEMPTIONPERIOD record
    exists.  A candidate with an address record is decided by that
    signature before any status is read: not available, and no record. *)
Lemma redemption_period_not_always_recorded :
  CheckDomainAvailability
    None (silentNet (WhoisOk "Status: REDEMPTIONPERIOD (query rate limit exceeded)"))
    "ab.li" freshWorld
  = ((true, None), {| clock := 12; specialStatusDomains := [] |}) /\
  ~ redemptionClaim
      None (silentNet (WhoisOk "Status: REDEMPTIONPERIOD (query rate limit exceeded)"))
      "ab.li" freshWorld "Status: REDEMPTIONPERIOD (query rate limit exceeded)" /\
  CheckDomainAvailability
    None (resolvingNet (WhoisOk "Status: REDEMPTIONPERIOD")) "ab.li" freshWorld
  = ((false, None), {| clock := 7; specialStatusDomains := [] |}) /\
  ~ redemptionClaim
      None (resolvingNet (WhoisOk "Status: REDEMPTIONPERIOD"))
      "ab.li" freshWorld "Status: REDEMPTIONPERIOD".
Proof.
  split; [reflexivity|]. split; [|split; [reflexivity|]].
  - unfold redemptionClaim. intros H.
    destruct H as [H _]; try reflexivity.
    vm_compute in H. discriminate.
  - unfold redemptionClaim. intros H.
    destruct H as [_ H]; try reflexivity.
    vm_compute in H. exact H.
Qed.

Lemma Worker_nil_errors (globalConfig : option Config) (net : Network)
      (jobs : list string) :
  forall w, Forall (fun r => Error r = None) (fst (Worker globalConfig net jobs w)).
Proof.
  induction jobs as [|domainName rest IH]; intros w; [constructor|].
  cbn [Worker]. rewrite bind_run.
  pose proof (CheckDomainAvailability_nil globalConfig net domainName w) as Hnil.
  destruct (CheckDomainAvailability globalConfig net domainName w) as [[available err] w1].
  cbn [fst snd] in *. subst err. rewrite bind_run.
  destruct (CheckDomainSignatures globalConfig net domainName w1) as [[signatures e] w2].
  cbn [fst snd]. rewrite bind_run. cbn [ret fst].
  constructor; [reflexivity | apply IH].
Qed.

Lemma collect_no_error (showRegistered : bool) (results : list DomainResult) :
  Forall (fun r => Error r = None) results ->
  forall c, existsb isErrorMsg (statusChan c) = false ->
            existsb isErrorMsg
              (statusChan (fold_left (collect showRegistered) results c)) = false /\
            processedCount (fold_left (collect showRegistered) results c)
            = (processedCount c + List.length results)%nat.
Proof.
  induction 1 as [|r results Hr _ IH]; intros c Hc.
  - simpl. split; [exact Hc | lia].
  - cbn [fold_left List.length].
    destruct (IH (collect showRegistered c r)) as [H1 H2].
    + unfold collect. rewrite Hr.
      destruct (Available r); [|destruct showRegistered]; cbn [statusChan];
        rewrite ?existsb_app, ?Hc; reflexivity.
    + split; [exact H1|]. rewrite H2.
      unfold collect. rewrite Hr.
      destruct (Available r); [|destruct showRegistered]; cbn [processedCount]; lia.
Qed.

(** C9: [CheckDomainSignatures] returns a nil error on every domain, the
    error of [CheckDomainAvailability] is the one of
    [CheckDomainSignatures], every result a worker sends has a nil
    Error, and the collector never takes its error branch: no
    error message is ever put on the status channel. *)
Theorem worker_results_carry_no_error
        (globalConfig : option Config) (net : Network) :
  (forall domain w,
      snd (fst (CheckDomainSignatures globalConfig net domain w)) = None) /\
  (forall domain w,
      snd (fst (CheckDomainAvailability globalConfig net domain w))
      = snd (fst (CheckDomainSignatures globalConfig net domain w))) /\
  (forall jobs w,
      Forall (fun r => Error r = None) (fst (Worker globalConfig net jobs w))) /\
  (forall showRegistered jobs w,
      existsb isErrorMsg
        (statusChan (collectResults showRegistered
                       (fst (Worker globalConfig net jobs w)))) = false).
Proof.
  split; [|split; [|split]].
  - apply CheckDomainSignatures_nil.
  - intros domain w.
    now rewrite CheckDomainAvailability_nil, CheckDomainSignatures_nil.
  - apply Worker_nil_errors.
  - intros showRegistered jobs w. unfold collectResults.
    apply collect_no_error; [apply Worker_nil_errors | reflexivity].
Qed.

End CheckerClaims.

(* ================================================================== *)
(** ** Further properties of the generator *)

Section GeneratorExtras.

Lemma wrap64_mul_l (a b : Z) : wrap64 (wrap64 a * b) = wrap64 (a * b).
Proof.
  unfold wrap64 at 1 3. f_equal.
  unfold wrap64.
  pose proof (Z.mod_eq (a + 2 ^ 63) (2 ^ 64)) as E.
  set (M := (2 ^ 64)%Z) in *. set (H := (2 ^ 63)%Z) in *.
  assert (M <> 0%Z) by (subst M; lia).
  rewrite E by assumption. clearbody M H.
  assert (X : ((a + H - M * ((a + H) / M) - H) * b + H
               = a * b + H + (- ((a + H) / M) * b) * M)%Z) by ring.
  rewrite X. apply Z_mod_plus_full.
Qed.

(** With wrap-around the first loop computes the power modulo 2^64. *)
Lemma totalLoop_wrap (n : nat) (size t : Z) :
  totalLoop n size (wrap64 t) = wrap64 (t * size ^ Z.of_nat n).
Proof.
  revert t. induction n as [|n IH]; intros t.
  - simpl. now rewrite Z.mul_1_r.
  - cbn [totalLoop]. unfold mul. rewrite wrap64_mul_l, IH.
    rewrite Nat2Z.inj_succ, Z.pow_succ_r by lia. f_equal. ring.
Qed.

Lemma generate_full_filter (charset : string) (length : Z) (suffix : string) (re : Regexp) :
  generateCombinationsIterative charset length suffix (Some re) RegexModeFull
  = filter (accepts re)
           (generateCombinationsIterative charset length suffix None RegexModeFull).
Proof.
  unfold generateCombinationsIterative.
  destruct ((len charset =? 0)%Z || (length <=? 0)%Z); [reflexivity|].
  rewrite counterLoop_unfiltered, counterLoop_filter, filter_map_swap.
  f_equal. apply filter_ext. intros k. apply matchOf_full.
Qed.

(** Every candidate of a call whose guards passed is a body over the
    alphabet followed by the suffix. *)
Lemma generate_shape (charset : string) (length : Z) (suffix : string)
      (regex : option Regexp) (regexMode : RegexMode) (domain : string) :
  In domain (generateCombinationsIterative charset length suffix regex regexMode) ->
  (0 < len charset)%Z /\ (1 <= length)%Z /\
  exists k, (0 <= k)%Z /\ domain = currentOf charset length k ++ suffix.
Proof.
  unfold generateCombinationsIterative.
  destruct (Z.eqb_spec (len charset) 0) as [|Hs]; [intros []|].
  destruct (Z.leb_spec length 0) as [|Hl]; [intros []|].
  cbn [orb]. rewrite counterLoop_filter. intros H.
  apply in_map_iff in H. destruct H as [k [<- Hk]].
  apply filter_In in Hk. destruct Hk as [Hk _].
  apply countersFrom_In in Hk.
  assert (0 <= len charset)%Z by (unfold len; lia).
  repeat split; try lia. exists k. split; [lia | reflexivity].
Qed.

Lemma byteAt_In (charset : string) (i : Z) :
  (0 <= i < len charset)%Z -> In (byteAt charset i) (list_ascii_of_string charset).
Proof.
  unfold byteAt, len. intros H. rewrite get_nth_error.
  destruct (nth_error (list_ascii_of_string charset) (Z.to_nat i)) as [c|] eqn:E.
  - now apply nth_error_In in E.
  - apply nth_error_None in E. rewrite length_list_ascii in E. lia.
Qed.

Lemma get_beyond (s : string) (i : nat) :
  (String.length s <= i)%nat -> String.get i s = None.
Proof.
  revert i. induction s as [|c s IH]; intros i H; [now destruct i|].
  destruct i as [|i]; simpl in *; [lia | apply IH; lia].
Qed.

(** X1: a candidate emitted under any filter and either mode, whether or
    not the count overflowed, is a body of exactly [length] bytes, all
    taken from the alphabet, followed by the suffix. *)
Theorem emitted_candidates_well_formed
        (charset : string) (length : Z) (suffix : string)
        (regex : option Regexp) (regexMode : RegexMode) (domain : string) :
  In domain (generateCombinationsIterative charset length suffix regex regexMode) ->
  exists body,
    domain = body ++ suffix /\
    Z.of_nat (String.length body) = length /\
    len domain = (length + len suffix)%Z /\
    forall i c, String.get i body = Some c -> In c (list_ascii_of_string charset).
Proof.
  intros H. apply generate_shape in H.
  destruct H as [Hs [Hl [k [Hk ->]]]].
  exists (currentOf charset length k).
  assert (L : String.length (currentOf charset length k) = Z.to_nat length).
  { unfold currentOf. rewrite length_currentLoop. simpl. lia. }
  split; [reflexivity|]. split; [lia|]. split.
  - unfold len. rewrite length_append_string. lia.
  - intros i c Hg. unfold currentOf in Hg.
    rewrite get_currentLoop in Hg by lia.
    destruct (Nat.ltb_spec i (Z.to_nat length)) as [Hi|Hi].
    + injection Hg as <-. apply byteAt_In. apply Z.mod_pos_bound. lia.
    + now destruct (i - Z.to_nat length)%nat.
Qed.

Lemma emitted_candidates_well_formed_witness :
  exists body,
    "07.li" = body ++ ".li" /\
    Z.of_nat (String.length body) = 2%Z /\
    len "07.li" = (2 + len ".li")%Z /\
    forall i c, String.get i body = Some c -> In c (list_ascii_of_string numbers).
Proof.
  apply (emitted_candidates_well_formed numbers 2 ".li" None RegexModePrefix "07.li").
  vm_compute. do 7 right. left. reflexivity.
Defined.

(** X2: whatever the length, [CalculateDomainsCount] is the power
    alphabetSize^length reduced to the 64-bit signed range (1 for a
    length below 1, 0 for an unknown pattern), and for a length of at
    least 1 the unfiltered generator emits max(0, that value) candidates:
    the two agree even where the power overflows. *)
Theorem count_is_wrapped_power :
  (forall length pattern charset,
      charsetOf pattern = Some charset ->
      CalculateDomainsCount length pattern
      = wrap64 (alphabetSize pattern ^ Z.max 0 length)) /\
  (forall length pattern,
      charsetOf pattern = None -> CalculateDomainsCount length pattern = 0%Z) /\
  (forall compile length suffix pattern charset regexMode,
      charsetOf pattern = Some charset -> (1 <= length)%Z ->
      exists domains,
        GenerateDomains compile length suffix pattern "" regexMode = Stream domains /\
        Z.of_nat (List.length domains) = Z.max 0 (CalculateDomainsCount length pattern)).
Proof.
  assert (W : forall n size, totalLoop n size 1 = wrap64 (size ^ Z.of_nat n)).
  { intros n size. change 1%Z with (wrap64 1) at 1.
    rewrite totalLoop_wrap. now rewrite Z.mul_1_l. }
  split; [|split].
  - intros length pattern charset Hc.
    rewrite (CalculateDomainsCount_valid _ _ _ Hc), W. do 2 f_equal. lia.
  - intros length pattern. unfold charsetOf, CalculateDomainsCount.
    destruct (pattern =? "d"); [discriminate|].
    destruct (pattern =? "D"); [discriminate|].
    destruct (pattern =? "a"); [discriminate|reflexivity].
  - intros compile length suffix pattern charset regexMode Hc Hl.
    destruct (charsetOf_facts _ _ Hc) as [_ [Hsize [Hpos _]]].
    rewrite (GenerateDomains_unfiltered _ _ _ _ _ _ Hc).
    eexists. split; [reflexivity|].
    rewrite (CalculateDomainsCount_valid _ _ _ Hc), <- Hsize.
    unfold generateCombinationsIterative.
    replace ((len charset =? 0)%Z || (length <=? 0)%Z) with false
      by (symmetry; apply orb_false_iff; split; [apply Z.eqb_neq | apply Z.leb_gt]; lia).
    rewrite counterLoop_unfiltered, length_map, countersFrom_length. lia.
Qed.

Lemma count_is_wrapped_power_witness :
  CalculateDomainsCount 13 "a" = wrap64 (alphabetSize "a" ^ Z.max 0 13) /\
  CalculateDomainsCount 5 "x" = 0%Z /\
  exists domains,
    GenerateDomains (fun _ => None) 64 ".li" "d" "" RegexModeFull = Stream domains /\
    Z.of_nat (List.length domains) = Z.max 0 (CalculateDomainsCount 64 "d").
Proof.
  destruct count_is_wrapped_power as [H1 [H2 H3]].
  split; [|split].
  - apply (H1 13%Z "a" (letters ++ numbers)). reflexivity.
  - apply H2. reflexivity.
  - apply (H3 _ _ _ _ numbers); [reflexivity | lia].
Defined.

Lemma find_some_iff (f : string -> bool) (l : list string) :
  find f l = None <-> forall x, In x l -> f x = false.
Proof.
  split.
  - intros H x Hx. now apply (find_none f l H).
  - induction l as [|y l IH]; intros H; [reflexivity|].
    simpl. rewrite (H y) by (now left). apply IH. intros x Hx. apply H. now right.
Qed.

(** X3: the regex guard accepts a pattern exactly when it has at most
    200 bytes, contains none of the six deny-listed shapes and has at
    most five + and * bytes altogether; a pattern that is too long is
    reported as such even when it is also on the deny list. *)
Theorem regex_guard_accepts_iff (pattern : string) :
  (validateRegexComplexity pattern = None <->
   (String.length pattern <= 200)%nat /\
   (forall dangerous, In dangerous dangerousPatterns ->
                      Contains pattern dangerous = false) /\
   (occurrences "+" pattern + occurrences "*" pattern <= 5)%nat) /\
  (validateRegexComplexity pattern = Some PatternTooLong <->
   (200 < String.length pattern)%nat).
Proof.
  unfold validateRegexComplexity, len. rewrite !Count_single.
  destruct (Z.ltb_spec 200 (Z.of_nat (String.length pattern))) as [Hlong|Hshort].
  - split; split; intros H; try reflexivity; try discriminate; lia.
  - destruct (find (fun d => Contains pattern d) dangerousPatterns) as [d|] eqn:Hf.
    + split; split; intros H; try discriminate; try lia.
      destruct H as [_ [H _]]. apply find_some in Hf. destruct Hf as [Hin Hc].
      rewrite (H d Hin) in Hc. discriminate.
    + pose proof (proj1 (find_some_iff _ _) Hf) as Hnone.
      destruct (Nat.ltb_spec 5 (occurrences "+" pattern + occurrences "*" pattern)).
      * split; split; intros H'; try discriminate; lia.
      * split; split; intros H'; try reflexivity; try discriminate; try lia.
        repeat split; try lia. exact Hnone.
Qed.

(** X4: [GenerateDomains] opens a stream exactly when the pattern is d, D
    or a and the filter is empty or passes the guard and compiles; the
    stream is then the one of [generateCombinationsIterative] over the
    pattern's alphabet.  In every other case the run exits, and a filter
    the guard rejects is never handed to the regex compiler. *)
Theorem GenerateDomains_stream_or_exit
        (compile : string -> option Regexp) (length : Z)
        (suffix pattern regexFilter : string) (regexMode : RegexMode) :
  (forall domains,
      GenerateDomains compile length suffix pattern regexFilter regexMode = Stream domains <->
      exists charset,
        charsetOf pattern = Some charset /\
        ((regexFilter = "" /\
          domains = generateCombinationsIterative charset length suffix None regexMode) \/
         (regexFilter <> "" /\ validateRegexComplexity regexFilter = None /\
          exists re, compile regexFilter = Some re /\
                     domains = generateCombinationsIterative charset length suffix
                                                             (Some re) regexMode))) /\
  (regexFilter <> "" -> validateRegexComplexity regexFilter <> None ->
   forall compile',
     GenerateDomains compile' length suffix pattern regexFilter regexMode
     = Exit "Regex pattern rejected").
Proof.
  split.
  - intros domains. unfold GenerateDomains, charsetOf.
    destruct (String.eqb_spec regexFilter "") as [->|Hne].
    + split.
      * intros H.
        destruct (pattern =? "d"); [injection H as <-; eexists; split; [reflexivity|]; left; auto|].
        destruct (pattern =? "D"); [injection H as <-; eexists; split; [reflexivity|]; left; auto|].
        destruct (pattern =? "a"); [injection H as <-; eexists; split; [reflexivity|]; left; auto|].
        discriminate.
      * intros [charset [Hc [[_ ->]|[Hne _]]]]; [|congruence].
        destruct (pattern =? "d"); [now injection Hc as <-|].
        destruct (pattern =? "D"); [now injection Hc as <-|].
        destruct (pattern =? "a"); [now injection Hc as <-|discriminate].
    + destruct (validateRegexComplexity regexFilter) as [e|].
      { split; [discriminate|].
        intros [charset [_ [[H _]|[_ [H _]]]]]; congruence. }
      destruct (compile regexFilter) as [re|].
      * split.
        -- intros H.
           destruct (pattern =? "d");
             [injection H as <-; eexists; split; [reflexivity|]; right; eauto|].
           destruct (pattern =? "D");
             [injection H as <-; eexists; split; [reflexivity|]; right; eauto|].
           destruct (pattern =? "a");
             [injection H as <-; eexists; split; [reflexivity|]; right; eauto|].
           discriminate.
        -- intros [charset [Hc [[H _]|[_ [_ [re' [Hre ->]]]]]]]; [congruence|].
           injection Hre as <-.
           destruct (pattern =? "d"); [now injection Hc as <-|].
           destruct (pattern =? "D"); [now injection Hc as <-|].
           destruct (pattern =? "a"); [now injection Hc as <-|discriminate].
      * split; [discriminate|].
        intros [charset [_ [[H _]|[_ [_ [re [Hre _]]]]]]]; congruence.
  - intros Hne Hrej compile'. unfold GenerateDomains.
    destruct (String.eqb_spec regexFilter ""); [congruence|].
    destruct (validateRegexComplexity regexFilter); [reflexivity|congruence].
Qed.

Lemma GenerateDomains_stream_or_exit_witness :
  GenerateDomains (fun _ => Some regexp2_caret_a) 1 ".li" "d" "(a+)+" RegexModeFull
  = Exit "Regex pattern rejected".
Proof.
  destruct (GenerateDomains_stream_or_exit (fun _ => None) 1 ".li" "d" "(a+)+" RegexModeFull)
    as [_ H].
  apply H; vm_compute; discriminate.
Defined.

End GeneratorExtras.

(* ================================================================== *)
(** ** Further properties of the checker *)

Section CheckerExtras.
Import Worker Main.

Variable globalConfig : option Config.
Variable net : Network.

Lemma advance_0 (w : World) : advance 0 w = w.
Proof. destruct w. unfold advance. simpl. now rewrite Nat.add_0_r. Qed.

Lemma advance_advance (j k : nat) (w : World) :
  advance j (advance k w) = advance (k + j) w.
Proof. unfold advance. simpl. now rewrite Nat.add_assoc. Qed.

Lemma tick_advance (w : World) : tick w = advance 1 w.
Proof. unfold tick, advance. now rewrite Nat.add_1_r. Qed.

Lemma checkDNSRecords_world (domain : string) (w : World) :
  snd (checkDNSRecords net domain w) = advance 5 w.
Proof.
  unfold checkDNSRecords. rewrite !bind_run. cbn. unfold advance.
  f_equal. lia.
Qed.

Lemma checkDNSRecords_shape (domain : string) (w : World) :
  exists b1 b2 b3 b4 b5,
    fst (checkDNSRecords net domain w)
    = ((tagIf b1 "DNS_NS" ++ tagIf b2 "DNS_A" ++ tagIf b3 "DNS_MX" ++
        tagIf b4 "DNS_TXT" ++ tagIf b5 "DNS_CNAME")%list, None).
Proof.
  unfold checkDNSRecords. rewrite !bind_run. cbn [ret fst snd].
  do 4 eexists.
  match goal with
  | |- context [match ?c with Some _ => _ | None => _ end] =>
      destruct c as [cname|]
  end.
  - eexists. unfold tagIf. reflexivity.
  - exists false. unfold tagIf. reflexivity.
Qed.

Lemma signaturesWhoisLoop_world (n : nat) (domain : string) (w : World) :
  exists k, (k <= n)%nat /\ (1 <= n -> 1 <= k)%nat /\
            snd (signaturesWhoisLoop net n domain w) = advance k w.
Proof.
  revert w. induction n as [|n IH]; intros w.
  - exists 0%nat. repeat split; try lia. now rewrite advance_0.
  - cbn [signaturesWhoisLoop]. rewrite bind_run. cbn [call fst snd].
    fold (tick w).
    destruct (Whois net (clock w) domain) as [result|err].
    + exists 1%nat. repeat split; try lia. cbn. now rewrite tick_advance.
    + destruct (IH (tick w)) as [k [Hk [_ Hw]]].
      exists (S k). repeat split; try lia.
      rewrite Hw, tick_advance, advance_advance. reflexivity.
Qed.

Lemma whoisSignatures_shape (whoisResult : string) :
  exists b6 b7, whoisSignatures whoisResult
                = (tagIf b6 "WHOIS" ++ tagIf b7 "RESERVED")%list.
Proof.
  unfold whoisSignatures.
  destruct (whoisResult =? ""); [now exists false, false|].
  destruct (anyIndicator _ availableIndicators); [now exists false, false|].
  do 2 eexists. unfold tagIf. reflexivity.
Qed.

(** The value and the world of [CheckDomainSignatures], part by part. *)
Lemma CheckDomainSignatures_parts (domain : string) (w : World) :
  exists b1 b2 b3 b4 b5 b6 b7 b8 k,
    signaturesOf globalConfig net domain w
    = (tagIf b1 "DNS_NS" ++ tagIf b2 "DNS_A" ++ tagIf b3 "DNS_MX" ++
       tagIf b4 "DNS_TXT" ++ tagIf b5 "DNS_CNAME" ++
       tagIf b6 "WHOIS" ++ tagIf b7 "RESERVED" ++ tagIf b8 "SSL")%list /\
    afterSignatures globalConfig net domain w
    = advance ((if methodEnabled globalConfig DNSCheck then 5 else 0) + k +
               (if methodEnabled globalConfig SSLCheck then 1 else 0)) w /\
    (k <= 3)%nat /\
    (methodEnabled globalConfig WHOISCheck = true -> 1 <= k)%nat /\
    (methodEnabled globalConfig WHOISCheck = false -> k = 0%nat) /\
    (methodEnabled globalConfig DNSCheck = false ->
     b1 = false /\ b2 = false /\ b3 = false /\ b4 = false /\ b5 = false) /\
    (methodEnabled globalConfig WHOISCheck = false -> b6 = false /\ b7 = false) /\
    (methodEnabled globalConfig SSLCheck = false -> b8 = false).
Proof.
  unfold signaturesOf, afterSignatures, CheckDomainSignatures.
  rewrite !bind_run. cbn [ret fst snd].
  (* DNS *)
  assert (D : exists b1 b2 b3 b4 b5,
             fst ((if methodEnabled globalConfig DNSCheck
                   then bind (checkDNSRecords net domain)
                             (fun x => let '(dnsSignatures, err) := x in
                                       ret match err with
                                           | Some _ => []
                                           | None => dnsSignatures
                                           end)
                   else ret []) w)
             = (tagIf b1 "DNS_NS" ++ tagIf b2 "DNS_A" ++ tagIf b3 "DNS_MX" ++
                tagIf b4 "DNS_TXT" ++ tagIf b5 "DNS_CNAME")%list /\
             snd ((if methodEnabled globalConfig DNSCheck
                   then bind (checkDNSRecords net domain)
                             (fun x => let '(dnsSignatures, err) := x in
                                       ret match err with
                                           | Some _ => []
                                           | None => dnsSignatures
                                           end)
                   else ret []) w)
             = advance (if methodEnabled globalConfig DNSCheck then 5 else 0) w /\
             (methodEnabled globalConfig DNSCheck = false ->
              b1 = false /\ b2 = false /\ b3 = false /\ b4 = false /\ b5 = false)).
  { destruct (methodEnabled globalConfig DNSCheck).
    - rewrite bind_run.
      destruct (checkDNSRecords_shape domain w) as [b1 [b2 [b3 [b4 [b5 E]]]]].
      rewrite E. cbn [ret fst snd]. rewrite checkDNSRecords_world.
      exists b1, b2, b3, b4, b5. repeat split; discriminate.
    - exists false, false, false, false, false. cbn. rewrite advance_0. tauto. }
  destruct D as [b1 [b2 [b3 [b4 [b5 [Dv [Dw Doff]]]]]]].
  rewrite Dv, Dw. clear Dv Dw.
  set (w1 := advance (if methodEnabled globalConfig DNSCheck then 5 else 0) w).
  (* WHOIS *)
  assert (W : exists b6 b7 k,
             fst ((if methodEnabled globalConfig WHOISCheck
                   then bind (signaturesWhoisLoop net 3 domain)
                             (fun whoisResult => ret (whoisSignatures whoisResult))
                   else ret []) w1)
             = (tagIf b6 "WHOIS" ++ tagIf b7 "RESERVED")%list /\
             snd ((if methodEnabled globalConfig WHOISCheck
                   then bind (signaturesWhoisLoop net 3 domain)
                             (fun whoisResult => ret (whoisSignatures whoisResult))
                   else ret []) w1)
             = advance k w1 /\
             (k <= 3)%nat /\
             (methodEnabled globalConfig WHOISCheck = true -> 1 <= k)%nat /\
             (methodEnabled globalConfig WHOISCheck = false -> k = 0%nat) /\
             (methodEnabled globalConfig WHOISCheck = false -> b6 = false /\ b7 = false)).
  { destruct (methodEnabled globalConfig WHOISCheck).
    - rewrite bind_run. cbn [ret fst snd].
      destruct (whoisSignatures_shape (fst (signaturesWhoisLoop net 3 domain w1)))
        as [b6 [b7 E]].
      destruct (signaturesWhoisLoop_world 3 domain w1) as [k [Hk [Hk1 Hw]]].
      exists b6, b7, k. rewrite E, Hw.
      repeat split; try discriminate; try lia.
    - exists false, false, 0%nat. cbn. rewrite advance_0.
      repeat split; try discriminate; lia. }
  destruct W as [b6 [b7 [k [Wv [Ww [Hk [Hk1 [Hk0 Woff]]]]]]]].
  rewrite Wv, Ww. clear Wv Ww.
  set (w2 := advance k w1).
  (* SSL *)
  exists b1, b2, b3, b4, b5, b6, b7.
  destruct (methodEnabled globalConfig SSLCheck).
  - rewrite bind_run. cbn [call ret fst snd].
    exists (match DialTLS net (clock w2) (domain ++ ":443") with
            | Some peerCertificates => (0 <? peerCertificates)%nat
            | None => false
            end), k.
    split.
    { rewrite <- !app_assoc. do 7 f_equal.
      destruct (DialTLS net (clock w2) (domain ++ ":443")); reflexivity. }
    split.
    { unfold w2, w1, advance. cbn. f_equal. lia. }
    repeat split; try assumption; try apply Doff; try apply Woff; auto; discriminate.
  - exists false, k. cbn [ret fst snd].
    split.
    { rewrite <- !app_assoc. reflexivity. }
    split.
    { unfold w2, w1. rewrite !advance_advance. f_equal. lia. }
    repeat split; try assumption; try apply Doff; try apply Woff; auto.
Qed.

Lemma allTags_decided (signatures : list string) (domain : string) (w1 : World) :
  (exists b1 b2 b3 b4 b5 b6 b7 b8,
      signatures
      = (tagIf b1 "DNS_NS" ++ tagIf b2 "DNS_A" ++ tagIf b3 "DNS_MX" ++
         tagIf b4 "DNS_TXT" ++ tagIf b5 "DNS_CNAME" ++
         tagIf b6 "WHOIS" ++ tagIf b7 "RESERVED" ++ tagIf b8 "SSL")%list) ->
  signatures = filter (fun tag => existsb (String.eqb tag) signatures) allTags /\
  (signatures <> [] ->
   availabilityFromSignatures globalConfig net domain signatures w1
   = ((false, None), w1)).
Proof.
  intros [b1 [b2 [b3 [b4 [b5 [b6 [b7 [b8 ->]]]]]]]].
  destruct b1, b2, b3, b4, b5, b6, b7, b8;
    (split; [reflexivity | first [intros _; reflexivity | intros H; now elim H]]).
Qed.

(** Signatures gathered for a candidate settle the verdict without any
    further query. *)
Lemma CheckDomainAvailability_decided (domain : string) (w : World) :
  signaturesOf globalConfig net domain w <> [] ->
  CheckDomainAvailability globalConfig net domain w
  = ((false, None), afterSignatures globalConfig net domain w).
Proof.
  intros H. rewrite CheckDomainAvailability_run.
  fold (signaturesOf globalConfig net domain w).
  fold (afterSignatures globalConfig net domain w).
  apply allTags_decided; [|exact H].
  destruct (CheckDomainSignatures_parts domain w)
    as [b1 [b2 [b3 [b4 [b5 [b6 [b7 [b8 [k [E _]]]]]]]]]].
  now exists b1, b2, b3, b4, b5, b6, b7, b8.
Qed.

Lemma CheckDomainAvailability_undecided (domain : string) (w : World) :
  signaturesOf globalConfig net domain w = [] ->
  CheckDomainAvailability globalConfig net domain w
  = availabilityWhoisLoop globalConfig net maxRetries 0 domain false
                          (afterSignatures globalConfig net domain w).
Proof.
  intros H. rewrite CheckDomainAvailability_run.
  fold (signaturesOf globalConfig net domain w).
  fold (afterSignatures globalConfig net domain w).
  rewrite H. reflexivity.
Qed.

(** X5: the signature list of a candidate is always the list DNS_NS,
    DNS_A, DNS_MX, DNS_TXT, DNS_CNAME, WHOIS, RESERVED, SSL restricted to
    the signatures found: only these eight tags occur, none twice, and
    always in this order. *)
Theorem signatures_canonical (domain : string) (w : World) :
  signaturesOf globalConfig net domain w
  = filter (fun tag => existsb (String.eqb tag) (signaturesOf globalConfig net domain w))
           allTags /\
  NoDup (signaturesOf globalConfig net domain w) /\
  (forall sig, In sig (signaturesOf globalConfig net domain w) -> In sig allTags).
Proof.
  assert (E : signaturesOf globalConfig net domain w
              = filter (fun tag => existsb (String.eqb tag)
                                           (signaturesOf globalConfig net domain w))
                       allTags).
  { apply (allTags_decided _ domain w).
    destruct (CheckDomainSignatures_parts domain w)
      as [b1 [b2 [b3 [b4 [b5 [b6 [b7 [b8 [k [E _]]]]]]]]]].
    now exists b1, b2, b3, b4, b5, b6, b7, b8. }
  split; [exact E|]. split.
  - rewrite E. apply NoDup_filter.
    unfold allTags. repeat constructor; simpl; intuition discriminate.
  - intros sig H. rewrite E in H. now apply filter_In in H.
Qed.

(** X6: gathering signatures issues 5 resolver calls when the DNS check
    is on, between 1 and 3 WHOIS queries when the WHOIS check is on, 1
    TLS dial when the SSL check is on, and nothing else; it never touches
    the special-status list; a method that is switched off contributes no
    signature, and with all three off the result is empty and the world
    untouched. *)
Theorem signature_gathering_budget (domain : string) (w : World) :
  exists k,
    afterSignatures globalConfig net domain w
    = advance ((if methodEnabled globalConfig DNSCheck then 5 else 0) + k +
               (if methodEnabled globalConfig SSLCheck then 1 else 0)) w /\
    (k <= 3)%nat /\
    (methodEnabled globalConfig WHOISCheck = true -> 1 <= k)%nat /\
    (methodEnabled globalConfig WHOISCheck = false -> k = 0%nat) /\
    (methodEnabled globalConfig DNSCheck = false ->
     forall sig, In sig (signaturesOf globalConfig net domain w) ->
                 isDNSSignature sig = false) /\
    (methodEnabled globalConfig WHOISCheck = false ->
     ~ In "WHOIS" (signaturesOf globalConfig net domain w) /\
     ~ In "RESERVED" (signaturesOf globalConfig net domain w)) /\
    (methodEnabled globalConfig SSLCheck = false ->
     ~ In "SSL" (signaturesOf globalConfig net domain w)) /\
    (methodEnabled globalConfig DNSCheck = false ->
     methodEnabled globalConfig WHOISCheck = false ->
     methodEnabled globalConfig SSLCheck = false ->
     CheckDomainSignatures globalConfig net domain w = (([], None), w)).
Proof.
  destruct (CheckDomainSignatures_parts domain w)
    as [b1 [b2 [b3 [b4 [b5 [b6 [b7 [b8 [k [E [Hw [Hk [Hk1 [Hk0 [Hd [Hq Hs]]]]]]]]]]]]]]]].
  exists k. split; [exact Hw|]. split; [exact Hk|].
  split; [exact Hk1|]. split; [exact Hk0|].
  split; [|split; [|split]].
  - intros Hoff sig. rewrite E.
    destruct (Hd Hoff) as [-> [-> [-> [-> ->]]]].
    destruct b6, b7, b8; simpl; intuition (subst; reflexivity).
  - intros Hoff. rewrite E. destruct (Hq Hoff) as [-> ->].
    destruct b1, b2, b3, b4, b5, b8; simpl; intuition discriminate.
  - intros Hoff. rewrite E. rewrite (Hs Hoff).
    destruct b1, b2, b3, b4, b5, b6, b7; simpl; intuition discriminate.
  - intros H1 H2 H3.
    destruct (Hd H1) as [-> [-> [-> [-> ->]]]]. destruct (Hq H2) as [-> ->].
    rewrite (Hs H3) in E. rewrite H1, H3, (Hk0 H2) in Hw. cbn in E, Hw.
    rewrite advance_0 in Hw.
    pose proof (CheckDomainSignatures_nil globalConfig net domain w) as Hn.
    unfold signaturesOf, afterSignatures in *.
    destruct (CheckDomainSignatures globalConfig net domain w) as [[sigs err] w'].
    cbn in *. now subst.
Qed.

(** X7: the verdict is settled by the signatures alone whenever there is
    one: any non-empty signature list gives not available, without error
    and without a further query; only an empty list leads to the WHOIS
    retry loop, which therefore always starts with hasDNSSignatures =
    false (the DNS branch of the rate-limit fallback is never taken). *)
Theorem availability_decision_exhaustive (domain : string) (w : World) :
  (signaturesOf globalConfig net domain w <> [] ->
   CheckDomainAvailability globalConfig net domain w
   = ((false, None), afterSignatures globalConfig net domain w)) /\
  (signaturesOf globalConfig net domain w = [] ->
   CheckDomainAvailability globalConfig net domain w
   = availabilityWhoisLoop globalConfig net 5 0 domain false
                           (afterSignatures globalConfig net domain w)).
Proof.
  split; [apply CheckDomainAvailability_decided | apply CheckDomainAvailability_undecided].
Qed.

Lemma handleRateLimitedDomain_effect (domain : string) (hasDNS : bool) (w : World) :
  exists extra,
    handleRateLimitedDomain globalConfig domain hasDNS w
    = ((negb hasDNS, None),
       {| clock := clock w;
          specialStatusDomains := (specialStatusDomains w ++ extra)%list |}) /\
    (List.length extra <= 1)%nat /\
    Forall (recordFor domain (negb hasDNS)) extra.
Proof.
  unfold handleRateLimitedDomain. destruct hasDNS.
  - exists []. rewrite app_nil_r. destruct w. repeat split; auto.
  - destruct globalConfig.
    + exists [specialRecord domain "WHOIS_RATE_LIMITED"].
      repeat split; auto. repeat constructor.
    + exists []. rewrite app_nil_r. destruct w. repeat split; auto.
Qed.

(** What the retry loop does to the world: at most [n] queries, at most
    one record, appended behind the records already there. *)
Lemma availabilityWhoisLoop_effect (n i : nat) (domain : string) (hasDNS : bool)
      (w : World) :
  exists k extra,
    snd (availabilityWhoisLoop globalConfig net n i domain hasDNS w)
    = {| clock := clock w + k;
         specialStatusDomains := (specialStatusDomains w ++ extra)%list |} /\
    (k <= n)%nat /\ (1 <= n -> 1 <= k)%nat /\
    (List.length extra <= 1)%nat /\
    Forall (recordFor domain
              (fst (fst (availabilityWhoisLoop globalConfig net n i domain hasDNS w))))
           extra.
Proof.
  revert i w. induction n as [|n IH]; intros i w.
  - exists 0%nat, []. cbn. rewrite app_nil_r, Nat.add_0_r. destruct w.
    repeat split; auto; lia.
  - assert (Step : forall i',
               exists k extra,
                 snd (availabilityWhoisLoop globalConfig net n i' domain hasDNS (tick w))
                 = {| clock := clock w + k;
                      specialStatusDomains := (specialStatusDomains w ++ extra)%list |} /\
                 (k <= S n)%nat /\ (1 <= k)%nat /\ (List.length extra <= 1)%nat /\
                 Forall (recordFor domain
                           (fst (fst (availabilityWhoisLoop globalConfig net n i' domain
                                                            hasDNS (tick w))))) extra).
    { intros i'. destruct (IH i' (tick w)) as [k [extra [Hw [Hk [_ [Hl Hf]]]]]].
      exists (S k), extra. rewrite Hw. cbn [tick clock specialStatusDomains].
      repeat split; auto; try lia. f_equal. lia. }
    assert (Handle : exists k extra,
               snd (handleRateLimitedDomain globalConfig domain hasDNS (tick w))
               = {| clock := clock w + k;
                    specialStatusDomains := (specialStatusDomains w ++ extra)%list |} /\
               (k <= S n)%nat /\ (1 <= k)%nat /\ (List.length extra <= 1)%nat /\
               Forall (recordFor domain
                         (fst (fst (handleRateLimitedDomain globalConfig domain hasDNS
                                                            (tick w))))) extra).
    { destruct (handleRateLimitedDomain_effect domain hasDNS (tick w))
        as [extra [E [Hl Hf]]].
      exists 1%nat, extra. rewrite E. cbn [tick clock specialStatusDomains fst snd].
      repeat split; auto; try lia. f_equal. lia. }
    assert (Plain : forall b : bool,
               exists k extra,
                 tick w
                 = {| clock := clock w + k;
                      specialStatusDomains := (specialStatusDomains w ++ extra)%list |} /\
                 (k <= S n)%nat /\ (1 <= k)%nat /\ (List.length extra <= 1)%nat /\
                 Forall (recordFor domain b) extra).
    { intros b. exists 1%nat, []. rewrite app_nil_r. unfold tick.
      repeat split; auto; try lia. f_equal. lia. }
    cbn [availabilityWhoisLoop]. rewrite bind_run. cbn [call fst snd]. fold (tick w).
    destruct (Whois net (clock w) domain) as [result|err].
    + destruct (isRateLimit (ToLower result)).
      * destruct (i <? maxRetries - 1)%nat.
        -- destruct (Step (S i)) as [k [extra H]]. exists k, extra. intuition.
        -- destruct Handle as [k [extra H]]. exists k, extra. intuition.
      * destruct (firstIndicator _ availableIndicators);
          [destruct (Plain true) as [k [extra H]]; exists k, extra; intuition|].
        destruct (firstIndicator _ enhancedRegisteredIndicators);
          [destruct (Plain false) as [k [extra H]]; exists k, extra; intuition|].
        destruct (firstIndicator _ specialStatusIndicators) as [indicator|] eqn:Hf;
          [|destruct (Plain true) as [k [extra H]]; exists k, extra; intuition].
        exists 1%nat, [specialRecord domain (ToUpper (TrimPrefix indicator "status: "))].
        cbn. repeat split; auto; try lia.
        { f_equal. lia. }
        constructor; [|constructor]. exists indicator. split; [|reflexivity].
        apply find_some in Hf. apply Hf.
    + destruct (isRateLimit (ToLower err)).
      * destruct (i =? maxRetries - 1)%nat.
        -- destruct Handle as [k [extra H]]. exists k, extra. intuition.
        -- destruct (Step (S i)) as [k [extra H]]. exists k, extra. intuition.
      * destruct (Step (S i)) as [k [extra H]]. exists k, extra. intuition.
Qed.

Lemma recordFor_domain (domain : string) (available : bool) (r : SpecialStatusDomain) :
  recordFor domain available r -> ssDomain r = domain.
Proof.
  unfold recordFor. destruct available.
  - now intros ->.
  - now intros [indicator [_ ->]].
Qed.

(** The effect of one availability check on the world. *)
Lemma CheckDomainAvailability_effect (domain : string) (w : World) :
  exists k extra,
    snd (CheckDomainAvailability globalConfig net domain w)
    = {| clock := clock (afterSignatures globalConfig net domain w) + k;
         specialStatusDomains := (specialStatusDomains w ++ extra)%list |} /\
    (k <= 5)%nat /\
    (List.length extra <= 1)%nat /\
    Forall (recordFor domain
              (fst (fst (CheckDomainAvailability globalConfig net domain w)))) extra /\
    (signaturesOf globalConfig net domain w <> [] -> k = 0%nat /\ extra = []) /\
    (signaturesOf globalConfig net domain w = [] -> 1 <= k)%nat.
Proof.
  pose proof (keeps_CheckDomainSignatures globalConfig net domain w) as Hkeep.
  fold (afterSignatures globalConfig net domain w) in Hkeep.
  destruct (signaturesOf globalConfig net domain w) as [|sig rest] eqn:Hs.
  - rewrite (CheckDomainAvailability_undecided domain w Hs).
    destruct (availabilityWhoisLoop_effect maxRetries 0 domain false
                (afterSignatures globalConfig net domain w))
      as [k [extra [Hw [Hk [Hk1 [Hl Hf]]]]]].
    exists k, extra. rewrite Hw, Hkeep. unfold maxRetries in *.
    repeat split; auto; try lia; congruence.
  - assert (Hne : signaturesOf globalConfig net domain w <> []) by (rewrite Hs; discriminate).
    rewrite (CheckDomainAvailability_decided domain w Hne).
    exists 0%nat, []. cbn [fst snd]. rewrite app_nil_r, Nat.add_0_r, <- Hkeep.
    destruct (afterSignatures globalConfig net domain w).
    repeat split; auto; try lia. discriminate.
Qed.

(** X8: an availability check issues at most 5 WHOIS queries of its own,
    none when a signature was found and at least one when none was found
    (also when the WHOIS check is switched off in the configuration); it
    keeps every record already in the special-status list and appends at
    most one, for the checked domain: WHOIS_RATE_LIMITED together with an
    available verdict, the capitalised special-status reason together
    with a not-available verdict. *)
Theorem availability_check_effects (domain : string) (w : World) :
  exists k extra,
    snd (CheckDomainAvailability globalConfig net domain w)
    = {| clock := clock (afterSignatures globalConfig net domain w) + k;
         specialStatusDomains := (specialStatusDomains w ++ extra)%list |} /\
    (k <= 5)%nat /\
    (List.length extra <= 1)%nat /\
    Forall (recordFor domain
              (fst (fst (CheckDomainAvailability globalConfig net domain w)))) extra /\
    (signaturesOf globalConfig net domain w <> [] -> k = 0%nat /\ extra = []) /\
    (signaturesOf globalConfig net domain w = [] -> 1 <= k)%nat.
Proof. apply CheckDomainAvailability_effect. Qed.

Lemma availabilityWhoisLoop_failures (domain : string) (hasDNS : bool) :
  (forall t, exists err, Whois net t domain = WhoisErr err /\
                         isRateLimit (ToLower err) = false) ->
  forall n i w,
    availabilityWhoisLoop globalConfig net n i domain hasDNS w
    = ((true, None), advance n w).
Proof.
  intros Hall. induction n as [|n IH]; intros i w.
  - cbn. now rewrite advance_0.
  - cbn [availabilityWhoisLoop]. rewrite bind_run. cbn [call fst snd]. fold (tick w).
    destruct (Hall (clock w)) as [err [-> ->]].
    rewrite IH, tick_advance, advance_advance. reflexivity.
Qed.

(** X9: when no signature was found and every WHOIS query fails with an
    error that carries no rate-limit phrase, the candidate is reported
    available after exactly five queries, without error and without any
    special-status record, whatever the configuration. *)
Theorem whois_failure_reports_available (domain : string) (w : World) :
  (forall t, exists err, Whois net t domain = WhoisErr err /\
                         isRateLimit (ToLower err) = false) ->
  signaturesOf globalConfig net domain w = [] ->
  CheckDomainAvailability globalConfig net domain w
  = ((true, None), advance 5 (afterSignatures globalConfig net domain w)) /\
  specialStatusDomains (snd (CheckDomainAvailability globalConfig net domain w))
  = specialStatusDomains w.
Proof.
  intros Hall Hs.
  rewrite (CheckDomainAvailability_undecided domain w Hs).
  rewrite (availabilityWhoisLoop_failures domain false Hall).
  split; [reflexivity|]. cbn.
  apply (keeps_CheckDomainSignatures globalConfig net domain w).
Qed.

Lemma availabilityWhoisLoop_retry (n i : nat) (domain : string) (hasDNS : bool)
      (w : World) :
  retried (Whois net (clock w) domain) = true -> (i < 4)%nat ->
  availabilityWhoisLoop globalConfig net (S n) i domain hasDNS w
  = availabilityWhoisLoop globalConfig net n (S i) domain hasDNS (tick w).
Proof.
  intros Hr Hi. cbn [availabilityWhoisLoop]. rewrite bind_run. cbn [call fst snd].
  fold (tick w). unfold retried in Hr. unfold maxRetries.
  destruct (Whois net (clock w) domain) as [result|err].
  - rewrite Hr. now replace (i <? 5 - 1)%nat with true by (symmetry; apply Nat.ltb_lt; lia).
  - destruct (isRateLimit (ToLower err)); [|reflexivity].
    now replace (i =? 5 - 1)%nat with false by (symmetry; apply Nat.eqb_neq; lia).
Qed.

Lemma availabilityWhoisLoop_retries (domain : string) (hasDNS : bool) (text : string) :
  isRateLimit (ToLower text) = false ->
  forall (k n i : nat) (w : World),
    (i + k <= 4)%nat ->
    (forall j, (j < k)%nat -> retried (Whois net (clock w + j) domain) = true) ->
    Whois net (clock w + k) domain = WhoisOk text ->
    availabilityWhoisLoop globalConfig net (k + S n) i domain hasDNS w
    = answerOutcome domain text (advance k w).
Proof.
  intros Hl. induction k as [|k IH]; intros n i w Hi Hret Hw.
  - rewrite advance_0. rewrite Nat.add_0_r in Hw.
    exact (availabilityWhoisLoop_answer globalConfig net n i domain hasDNS w text Hw Hl).
  - cbn [Nat.add]. rewrite availabilityWhoisLoop_retry; try lia.
    + rewrite IH; try lia.
      * now rewrite tick_advance, advance_advance.
      * intros j Hj. cbn [tick clock].
        replace (S (clock w) + j)%nat with (clock w + S j)%nat by lia.
        apply Hret. lia.
      * cbn [tick clock]. now replace (S (clock w) + k)%nat with (clock w + S k)%nat by lia.
    + specialize (Hret 0%nat). rewrite Nat.add_0_r in Hret. apply Hret. lia.
Qed.

(** X10: retries are transparent.  When the first k (at most 4) answers
    of the retry loop are errors or rate-limited responses and the next
    one is a response without rate-limit phrase, the outcome is the one
    this response gives on a first attempt, k queries later. *)
Theorem retry_reaches_first_clean_answer
        (domain : string) (hasDNS : bool) (w : World) (k : nat) (text : string) :
  (k <= 4)%nat ->
  (forall j, (j < k)%nat -> retried (Whois net (clock w + j) domain) = true) ->
  Whois net (clock w + k) domain = WhoisOk text ->
  isRateLimit (ToLower text) = false ->
  availabilityWhoisLoop globalConfig net 5 0 domain hasDNS w
  = answerOutcome domain text (advance k w).
Proof.
  intros Hk Hret Hw Hl.
  replace 5%nat with (k + S (4 - k))%nat by lia.
  now apply availabilityWhoisLoop_retries.
Qed.

Lemma stable_ret {A : Type} (a : A) : valueStable (ret a).
Proof. intros w w'. reflexivity. Qed.

Lemma stable_call {A : Type} (oracle : nat -> A) :
  (forall t t', oracle t = oracle t') -> valueStable (call oracle).
Proof. intros H w w'. apply H. Qed.

Lemma stable_bind {A B : Type} (m : M A) (k : A -> M B) :
  valueStable m -> (forall a, valueStable (k a)) -> valueStable (bind m k).
Proof.
  intros Hm Hk w w'. rewrite !bind_run. rewrite (Hm w w'). apply Hk.
Qed.

Lemma stable_signaturesWhoisLoop (n : nat) (domain : string) :
  stationary net -> valueStable (signaturesWhoisLoop net n domain).
Proof.
  intros Hst. induction n as [|n IH]; cbn [signaturesWhoisLoop].
  - apply stable_ret.
  - apply stable_bind.
    + apply stable_call. intros t t'. apply (Hst t t' domain).
    + intros [result|err]; [apply stable_ret | exact IH].
Qed.

(** On a network whose answers do not change, the signatures gathered
    for a name are the same whenever they are gathered. *)
Lemma stable_CheckDomainSignatures (domain : string) :
  stationary net -> valueStable (CheckDomainSignatures globalConfig net domain).
Proof.
  intros Hst. unfold CheckDomainSignatures.
  apply stable_bind.
  { destruct (methodEnabled globalConfig DNSCheck); [|apply stable_ret].
    apply stable_bind.
    - unfold checkDNSRecords.
      repeat (apply stable_bind;
              [apply stable_call; intros t t'; apply (Hst t t' domain) | intros ?]).
      apply stable_ret.
    - intros [sigs err]. apply stable_ret. }
  intros fromDNS. apply stable_bind.
  { destruct (methodEnabled globalConfig WHOISCheck); [|apply stable_ret].
    apply stable_bind; [now apply stable_signaturesWhoisLoop|].
    intros r. apply stable_ret. }
  intros fromWHOIS. apply stable_bind.
  { destruct (methodEnabled globalConfig SSLCheck); [|apply stable_ret].
    apply stable_bind.
    - apply stable_call. intros t t'. apply (Hst t t' (domain ++ ":443")).
    - intros r. apply stable_ret. }
  intros fromSSL. apply stable_ret.
Qed.

Lemma Worker_cons (domainName : string) (rest : list string) (w : World) :
  Worker globalConfig net (domainName :: rest) w
  = (fst (Worker globalConfig net [domainName] w) ++
     fst (Worker globalConfig net rest (snd (Worker globalConfig net [domainName] w))),
     snd (Worker globalConfig net rest (snd (Worker globalConfig net [domainName] w))))%list.
Proof.
  rewrite Worker_single. cbn [Worker fst snd app]. rewrite bind_run.
  destruct (CheckDomainAvailability globalConfig net domainName w) as [[available err] w1].
  cbn [fst snd]. rewrite bind_run.
  unfold signaturesOf, afterSignatures.
  destruct (CheckDomainSignatures globalConfig net domainName w1) as [[signatures e] w2].
  cbn [fst snd]. rewrite bind_run. reflexivity.
Qed.

(** X11: on a network whose answers do not change over time, a worker
    never reports a candidate as available together with a signature:
    every result with Available = true has an empty signature list, and
    every result that lists a signature has Available = false. *)
Theorem stationary_available_has_no_signature (jobs : list string) (w : World) :
  stationary net ->
  Forall (fun r => (Available r = true -> Signatures r = []) /\
                   (Signatures r <> [] -> Available r = false))
         (fst (Worker globalConfig net jobs w)).
Proof.
  intros Hst. revert w. induction jobs as [|domainName rest IH]; intros w.
  - constructor.
  - rewrite Worker_cons. cbn [fst]. apply Forall_app. split; [|apply IH].
    rewrite Worker_single. cbn [fst]. constructor; [|constructor].
    cbn [Available Signatures].
    assert (E : signaturesOf globalConfig net domainName
                  (snd (CheckDomainAvailability globalConfig net domainName w))
                = signaturesOf globalConfig net domainName w).
    { unfold signaturesOf. f_equal. now apply stable_CheckDomainSignatures. }
    rewrite E.
    destruct (signaturesOf globalConfig net domainName w) as [|sig sigs] eqn:Hs.
    + split; [reflexivity | intros H; now elim H].
    + assert (Hne : signaturesOf globalConfig net domainName w <> [])
        by (rewrite Hs; discriminate).
      rewrite (CheckDomainAvailability_decided domainName w Hne). cbn.
      split; [discriminate | reflexivity].
Qed.

Lemma addAll_run (pairs : list (string * string)) (w : World) :
  addAll pairs w
  = (tt, {| clock := clock w;
            specialStatusDomains :=
              (specialStatusDomains w ++
               map (fun p => specialRecord (fst p) (snd p)) pairs)%list |}).
Proof.
  revert w. induction pairs as [|[domain reason] rest IH]; intros w.
  - cbn. rewrite app_nil_r. now destruct w.
  - cbn [addAll]. rewrite bind_run. cbn [addToSpecialStatus fst snd].
    rewrite IH. cbn [clock specialStatusDomains map fst snd].
    rewrite <- app_assoc. reflexivity.
Qed.

(** X12: the special-status list is a log.  After any run of
    [addToSpecialStatus] calls, [GetSpecialStatusDomains] returns the
    records that were there before followed by one record per call, in
    call order, each with the reason text "WHOIS status: <reason>";
    reading changes nothing; after [ClearSpecialStatusDomains] only the
    records added since are returned. *)
Theorem special_status_list_is_a_log (pairs : list (string * string)) (w : World) :
  fst (bind (addAll pairs) (fun _ => GetSpecialStatusDomains) w)
  = (specialStatusDomains w ++ map (fun p => specialRecord (fst p) (snd p)) pairs)%list /\
  fst (bind ClearSpecialStatusDomains
            (fun _ => bind (addAll pairs) (fun _ => GetSpecialStatusDomains)) w)
  = map (fun p => specialRecord (fst p) (snd p)) pairs /\
  snd (GetSpecialStatusDomains w) = w /\
  fst (bind ClearSpecialStatusDomains (fun _ => GetSpecialStatusDomains) w) = [] /\
  Forall (fun r => ssReason r = "WHOIS status: " ++ ssStatus r)
         (map (fun p => specialRecord (fst p) (snd p)) pairs).
Proof.
  split; [|split; [|split; [|split]]].
  - rewrite bind_run, addAll_run. reflexivity.
  - rewrite !bind_run, addAll_run. reflexivity.
  - reflexivity.
  - reflexivity.
  - apply Forall_forall. intros r Hr. apply in_map_iff in Hr.
    destruct Hr as [p [<- _]]. reflexivity.
Qed.

(** X13: a worker sends exactly one result per candidate it receives, in
    the order received and carrying that candidate's name; the
    SpecialStatus field of every result is empty; over the whole run the
    special-status list keeps its earlier records and gains at most one
    record per candidate, each for one of the candidates. *)
Theorem worker_one_result_per_job (jobs : list string) (w : World) :
  map Domain (fst (Worker globalConfig net jobs w)) = jobs /\
  Forall (fun r => SpecialStatus r = "") (fst (Worker globalConfig net jobs w)) /\
  exists extra,
    specialStatusDomains (snd (Worker globalConfig net jobs w))
    = (specialStatusDomains w ++ extra)%list /\
    (List.length extra <= List.length jobs)%nat /\
    Forall (fun r => In (ssDomain r) jobs) extra.
Proof.
  revert w. induction jobs as [|domainName rest IH]; intros w.
  - cbn. repeat split; auto. exists []. rewrite app_nil_r. repeat split; auto.
  - rewrite Worker_cons. cbn [fst snd].
    destruct (IH (snd (Worker globalConfig net [domainName] w)))
      as [Hd [Hs [extra [He [Hl Hf]]]]].
    rewrite map_app, Hd. rewrite Worker_single. cbn [fst snd map Domain app].
    split; [reflexivity|]. split.
    + constructor; [reflexivity|].
      rewrite Worker_single in Hs. exact Hs.
    + rewrite Worker_single in He. cbn [snd] in He.
      destruct (CheckDomainAvailability_effect domainName w)
        as [k [extra0 [Hw [_ [Hl0 [Hf0 _]]]]]].
      exists (extra0 ++ extra)%list. rewrite He.
      unfold afterSignatures.
      rewrite (keeps_CheckDomainSignatures globalConfig net domainName), Hw.
      cbn [specialStatusDomains]. rewrite app_assoc.
      split; [reflexivity|]. split.
      * rewrite length_app. cbn [List.length]. lia.
      * apply Forall_app. split.
        -- apply Forall_forall. intros r Hr.
           rewrite Forall_forall in Hf0. left.
           symmetry. exact (recordFor_domain _ _ _ (Hf0 r Hr)).
        -- apply Forall_forall. intros r Hr.
           rewrite Forall_forall in Hf. right. now apply Hf.
Qed.

Lemma collect_fold (showRegistered : bool) (results : list DomainResult) :
  forall c,
    processedCount (fold_left (collect showRegistered) results c)
    = (processedCount c + List.length results)%nat /\
    availableDomains (fold_left (collect showRegistered) results c)
    = (availableDomains c ++ map Domain (filter filedAvailable results))%list /\
    registeredDomains (fold_left (collect showRegistered) results c)
    = (registeredDomains c ++
       if showRegistered then map Domain (filter filedRegistered results) else [])%list.
Proof.
  induction results as [|r results IH]; intros c.
  - cbn. rewrite !app_nil_r. destruct showRegistered; rewrite ?app_nil_r; auto.
  - cbn [fold_left List.length filter].
    destruct (IH (collect showRegistered c r)) as [H1 [H2 H3]].
    rewrite H1, H2, H3. clear.
    unfold collect, filedAvailable, filedRegistered.
    destruct (Error r); [|destruct (Available r); [|destruct showRegistered]];
      cbn [processedCount availableDomains registeredDomains negb map];
      rewrite <- ?app_assoc; cbn [app];
      (split; [lia|split; reflexivity]).
Qed.

Lemma collectResults_fields (showRegistered : bool) (results : list DomainResult) :
  processedCount (collectResults showRegistered results) = List.length results /\
  availableDomains (collectResults showRegistered results)
  = map Domain (filter filedAvailable results) /\
  registeredDomains (collectResults showRegistered results)
  = (if showRegistered then map Domain (filter filedRegistered results) else []).
Proof.
  unfold collectResults.
  destruct (collect_fold showRegistered results start) as [H1 [H2 H3]].
  rewrite H1, H2, H3. cbn. auto.
Qed.

(** X14: the collector counts every result it drains and loses none of
    the names: the available list holds, in arrival order, the names of
    the results without error and with Available = true; the registered
    list holds those without error and with Available = false when
    show-registered is on, and stays empty when it is off; a result with
    an error is counted but filed in neither list. *)
Theorem collector_files_each_result (showRegistered : bool) (results : list DomainResult) :
  processedCount (collectResults showRegistered results) = List.length results /\
  availableDomains (collectResults showRegistered results)
  = map Domain (filter filedAvailable results) /\
  registeredDomains (collectResults showRegistered results)
  = (if showRegistered then map Domain (filter filedRegistered results) else []).
Proof. apply collectResults_fields. Qed.

Lemma filter_split_length (p : DomainResult -> bool) (results : list DomainResult) :
  (List.length (filter p results) + List.length (filter (fun r => negb (p r)) results)
   = List.length results)%nat.
Proof.
  induction results as [|r results IH]; [reflexivity|].
  cbn [filter]. destruct (p r); cbn [negb List.length]; lia.
Qed.

Lemma partition_permutation (p : DomainResult -> bool) (results : list DomainResult) :
  Permutation (map Domain (filter p results) ++
               map Domain (filter (fun r => negb (p r)) results))
              (map Domain results).
Proof.
  induction results as [|r results IH]; [constructor|].
  cbn [filter map]. destruct (p r); cbn [negb map app].
  - now constructor.
  - apply Permutation_sym, Permutation_cons_app, Permutation_sym, IH.
Qed.

(** X15: one worker followed by the collector accounts for every
    candidate: the processed count is the number of candidates; with
    show-registered on, the available and the registered list together
    are a rearrangement of the candidates (each filed exactly once);
    with show-registered off, the registered list is empty and the
    count printed instead, processed minus available, is the number of
    results with Available = false. *)
Theorem single_worker_run_accounts_for_every_job
        (showRegistered : bool) (jobs : list string) (w : World) :
  processedCount (collectResults showRegistered (fst (Worker globalConfig net jobs w)))
  = List.length jobs /\
  (showRegistered = true ->
   Permutation
     (availableDomains (collectResults showRegistered
                          (fst (Worker globalConfig net jobs w))) ++
      registeredDomains (collectResults showRegistered
                           (fst (Worker globalConfig net jobs w))))
     jobs) /\
  (showRegistered = false ->
   registeredDomains (collectResults showRegistered
                        (fst (Worker globalConfig net jobs w))) = [] /\
   MainSetup.registeredCount
     (processedCount (collectResults showRegistered
                        (fst (Worker globalConfig net jobs w))))
     (availableDomains (collectResults showRegistered
                          (fst (Worker globalConfig net jobs w))))
   = Z.of_nat (List.length (filter (fun r => negb (Available r))
                                   (fst (Worker globalConfig net jobs w))))).
Proof.
  pose proof (Worker_nil_errors globalConfig net jobs w) as Hnil.
  assert (Hmap : map Domain (fst (Worker globalConfig net jobs w)) = jobs).
  { clear Hnil. revert w. induction jobs as [|d rest IH]; intros w; [reflexivity|].
    rewrite Worker_cons. cbn [fst]. rewrite map_app, IH, Worker_single. reflexivity. }
  destruct (collectResults_fields showRegistered (fst (Worker globalConfig net jobs w)))
    as [H1 [H2 H3]].
  assert (FA : filter filedAvailable (fst (Worker globalConfig net jobs w))
               = filter Available (fst (Worker globalConfig net jobs w))).
  { apply filter_ext_in. intros r Hr. rewrite Forall_forall in Hnil.
    unfold filedAvailable. now rewrite (Hnil r Hr). }
  assert (FR : filter filedRegistered (fst (Worker globalConfig net jobs w))
               = filter (fun r => negb (Available r))
                        (fst (Worker globalConfig net jobs w))).
  { apply filter_ext_in. intros r Hr. rewrite Forall_forall in Hnil.
    unfold filedRegistered. now rewrite (Hnil r Hr). }
  rewrite H1, H2, H3, FA, FR.
  split; [|split].
  - now rewrite <- Hmap at 2; rewrite length_map.
  - intros ->. rewrite <- Hmap at 3. apply partition_permutation.
  - intros ->. split; [reflexivity|].
    unfold MainSetup.registeredCount. rewrite length_map.
    pose proof (filter_split_length Available (fst (Worker globalConfig net jobs w))) as HL.
    lia.
Qed.

End CheckerExtras.

Lemma availability_decision_exhaustive_witness :
  CheckDomainAvailability (Some allChecks) (resolvingNet (WhoisOk "No match for AB.LI"))
                          "ab.li" freshWorld
  = ((false, None),
     afterSignatures (Some allChecks) (resolvingNet (WhoisOk "No match for AB.LI"))
                     "ab.li" freshWorld) /\
  CheckDomainAvailability None (silentNet (WhoisErr "timeout")) "ab.li" freshWorld
  = availabilityWhoisLoop None (silentNet (WhoisErr "timeout")) 5 0 "ab.li" false
      (afterSignatures None (silentNet (WhoisErr "timeout")) "ab.li" freshWorld).
Proof.
  split.
  - apply (availability_decision_exhaustive
             (Some allChecks) (resolvingNet (WhoisOk "No match for AB.LI"))
             "ab.li" freshWorld).
    vm_compute. discriminate.
  - apply (availability_decision_exhaustive
             None (silentNet (WhoisErr "timeout")) "ab.li" freshWorld).
    reflexivity.
Defined.

Lemma whois_failure_reports_available_witness :
  CheckDomainAvailability (Some allChecks) (silentNet (WhoisErr "i/o timeout"))
                          "ab.li" freshWorld
  = ((true, None),
     advance 5 (afterSignatures (Some allChecks) (silentNet (WhoisErr "i/o timeout"))
                                "ab.li" freshWorld)) /\
  specialStatusDomains
    (snd (CheckDomainAvailability (Some allChecks) (silentNet (WhoisErr "i/o timeout"))
                                  "ab.li" freshWorld))
  = specialStatusDomains freshWorld.
Proof.
  apply (whois_failure_reports_available
           (Some allChecks) (silentNet (WhoisErr "i/o timeout")) "ab.li" freshWorld).
  - intros t. exists "i/o timeout". split; reflexivity.
  - reflexivity.
Defined.

Lemma retry_reaches_first_clean_answer_witness :
  availabilityWhoisLoop None (recoveringNet 2 (WhoisOk "No match for AB.LI"))
                        5 0 "ab.li" false freshWorld
  = answerOutcome "ab.li" "No match for AB.LI" (advance 2 freshWorld).
Proof.
  apply (retry_reaches_first_clean_answer
           None (recoveringNet 2 (WhoisOk "No match for AB.LI"))
           "ab.li" false freshWorld 2 "No match for AB.LI").
  - lia.
  - intros j Hj. destruct j as [|[|j]]; [reflexivity | reflexivity | lia].
  - reflexivity.
  - reflexivity.
Defined.

Lemma stationary_available_has_no_signature_witness :
  Forall (fun r => (Available r = true -> Signatures r = []) /\
                   (Signatures r <> [] -> Available r = false))
         (fst (Worker.Worker None (resolvingNet (WhoisOk "No match for AB.LI"))
                             ["ab.li"; "cd.li"] freshWorld)).
Proof.
  apply (stationary_available_has_no_signature
           None (resolvingNet (WhoisOk "No match for AB.LI")) ["ab.li"; "cd.li"] freshWorld).
  intros t t' name. repeat split; reflexivity.
Defined.

(* ================================================================== *)
(** ** Configuration, flags and suffix *)

Section SetupExtras.
Import ConfigPkg MainSetup.

Lemma string_eqb_if (s d : string) :
  (if s =? "" then d else s) <> "" <-> (s <> "" \/ d <> "").
Proof.
  destruct (String.eqb_spec s "") as [->|Hne]; intuition congruence.
Qed.

(** The defaults leave no gap. *)
Lemma applyDefaults_wellSet (c : Config) : wellSet (applyDefaults c).
Proof.
  unfold wellSet, applyDefaults. cbn.
  repeat split.
  - destruct (Z.eqb_spec (Length (Domain c)) 0); [discriminate | assumption].
  - apply string_eqb_if. right. discriminate.
  - apply string_eqb_if. right. discriminate.
  - destruct (Z.eqb_spec (Delay (Scanner c)) 0); [discriminate | assumption].
  - destruct (Z.eqb_spec (Workers (Scanner c)) 0); [discriminate | assumption].
  - destruct (Methods (Scanner c)) as [[] [] [] []]; reflexivity.
  - apply string_eqb_if. right. discriminate.
  - apply string_eqb_if. right. discriminate.
  - apply string_eqb_if. right. discriminate.
  - apply string_eqb_if. right. discriminate.
Qed.

(** X16: [LoadConfig] passes a decoding error on unchanged and otherwise
    returns the decoded configuration with every gap filled: length,
    delay and workers are never 0, suffix, pattern, the three file-name
    templates and the output directory are never empty, and at least one
    detection method is switched on. *)
Theorem LoadConfig_fills_every_gap
        (decodeFile : string -> Config + string) (configPath : string) :
  match LoadConfig decodeFile configPath with
  | inr err => decodeFile configPath = inr err
  | inl config =>
      exists decoded,
        decodeFile configPath = inl decoded /\
        config = applyDefaults decoded /\
        wellSet config
  end.
Proof.
  unfold LoadConfig. destruct (decodeFile configPath) as [decoded|err]; [|reflexivity].
  exists decoded. split; [reflexivity|]. split; [reflexivity|].
  apply applyDefaults_wellSet.
Qed.

(** X17: the defaults only fill gaps.  A configuration that is already
    well set comes back unchanged, so applying the defaults twice is the
    same as applying them once; a field that is set keeps its value
    whatever the other fields hold (a negative length, delay or worker
    count included), and the regex filter, show-registered and verbose
    are never touched. *)
Theorem applyDefaults_only_fills_gaps (c : Config) :
  (wellSet c -> applyDefaults c = c) /\
  applyDefaults (applyDefaults c) = applyDefaults c /\
  (Length (Domain c) <> 0%Z ->
   Length (Domain (applyDefaults c)) = Length (Domain c)) /\
  (Delay (Scanner c) <> 0%Z ->
   Delay (Scanner (applyDefaults c)) = Delay (Scanner c)) /\
  (Workers (Scanner c) <> 0%Z ->
   Workers (Scanner (applyDefaults c)) = Workers (Scanner c)) /\
  (Suffix (Domain c) <> "" -> Suffix (Domain (applyDefaults c)) = Suffix (Domain c)) /\
  (Pattern (Domain c) <> "" -> Pattern (Domain (applyDefaults c)) = Pattern (Domain c)) /\
  RegexFilter (Domain (applyDefaults c)) = RegexFilter (Domain c) /\
  ShowRegistered (Scanner (applyDefaults c)) = ShowRegistered (Scanner c) /\
  Verbose (Output (applyDefaults c)) = Verbose (Output c).
Proof.
  assert (Fix : forall c', wellSet c' -> applyDefaults c' = c').
  { intros [[l s p r] [d wk sr [m1 m2 m3 m4]] [a rg sp o v]].
    unfold wellSet, applyDefaults. cbn.
    intros [Hl [Hs [Hp [Hd [Hw [Hm [Ha [Hr [Hsp Ho]]]]]]]]].
    apply Z.eqb_neq in Hl, Hd, Hw. apply String.eqb_neq in Hs, Hp, Ha, Hr, Hsp, Ho.
    rewrite Hl, Hs, Hp, Hd, Hw, Ha, Hr, Hsp, Ho.
    destruct m1, m2, m3, m4; try discriminate; reflexivity. }
  assert (Post : wellSet (applyDefaults c)).
  { apply applyDefaults_wellSet. }
  split; [apply Fix|]. split; [now apply Fix|].
  unfold applyDefaults. cbn.
  repeat split; intros H.
  - apply Z.eqb_neq in H. now rewrite H.
  - apply Z.eqb_neq in H. now rewrite H.
  - apply Z.eqb_neq in H. now rewrite H.
  - apply String.eqb_neq in H. now rewrite H.
  - apply String.eqb_neq in H. now rewrite H.
Qed.

(** X18: once a configuration is loaded, each flag is settled on its
    own, whatever the other flags hold: a flag that holds its default
    value takes the configuration's value and a flag that differs from
    its default is kept (an empty regex filter flag ends as the
    configuration's filter, a filter given on the command line is kept;
    show-registered given on the command line stays on).  So with every
    flag at its default the run uses the configuration throughout; and
    with a configuration that went through the defaults, a length, delay
    or worker count of 0 can only come from the command line. *)
Theorem flags_and_loaded_configuration (flags : Flags) (c : Config) :
  ((flag_l flags = 3%Z -> flag_l (overrideFromConfig flags c) = Length (Domain c)) /\
   (flag_s flags = ".li" -> flag_s (overrideFromConfig flags c) = Suffix (Domain c)) /\
   (flag_p flags = "D" -> flag_p (overrideFromConfig flags c) = Pattern (Domain c)) /\
   (flag_r flags = "" -> flag_r (overrideFromConfig flags c) = RegexFilter (Domain c)) /\
   (flag_delay flags = 1000%Z ->
    flag_delay (overrideFromConfig flags c) = Delay (Scanner c)) /\
   (flag_workers flags = 10%Z ->
    flag_workers (overrideFromConfig flags c) = Workers (Scanner c)) /\
   (flag_show_registered flags = false ->
    flag_show_registered (overrideFromConfig flags c) = ShowRegistered (Scanner c))) /\
  ((flag_l flags <> 3%Z -> flag_l (overrideFromConfig flags c) = flag_l flags) /\
   (flag_s flags <> ".li" -> flag_s (overrideFromConfig flags c) = flag_s flags) /\
   (flag_p flags <> "D" -> flag_p (overrideFromConfig flags c) = flag_p flags) /\
   (flag_r flags <> "" -> flag_r (overrideFromConfig flags c) = flag_r flags) /\
   (flag_delay flags <> 1000%Z ->
    flag_delay (overrideFromConfig flags c) = flag_delay flags) /\
   (flag_workers flags <> 10%Z ->
    flag_workers (overrideFromConfig flags c) = flag_workers flags) /\
   (flag_show_registered flags = true ->
    flag_show_registered (overrideFromConfig flags c) = true)) /\
  overrideFromConfig defaultFlags c
  = {| flag_l := Length (Domain c); flag_s := Suffix (Domain c);
       flag_p := Pattern (Domain c); flag_r := RegexFilter (Domain c);
       flag_delay := Delay (Scanner c); flag_workers := Workers (Scanner c);
       flag_show_registered := ShowRegistered (Scanner c) |} /\
  (flag_l (overrideFromConfig flags (applyDefaults c)) = 0%Z -> flag_l flags = 0%Z) /\
  (flag_delay (overrideFromConfig flags (applyDefaults c)) = 0%Z ->
   flag_delay flags = 0%Z) /\
  (flag_workers (overrideFromConfig flags (applyDefaults c)) = 0%Z ->
   flag_workers flags = 0%Z).
Proof.
  assert (Hr : forall f : Flags,
             flag_r f = "" -> flag_r (overrideFromConfig f c) = RegexFilter (Domain c)).
  { intros f H. unfold overrideFromConfig. cbn [flag_r]. rewrite H. cbn.
    destruct (RegexFilter (Domain c) =? "") eqn:E; cbn; [|reflexivity].
    apply String.eqb_eq in E. now rewrite E. }
  split; [|split; [|split]].
  - unfold overrideFromConfig.
    cbn [flag_l flag_s flag_p flag_delay flag_workers flag_show_registered].
    repeat split; intros H; try (now apply Hr); now rewrite H.
  - unfold overrideFromConfig.
    cbn [flag_l flag_s flag_p flag_r flag_delay flag_workers flag_show_registered].
    repeat split; intros H.
    + apply Z.eqb_neq in H. now rewrite H.
    + apply String.eqb_neq in H. now rewrite H.
    + apply String.eqb_neq in H. now rewrite H.
    + apply String.eqb_neq in H. now rewrite H.
    + apply Z.eqb_neq in H. now rewrite H.
    + apply Z.eqb_neq in H. now rewrite H.
    + now rewrite H.
  - pose proof (Hr defaultFlags eq_refl) as E.
    unfold overrideFromConfig in *. cbn in *. now rewrite E.
  - destruct (applyDefaults_wellSet c) as [Hl [_ [_ [Hd [Hw _]]]]].
    unfold overrideFromConfig.
    cbn [flag_l flag_delay flag_workers].
    repeat split; intros H.
    + destruct (Z.eqb_spec (flag_l flags) 3); [contradiction | assumption].
    + destruct (Z.eqb_spec (flag_delay flags) 1000); [contradiction | assumption].
    + destruct (Z.eqb_spec (flag_workers flags) 10); [contradiction | assumption].
Qed.

Lemma flags_and_loaded_configuration_witness :
  flag_workers (overrideFromConfig
                  {| flag_l := 4; flag_s := ".li"; flag_p := "D"; flag_r := "";
                     flag_delay := 1000; flag_workers := 0;
                     flag_show_registered := true |}
                  (applyDefaults emptyConfig)) = 0%Z /\
  flag_l (overrideFromConfig
            {| flag_l := 4; flag_s := ".li"; flag_p := "D"; flag_r := "";
               flag_delay := 1000; flag_workers := 0;
               flag_show_registered := true |}
            (applyDefaults emptyConfig)) = 4%Z /\
  flag_s (overrideFromConfig
            {| flag_l := 4; flag_s := ".li"; flag_p := "D"; flag_r := "";
               flag_delay := 1000; flag_workers := 0;
               flag_show_registered := true |}
            (applyDefaults emptyConfig)) = Suffix (Domain (applyDefaults emptyConfig)).
Proof.
  destruct (flags_and_loaded_configuration
              {| flag_l := 4; flag_s := ".li"; flag_p := "D"; flag_r := "";
                 flag_delay := 1000; flag_workers := 0;
                 flag_show_registered := true |}
              (applyDefaults emptyConfig))
    as [[_ [Hs _]] [[Hl [_ [_ [_ [_ [Hw _]]]]]] _]].
  split; [apply Hw; cbn; discriminate|].
  split; [apply Hl; cbn; discriminate | apply Hs; reflexivity].
Defined.

Lemma substring_all (s : string) : substring 0 (String.length s) s = s.
Proof. induction s as [|c s IH]; simpl; [reflexivity | now rewrite IH]. Qed.

Lemma TrimPrefix_dot (s : string) : TrimPrefix ("." ++ s) "." = s.
Proof.
  unfold TrimPrefix, HasPrefix. cbn [append prefix].
  destruct (ascii_dec "." "."); [|congruence].
  replace (prefix "" s) with true by (now destruct s).
  cbn [String.length]. replace (S (String.length s) - 1)%nat with (String.length s) by lia.
  cbn [substring]. apply substring_all.
Qed.

(** X19: after the suffix is normalised it starts with a dot; a suffix
    that already starts with a dot is left alone, so normalising twice
    changes nothing; and the dot-less form used in the default file
    names, [TrimPrefix suffix "."], gives back the suffix as the user
    typed it when it had no leading dot. *)
Theorem ensureDot_normalises (suffix : string) :
  HasPrefix (ensureDot suffix) "." = true /\
  ensureDot (ensureDot suffix) = ensureDot suffix /\
  (HasPrefix suffix "." = true -> ensureDot suffix = suffix) /\
  (HasPrefix suffix "." = false ->
   ensureDot suffix = "." ++ suffix /\ TrimPrefix (ensureDot suffix) "." = suffix).
Proof.
  assert (Dot : forall s, HasPrefix ("." ++ s) "." = true).
  { intros s. unfold HasPrefix. cbn [append prefix].
    destruct (ascii_dec "." "."); [now destruct s | congruence]. }
  assert (Keep : forall s, HasPrefix s "." = true -> ensureDot s = s).
  { intros s H. unfold ensureDot. now rewrite H. }
  assert (Has : HasPrefix (ensureDot suffix) "." = true).
  { unfold ensureDot. destruct (HasPrefix suffix ".") eqn:E; cbn [negb]; [exact E | apply Dot]. }
  split; [exact Has|]. split; [now apply Keep|]. split; [apply Keep|].
  intros H. unfold ensureDot. rewrite H. cbn [negb].
  split; [reflexivity | apply TrimPrefix_dot].
Qed.

Lemma ensureDot_normalises_witness :
  ensureDot ".de" = ".de" /\
  (ensureDot "de" = "." ++ "de" /\ TrimPrefix (ensureDot "de") "." = "de").
Proof.
  destruct (ensureDot_normalises ".de") as [_ [_ [H1 _]]].
  destruct (ensureDot_normalises "de") as [_ [_ [_ H2]]].
  split; [apply H1 | apply H2]; reflexivity.
Defined.

End SetupExtras.

(* ================================================================== *)
(** ** The batch-configuration utility and the special-status draft *)

Section BatchExtras.
Import BatchConfigs SpecialStatusDraft.


Lemma pairs_ind (P : list string -> Prop) :
  P [] -> (forall x y l, P l -> P (x :: y :: l)) ->
  forall l, Nat.even (List.length l) = true -> P l.
Proof.
  intros H0 H2 l.
  assert (B : (Nat.even (List.length l) = true -> P l) /\
              (forall x, Nat.even (List.length (x :: l)) = true -> P (x :: l))).
  { induction l as [|y l [IH1 IH2]].
    - split; [intros _; exact H0 | intros x H; discriminate].
    - split; [apply IH2|]. intros x H. apply H2, IH1. exact H. }
  apply B.
Qed.

(** X20: the utility reads its arguments two by two.  Parsing a list
    that starts with an even number of arguments is parsing that part
    and then the rest from the settings reached; a last flag without
    value is ignored; and each pair acts through [setFlag] alone, so a
    word in value position is never read as a flag. *)
Theorem parseArgs_reads_pairs
        (atoi : string -> option Z) (before after : list string) (s : Settings) :
  Nat.even (List.length before) = true ->
  parseArgs atoi (before ++ after) s = parseArgs atoi after (parseArgs atoi before s) /\
  (forall dangling, parseArgs atoi (before ++ [dangling]) s = parseArgs atoi before s) /\
  (forall flag value,
      parseArgs atoi (before ++ [flag; value]) s
      = setFlag atoi flag value (parseArgs atoi before s)).
Proof.
  intros H.
  assert (C : forall rest s', parseArgs atoi (before ++ rest) s'
                              = parseArgs atoi rest (parseArgs atoi before s')).
  { intros rest.
    apply (pairs_ind
             (fun l => forall s', parseArgs atoi (l ++ rest) s'
                                  = parseArgs atoi rest (parseArgs atoi l s'))); [| |exact H].
    - reflexivity.
    - intros x y l IH s'. cbn [app parseArgs]. apply IH. }
  split; [apply C|]. split.
  - intros dangling. now rewrite C.
  - intros flag value. now rewrite C.
Qed.

Lemma parseArgs_reads_pairs_witness :
  parseArgs (fun _ => Some 7%Z) (["-batch-start"; "7"] ++ ["-pattern"; "a"]) initial
  = parseArgs (fun _ => Some 7%Z) ["-pattern"; "a"]
              (parseArgs (fun _ => Some 7%Z) ["-batch-start"; "7"] initial) /\
  (forall dangling,
      parseArgs (fun _ => Some 7%Z) (["-batch-start"; "7"] ++ [dangling]) initial
      = parseArgs (fun _ => Some 7%Z) ["-batch-start"; "7"] initial) /\
  (forall flag value,
      parseArgs (fun _ => Some 7%Z) (["-batch-start"; "7"] ++ [flag; value]) initial
      = setFlag (fun _ => Some 7%Z) flag value
                (parseArgs (fun _ => Some 7%Z) ["-batch-start"; "7"] initial)).
Proof.
  apply (parseArgs_reads_pairs (fun _ => Some 7%Z) ["-batch-start"; "7"]
                               ["-pattern"; "a"] initial).
  reflexivity.
Defined.




(** The first byte of a candidate is a byte of the alphabet. *)
Lemma generate_first_byte (charset : string) (length : Z) (suffix : string)
      (regex : option Regexp) (regexMode : RegexMode) (domain : string) :
  In domain (generateCombinationsIterative charset length suffix regex regexMode) ->
  exists c rest, domain = String c rest /\ In c (list_ascii_of_string charset).
Proof.
  intros H. apply generate_shape in H.
  destruct H as [Hs [Hl [k [Hk ->]]]].
  pose proof (get_currentLoop charset (Z.to_nat length) Hs k "" 0 Hk) as G.
  fold (currentOf charset length k) in G.
  replace (0 <? Z.to_nat length)%nat with true in G
    by (symmetry; apply Nat.ltb_lt; lia).
  destruct (currentOf charset length k) as [|c body]; [discriminate|].
  cbn [String.get] in G. injection G as ->.
  eexists. eexists. split; [reflexivity|].
  apply byteAt_In. apply Z.mod_pos_bound. lia.
Qed.

(** X22: the 26 batch configurations written for pattern D split the
    candidate space.  The batch letters of a full run are a ... z, each
    batch filter ^<letter>.* passes the regex guard, and every candidate
    the scanner generates over the letters is emitted under exactly one
    of the 26 filters (read as "starts with the letter"), namely the one
    of its first letter. *)
Theorem letter_batches_partition_the_space :
  batchLetters 0 26 = Some letterStrings /\
  (forall itoa domainLength,
      Forall (fun letter =>
                validateRegexComplexity (batchRegex itoa "D" letter domainLength) = None)
             letterStrings) /\
  (forall length suffix domain,
      In domain (generateCombinationsIterative letters length suffix None RegexModeFull) ->
      exists letter,
        In letter letterStrings /\
        In domain (generateCombinationsIterative
                     letters length suffix
                     (Some (regexp2_starts_with letter)) RegexModeFull) /\
        forall letter',
          In letter' letterStrings ->
          In domain (generateCombinationsIterative
                       letters length suffix
                       (Some (regexp2_starts_with letter')) RegexModeFull) ->
          letter' = letter).
Proof.
  split; [reflexivity|]. split.
  - intros itoa domainLength. unfold letterStrings.
    cbn [list_ascii_of_string letters map].
    repeat constructor.
  - intros length suffix domain H.
    destruct (generate_first_byte _ _ _ _ _ _ H) as [c [rest [-> Hc]]].
    exists (String c "").
    split; [exact (in_map (fun a => String a "") _ _ Hc)|].
    split.
    + rewrite generate_full_filter. apply filter_In. split; [exact H|].
      unfold accepts, regexp2_starts_with. rewrite prefix_single.
      now destruct (ascii_dec c c).
    + intros letter' Hin Hm.
      unfold letterStrings in Hin. apply in_map_iff in Hin.
      destruct Hin as [c' [<- _]].
      rewrite generate_full_filter in Hm. apply filter_In in Hm.
      destruct Hm as [_ Hm]. unfold accepts, regexp2_starts_with in Hm.
      rewrite prefix_single in Hm.
      destruct (ascii_dec c' c) as [->|]; [reflexivity | discriminate].
Qed.

Lemma letter_batches_partition_the_space_witness :
  exists letter,
    In letter letterStrings /\
    In "b.de" (generateCombinationsIterative
                 letters 1 ".de" (Some (regexp2_starts_with letter)) RegexModeFull) /\
    forall letter',
      In letter' letterStrings ->
      In "b.de" (generateCombinationsIterative
                   letters 1 ".de" (Some (regexp2_starts_with letter')) RegexModeFull) ->
      letter' = letter.
Proof.
  destruct letter_batches_partition_the_space as [_ [_ H]].
  apply (H 1%Z ".de" "b.de").
  vm_compute. right. left. reflexivity.
Defined.

Lemma prefix_app_l (a b s : string) : prefix (a ++ b) s = true -> prefix a s = true.
Proof.
  revert s. induction a as [|c a IH]; intros s H; [now destruct s|].
  destruct s as [|d s]; [discriminate|].
  cbn [append prefix] in *.
  destruct (ascii_dec c d); [now apply IH | discriminate].
Qed.

(** A text that contains a string contains each of its prefixes. *)
Lemma Contains_app_l (s a b : string) : Contains s (a ++ b) = true -> Contains s a = true.
Proof.
  induction s as [|c s IH]; intros H.
  - cbn [Contains] in *. rewrite orb_false_r in *. now apply (prefix_app_l a b).
  - cbn [Contains] in *. apply orb_true_iff in H. apply orb_true_iff.
    destruct H as [H|H]; [left; now apply (prefix_app_l a b) | right; now apply IH].
Qed.

(** X23: the draft [checkSpecialStatus] always answers; whether it
    reports a special status does not depend on the order in which the
    map is walked (it does exactly when some indicator occurs in the
    lowercased text), and a reported status is never empty; but the
    status itself can depend on that order: every text with
    status: pendingdelete can be labelled Pending Delete as well as
    Pending Registration. *)
Theorem checkSpecialStatus_outcomes (whoisResult : string) :
  (exists outcome, checkSpecialStatus whoisResult outcome) /\
  (forall status,
      checkSpecialStatus whoisResult (true, status) ->
      anyIndicator (ToLower whoisResult) (map fst specialStatusIndicators) = true /\
      status <> "") /\
  (forall status,
      checkSpecialStatus whoisResult (false, status) ->
      anyIndicator (ToLower whoisResult) (map fst specialStatusIndicators) = false /\
      status = "") /\
  (Contains (ToLower whoisResult) "status: pendingdelete" = true ->
   checkSpecialStatus whoisResult (true, "Pending Delete") /\
   checkSpecialStatus whoisResult (true, "Pending Registration")).
Proof.
  assert (Any : forall l : list (string * string),
             anyIndicator (ToLower whoisResult) (map fst l) = true <->
             exists indicator status,
               In (indicator, status) l /\
               Contains (ToLower whoisResult) indicator = true).
  { intros l. unfold anyIndicator. rewrite existsb_exists. split.
    - intros [x [Hin Hc]]. apply in_map_iff in Hin.
      destruct Hin as [[i st] [<- Hin]]. eauto.
    - intros [i [st [Hin Hc]]]. exists i. split; [|exact Hc].
      apply in_map_iff. now exists (i, st). }
  split; [|split; [|split]].
  - destruct (anyIndicator (ToLower whoisResult) (map fst specialStatusIndicators)) eqn:E.
    + apply Any in E. destruct E as [i [st [Hin Hc]]].
      exists (true, st). now apply (SpecialFound _ i st).
    + exists (false, ""). apply SpecialAbsent. intros i st Hin.
      destruct (Contains (ToLower whoisResult) i) eqn:Hc; [|reflexivity].
      assert (T : anyIndicator (ToLower whoisResult) (map fst specialStatusIndicators) = true)
        by (apply Any; eauto).
      congruence.
  - intros status H. inversion H as [i st Hin Hc|]; subst. split.
    + apply Any. eauto.
    + unfold specialStatusIndicators in Hin. simpl in Hin.
      intuition (match goal with E : (_, _) = (_, _) |- _ => injection E as <- <- end;
                 discriminate).
  - intros status H. inversion H as [|Hnone]; subst. split; [|reflexivity].
    apply not_true_is_false. intros T. apply Any in T.
    destruct T as [i [st [Hin Hc]]]. rewrite (Hnone i st Hin) in Hc. discriminate.
  - intros Hc. split.
    + apply (SpecialFound _ "status: pendingdelete"); [simpl; tauto | exact Hc].
    + apply (SpecialFound _ "status: pending"); [simpl; tauto|].
      now apply (Contains_app_l _ "status: pending" "delete").
Qed.

Lemma checkSpecialStatus_outcomes_witness :
  checkSpecialStatus "Status: pendingDelete" (true, "Pending Delete") /\
  checkSpecialStatus "Status: pendingDelete" (true, "Pending Registration").
Proof.
  destruct (checkSpecialStatus_outcomes "Status: pendingDelete") as [_ [_ [_ H]]].
  apply H. reflexivity.
Defined.

End BatchExtras.

(* ================================================================== *)
(** ** Reasons that are never recorded; the earlier and the later check *)

Section VariantExtras.

Variable globalConfig : option Config.
Variable net : Network.

Lemma handleRateLimitedDomain_live (domain : string) (hasDNS : bool) (w : World)
      (r : SpecialStatusDomain) :
  In r (specialStatusDomains (snd (handleRateLimitedDomain globalConfig domain hasDNS w))) ->
  In r (specialStatusDomains w) \/ liveRecord domain r.
Proof.
  unfold handleRateLimitedDomain. destruct hasDNS; [now left|].
  destruct globalConfig; [|now left].
  cbn. intros H. apply in_app_or in H. destruct H as [H|[<-|[]]]; [now left|].
  right. now left.
Qed.

Lemma availabilityWhoisLoop_live (n i : nat) (domain : string) (hasDNS : bool)
      (w : World) (r : SpecialStatusDomain) :
  In r (specialStatusDomains
          (snd (availabilityWhoisLoop globalConfig net n i domain hasDNS w))) ->
  In r (specialStatusDomains w) \/ liveRecord domain r.
Proof.
  revert i w. induction n as [|n IH]; intros i w; [now left|].
  cbn [availabilityWhoisLoop]. rewrite bind_run. cbn [call fst snd]. fold (tick w).
  destruct (Whois net (clock w) domain) as [result|err].
  - destruct (isRateLimit (ToLower result)).
    + destruct (i <? maxRetries - 1)%nat.
      * intros H. apply IH in H. exact H.
      * intros H. apply handleRateLimitedDomain_live in H. exact H.
    + destruct (firstIndicator _ availableIndicators); [now left|].
      destruct (firstIndicator _ enhancedRegisteredIndicators) eqn:He; [now left|].
      destruct (firstIndicator _ specialStatusIndicators) as [indicator|] eqn:Hs;
        [|now left].
      cbn. intros H. apply in_app_or in H. destruct H as [H|[<-|[]]]; [now left|].
      right. right. exists result, indicator. auto.
  - destruct (isRateLimit (ToLower err)).
    + destruct (i =? maxRetries - 1)%nat.
      * intros H. apply handleRateLimitedDomain_live in H. exact H.
      * intros H. apply IH in H. exact H.
    + intros H. apply IH in H. exact H.
Qed.

Lemma firstIndicator_none_In (result : string) (l : list string) (x : string) :
  firstIndicator result l = None -> In x l -> Contains result x = false.
Proof. intros H Hin. exact (find_none _ _ H x Hin). Qed.

(** The reasons of indicators that an earlier entry always catches. *)
Lemma liveRecord_status (domain : string) (r : SpecialStatusDomain) :
  liveRecord domain r ->
  ssDomain r = domain /\
  ssStatus r <> "EXPIRED" /\ ssStatus r <> "CLIENTHOLD" /\ ssStatus r <> "CLIENT HOLD".
Proof.
  intros [->|[text [indicator [He [Hs ->]]]]].
  { cbn. repeat split; discriminate. }
  split; [reflexivity|].
  assert (Hclient : Contains (ToLower text) "status: client" = false).
  { apply (firstIndicator_none_In _ _ _ He). simpl. tauto. }
  unfold firstIndicator, specialStatusIndicators in Hs. cbn [find] in Hs.
  repeat match type of Hs with
         | (if Contains ?t ?x then _ else _) = _ =>
             let E := fresh "E" in
             destruct (Contains t x) eqn:E;
             [ injection Hs as <-;
               first
                 [ solve [cbn [ssStatus specialRecord];
                          repeat split; intros X; vm_compute in X; discriminate X]
                 | exfalso;
                   first
                     [ apply (Contains_app_l _ "status: client" "hold") in E; congruence
                     | apply (Contains_app_l _ "status: client" " hold") in E; congruence
                     | apply (Contains_app_l _ "status: expire" "d") in E; congruence ] ]
             | ]
         end.
  discriminate Hs.
Qed.

(** X24: three of the listed special-status reasons can never be
    recorded.  Whatever the network answers, a record appended by an
    availability check is for the checked domain and its status is never
    EXPIRED (the entry status: expire comes first in the list and records
    EXPIRE), nor CLIENTHOLD or CLIENT HOLD (such a response contains
    status: client and is classified as registered). *)
Theorem unreachable_special_reasons (domain : string) (w : World)
        (r : SpecialStatusDomain) :
  In r (specialStatusDomains (snd (CheckDomainAvailability globalConfig net domain w))) ->
  In r (specialStatusDomains w) \/
  (ssDomain r = domain /\
   ssStatus r <> "EXPIRED" /\ ssStatus r <> "CLIENTHOLD" /\ ssStatus r <> "CLIENT HOLD").
Proof.
  rewrite CheckDomainAvailability_run.
  pose proof (keeps_CheckDomainSignatures globalConfig net domain w) as Hk.
  revert Hk. generalize (snd (CheckDomainSignatures globalConfig net domain w)) as w1.
  generalize (fst (fst (CheckDomainSignatures globalConfig net domain w))) as signatures.
  intros signatures w1 Hk. unfold availabilityFromSignatures.
  destruct (existsb _ signatures); [cbn; rewrite Hk; now left|].
  destruct (signatureFlags signatures (false, false, false)) as [[reg dn] wh].
  destruct reg; [cbn; rewrite Hk; now left|].
  intros H. apply availabilityWhoisLoop_live in H. rewrite Hk in H.
  destruct H as [H|H]; [now left | right; now apply liveRecord_status].
Qed.

Lemma anyIndicator_incl (result : string) (l1 l2 : list string) :
  forallb (fun x => existsb (String.eqb x) l2) l1 = true ->
  anyIndicator result l1 = true -> anyIndicator result l2 = true.
Proof.
  intros Hsub H. unfold anyIndicator in *.
  apply existsb_exists in H. destruct H as [x [Hin Hc]].
  rewrite forallb_forall in Hsub. specialize (Hsub x Hin).
  apply existsb_exists in Hsub. destruct Hsub as [y [Hy E]].
  apply String.eqb_eq in E. subst y.
  apply existsb_exists. now exists x.
Qed.

Lemma firstIndicator_cases (result : string) (l : list string) :
  (firstIndicator result l = None /\ anyIndicator result l = false) \/
  (exists x, firstIndicator result l = Some x /\ anyIndicator result l = true).
Proof.
  destruct (anyIndicator result l) eqn:E.
  - right. destruct (firstIndicator_some _ _ E) as [x Hx]. eauto.
  - left. split; [now apply firstIndicator_none | reflexivity].
Qed.

Lemma draft_keeps_special (n : nat) (domain : string) (hasDNS : bool) :
  keepsSpecial (CheckerDraft.availabilityWhoisLoop net n domain hasDNS).
Proof.
  induction n as [|n IH]; cbn [CheckerDraft.availabilityWhoisLoop].
  - apply keeps_ret.
  - apply keeps_bind; [apply keeps_call|].
    intros [result|err].
    + destruct (CheckerDraft.isAccessDenied _);
        [destruct hasDNS; apply keeps_ret|].
      destruct (firstIndicator _ availableIndicators); [apply keeps_ret|].
      destruct (firstIndicator _ enhancedRegisteredIndicators); [apply keeps_ret|].
      destruct (firstIndicator _ CheckerDraft.specialStatusIndicators); apply keeps_ret.
    + destruct (CheckerDraft.isAccessDenied _); [destruct hasDNS; apply keeps_ret | exact IH].
Qed.

Lemma draft_run (domain : string) (w : World) :
  CheckerDraft.CheckDomainAvailability globalConfig net domain w
  = CheckerDraft.availabilityFromSignatures net domain
      (signaturesOf globalConfig net domain w)
      (afterSignatures globalConfig net domain w).
Proof.
  unfold CheckerDraft.CheckDomainAvailability, signaturesOf, afterSignatures.
  rewrite bind_run.
  pose proof (CheckDomainSignatures_nil globalConfig net domain w) as H.
  destruct (CheckDomainSignatures globalConfig net domain w) as [[sigs err] w1].
  simpl in *. now subst err.
Qed.

(** X25: the earlier availability check of internal/domain/checker.go
    against the later one.  The earlier check never writes to the
    special-status list.  On the same network and world the two gather
    the same signatures and agree whenever a signature is found (not
    available).  When none is found and the first WHOIS answer is a
    response without any of the five rate-limit phrases, a candidate the
    later check reports available is reported available by the earlier
    one too, and the two verdicts are equal unless the response matches
    one of the later check's special-status indicators. *)
Theorem earlier_and_later_check (domain : string) (w : World) :
  specialStatusDomains (snd (CheckerDraft.CheckDomainAvailability globalConfig net domain w))
  = specialStatusDomains w /\
  (signaturesOf globalConfig net domain w <> [] ->
   CheckerDraft.CheckDomainAvailability globalConfig net domain w
   = CheckDomainAvailability globalConfig net domain w) /\
  (forall text,
      signaturesOf globalConfig net domain w = [] ->
      Whois net (clock (afterSignatures globalConfig net domain w)) domain = WhoisOk text ->
      isRateLimit (ToLower text) = false ->
      (fst (fst (CheckDomainAvailability globalConfig net domain w)) = true ->
       fst (fst (CheckerDraft.CheckDomainAvailability globalConfig net domain w)) = true) /\
      (anyIndicator (ToLower text) specialStatusIndicators = false ->
       fst (CheckerDraft.CheckDomainAvailability globalConfig net domain w)
       = fst (CheckDomainAvailability globalConfig net domain w))).
Proof.
  split; [|split].
  - rewrite draft_run. unfold CheckerDraft.availabilityFromSignatures.
    pose proof (keeps_CheckDomainSignatures globalConfig net domain w) as Hk.
    fold (afterSignatures globalConfig net domain w) in Hk.
    destruct (existsb _ (signaturesOf globalConfig net domain w)); [exact Hk|].
    destruct (signatureFlags _ (false, false, false)) as [[reg dn] wh].
    destruct reg; [exact Hk|].
    now rewrite draft_keeps_special.
  - intros Hne. rewrite draft_run.
    rewrite (CheckDomainAvailability_decided globalConfig net domain w Hne).
    destruct (CheckDomainSignatures_parts globalConfig net domain w)
      as [b1 [b2 [b3 [b4 [b5 [b6 [b7 [b8 [k [E _]]]]]]]]]].
    revert Hne. rewrite E.
    destruct b1, b2, b3, b4, b5, b6, b7, b8;
      first [intros _; reflexivity | intros H; now elim H].
  - intros text Hs Hw Hl.
    rewrite draft_run, (CheckDomainAvailability_undecided globalConfig net domain w Hs), Hs.
    unfold CheckerDraft.availabilityFromSignatures. cbn [existsb signatureFlags].
    unfold maxRetries.
    rewrite (availabilityWhoisLoop_answer _ _ _ _ _ _ _ _ Hw Hl).
    cbn [CheckerDraft.availabilityWhoisLoop]. rewrite bind_run. cbn [call fst snd].
    rewrite Hw.
    assert (Hd : CheckerDraft.isAccessDenied (ToLower text) = false).
    { unfold isRateLimit in Hl. unfold CheckerDraft.isAccessDenied.
      repeat (apply orb_false_elim in Hl; destruct Hl as [Hl ?]).
      repeat (apply orb_false_intro); assumption. }
    rewrite Hd.
    destruct (firstIndicator _ availableIndicators); [split; reflexivity|].
    destruct (firstIndicator _ enhancedRegisteredIndicators);
      [split; [discriminate | reflexivity]|].
    destruct (firstIndicator_cases (ToLower text) specialStatusIndicators)
      as [[-> Hnone]|[x [-> Hsome]]].
    + assert (Hn13 : firstIndicator (ToLower text) CheckerDraft.specialStatusIndicators = None).
      { apply firstIndicator_none. apply not_true_is_false. intros T.
        apply (anyIndicator_incl _ _ specialStatusIndicators) in T; [congruence|reflexivity]. }
      rewrite Hn13. split; reflexivity.
    + split; [discriminate | congruence].
Qed.

End VariantExtras.

(* ================================================================== *)
(** ** Instances *)

Lemma regex_guard_accepts_iff_witness :
  validateRegexComplexity "^ab*c+$" = None /\
  (200 < String.length (String.concat "" (repeat "0123456789" 21)))%nat.
Proof.
  destruct (regex_guard_accepts_iff "^ab*c+$") as [[_ H] _].
  destruct (regex_guard_accepts_iff (String.concat "" (repeat "0123456789" 21)))
    as [_ [H' _]].
  split.
  - apply H. split; [vm_compute; lia|]. split; [|vm_compute; lia].
    intros dangerous Hd. simpl in Hd.
    repeat (destruct Hd as [<-|Hd]; [reflexivity|]). destruct Hd.
  - apply H'. reflexivity.
Defined.

Lemma signature_gathering_budget_witness :
  CheckDomainSignatures
    (Some {| ScannerMethods := {| DNSCheck := false; WHOISCheck := false;
                                  SSLCheck := false; HTTPCheck := true |};
             ShowRegistered := false |})
    (resolvingNet (WhoisOk "Registrar: Example")) "ab.li" freshWorld
  = (([], None), freshWorld).
Proof.
  destruct (signature_gathering_budget
              (Some {| ScannerMethods := {| DNSCheck := false; WHOISCheck := false;
                                            SSLCheck := false; HTTPCheck := true |};
                       ShowRegistered := false |})
              (resolvingNet (WhoisOk "Registrar: Example")) "ab.li" freshWorld)
    as [k [_ [_ [_ [_ [_ [_ [_ H]]]]]]]].
  apply H; reflexivity.
Defined.

Lemma applyDefaults_only_fills_gaps_witness :
  ConfigPkg.applyDefaults (ConfigPkg.applyDefaults emptyConfig)
  = ConfigPkg.applyDefaults emptyConfig.
Proof.
  destruct (applyDefaults_only_fills_gaps (ConfigPkg.applyDefaults emptyConfig)) as [H _].
  apply H. unfold wellSet. cbn. repeat split; discriminate.
Defined.

Lemma single_worker_run_accounts_for_every_job_witness :
  Permutation
    (Main.availableDomains
       (Main.collectResults true
          (fst (Worker.Worker None (silentNet (WhoisOk "No match for domain"))
                              ["ab.li"; "cd.li"] freshWorld))) ++
     Main.registeredDomains
       (Main.collectResults true
          (fst (Worker.Worker None (silentNet (WhoisOk "No match for domain"))
                              ["ab.li"; "cd.li"] freshWorld))))
    ["ab.li"; "cd.li"].
Proof.
  destruct (single_worker_run_accounts_for_every_job
              None (silentNet (WhoisOk "No match for domain")) true
              ["ab.li"; "cd.li"] freshWorld) as [_ [H _]].
  apply H. reflexivity.
Defined.

Lemma unreachable_special_reasons_witness :
  In (specialRecord "ab.li" "EXPIRE") (specialStatusDomains freshWorld) \/
  (ssDomain (specialRecord "ab.li" "EXPIRE") = "ab.li" /\
   ssStatus (specialRecord "ab.li" "EXPIRE") <> "EXPIRED" /\
   ssStatus (specialRecord "ab.li" "EXPIRE") <> "CLIENTHOLD" /\
   ssStatus (specialRecord "ab.li" "EXPIRE") <> "CLIENT HOLD").
Proof.
  apply (unreachable_special_reasons None (silentNet (WhoisOk "Status: expired"))
                                     "ab.li" freshWorld).
  vm_compute. left. reflexivity.
Defined.

Lemma earlier_and_later_check_witness :
  fst (fst (CheckerDraft.CheckDomainAvailability
              None (silentNet (WhoisOk "nothing on file")) "ab.li" freshWorld)) = true /\
  fst (CheckerDraft.CheckDomainAvailability
         None (silentNet (WhoisOk "Registrar: Example")) "ab.li" freshWorld)
  = fst (CheckDomainAvailability
           None (silentNet (WhoisOk "Registrar: Example")) "ab.li" freshWorld).
Proof.
  split.
  - destruct (earlier_and_later_check None (silentNet (WhoisOk "nothing on file"))
                                      "ab.li" freshWorld) as [_ [_ H]].
    destruct (H "nothing on file" eq_refl eq_refl eq_refl) as [H1 _].
    apply H1. reflexivity.
  - destruct (earlier_and_later_check None (silentNet (WhoisOk "Registrar: Example"))
                                      "ab.li" freshWorld) as [_ [H _]].
    rewrite H; [reflexivity | vm_compute; discriminate].
Defined.
